(** * FreeRTOS-Cpp: the C++ binding layer over the FreeRTOS kernel C API

    The wrapper classes of [include/FreeRTOS/*.hpp] are embedded as programs
    over the kernel's C interface.  The kernel itself is external to the
    repository: a kernel call is an event of the signature [KCall], a wrapper
    method is a finite tree of such events ([Prog]), and a kernel is any
    state-passing handler of the events.  Every statement below therefore
    holds for all kernels. *)

From Stdlib Require Import ZArith List String Bool Lia.
From Stdlib Require Import Init.Byte.
From Stdlib Require Import Ascii.
Import ListNotations.

Set Implicit Arguments.
Open Scope Z_scope.

(** ** Port types ([FreeRTOS.h], [portmacro.h]) *)

Definition BaseType_t := Z.
Definition UBaseType_t := Z.
Definition TickType_t := Z.
Definition EventBits_t := Z.
Definition uint32_t := Z.
Definition size_t := Z.
Definition configSTACK_DEPTH_TYPE := Z.

(** An opaque handle issued by the kernel; [NULL] is the null pointer. *)
Inductive Handle : Type :=
| NULL
| Ptr (addr : positive).

Definition SemaphoreHandle_t := Handle.
Definition QueueHandle_t := Handle.
Definition EventGroupHandle_t := Handle.
Definition TaskHandle_t := Handle.
Definition TimerHandle_t := Handle.
Definition StreamBufferHandle_t := Handle.
Definition MessageBufferHandle_t := Handle.

(** [handle != NULL] *)
Definition neqNULL (h : Handle) : bool :=
  match h with NULL => false | Ptr _ => true end.

(** The address of a wrapper object ([this]). *)
Definition ObjAddr := positive.

(** The private data members that hold kernel storage in the [Static*]
    classes. *)
Inductive Field : Type :=
| staticMutex | staticRecursiveMutex
| staticBinarySemaphore | staticCountingSemaphore
| staticEventGroup
| staticQueue | storage
| taskBuffer | stack
| staticTimer
| staticStreamBuffer
| staticMessageBuffer.

(** Where a buffer handed to the kernel lives: [&this->field] (or the array
    [this->field] decayed to a pointer). *)
Inductive BufPtr : Type :=
| member (this : ObjAddr) (f : Field).

(** The two C trampolines the wrappers register with the kernel. *)
Inductive FnPtr : Type :=
| fn_callTaskFunction
| fn_callTimerFunction.

(** [eTaskState] and [eNotifyAction] of [task.h]. *)
Inductive eTaskState : Type :=
| eRunning | eReady | eBlocked | eSuspended | eDeleted | eInvalid.

Inductive eNotifyAction : Type :=
| eNoAction | eSetBits | eIncrement
| eSetValueWithOverwrite | eSetValueWithoutOverwrite.

(** The constants and configuration macros the headers take from the kernel
    port ([projdefs.h], [FreeRTOSConfig.h]); they are not defined in this
    repository, so the embedding is parametric in them. *)
Class FreeRTOSConfig : Type := {
  pdFALSE : BaseType_t;
  pdTRUE : BaseType_t;
  pdPASS : BaseType_t;
  configUSE_16_BIT_TICKS : Z;
  INCLUDE_vTaskDelete : Z
}.

(** The values the FreeRTOS kernel gives them in its default configuration. *)
Definition FreeRTOS_port : FreeRTOSConfig :=
  {| pdFALSE := 0; pdTRUE := 1; pdPASS := 1;
     configUSE_16_BIT_TICKS := 0; INCLUDE_vTaskDelete := 1 |}.

(** ** The kernel C API as an event signature

    [KCall X] is a call whose answer has type [X]: the C return value,
    paired with the final content of every cell the call received a pointer
    to.  A pointer argument that may be [NULL] is an [option]: [None] is
    [NULL], [Some v] the address of a cell that holds [v] at the call. *)
Inductive KCall : Type -> Type :=
(* semphr.h *)
| xSemaphoreCreateMutex : KCall SemaphoreHandle_t
| xSemaphoreCreateRecursiveMutex : KCall SemaphoreHandle_t
| xSemaphoreCreateMutexStatic (pxMutexBuffer : BufPtr) : KCall SemaphoreHandle_t
| xSemaphoreCreateRecursiveMutexStatic (pxMutexBuffer : BufPtr)
  : KCall SemaphoreHandle_t
| xSemaphoreCreateBinary : KCall SemaphoreHandle_t
| xSemaphoreCreateCounting (uxMaxCount uxInitialCount : UBaseType_t)
  : KCall SemaphoreHandle_t
| xSemaphoreCreateBinaryStatic (pxSemaphoreBuffer : BufPtr)
  : KCall SemaphoreHandle_t
| xSemaphoreCreateCountingStatic (uxMaxCount uxInitialCount : UBaseType_t)
    (pxSemaphoreBuffer : BufPtr) : KCall SemaphoreHandle_t
| vSemaphoreDelete (xSemaphore : SemaphoreHandle_t) : KCall unit
| xSemaphoreTake (xSemaphore : SemaphoreHandle_t) (xTicksToWait : TickType_t)
  : KCall BaseType_t
| xSemaphoreTakeFromISR (xSemaphore : SemaphoreHandle_t)
    (pxHigherPriorityTaskWoken : option BaseType_t)
  : KCall (BaseType_t * BaseType_t)
| xSemaphoreGive (xSemaphore : SemaphoreHandle_t) : KCall BaseType_t
| xSemaphoreGiveFromISR (xSemaphore : SemaphoreHandle_t)
    (pxHigherPriorityTaskWoken : option BaseType_t)
  : KCall (BaseType_t * BaseType_t)
| xSemaphoreTakeRecursive (xMutex : SemaphoreHandle_t)
    (xTicksToWait : TickType_t) : KCall BaseType_t
| xSemaphoreGiveRecursive (xMutex : SemaphoreHandle_t) : KCall BaseType_t
| uxSemaphoreGetCount (xSemaphore : SemaphoreHandle_t) : KCall UBaseType_t
(* event_groups.h *)
| xEventGroupCreate : KCall EventGroupHandle_t
| xEventGroupCreateStatic (pxEventGroupBuffer : BufPtr)
  : KCall EventGroupHandle_t
| vEventGroupDelete (xEventGroup : EventGroupHandle_t) : KCall unit
| xEventGroupWaitBits (xEventGroup : EventGroupHandle_t)
    (uxBitsToWaitFor : EventBits_t) (xClearOnExit xWaitForAllBits : BaseType_t)
    (xTicksToWait : TickType_t) : KCall EventBits_t
| xEventGroupSetBits (xEventGroup : EventGroupHandle_t)
    (uxBitsToSet : EventBits_t) : KCall EventBits_t
| xEventGroupSetBitsFromISR (xEventGroup : EventGroupHandle_t)
    (uxBitsToSet : EventBits_t) (pxHigherPriorityTaskWoken : option BaseType_t)
  : KCall (BaseType_t * BaseType_t)
| xEventGroupClearBits (xEventGroup : EventGroupHandle_t)
    (uxBitsToClear : EventBits_t) : KCall EventBits_t
| xEventGroupClearBitsFromISR (xEventGroup : EventGroupHandle_t)
    (uxBitsToClear : EventBits_t) : KCall BaseType_t
| xEventGroupGetBits (xEventGroup : EventGroupHandle_t) : KCall EventBits_t
| xEventGroupGetBitsFromISR (xEventGroup : EventGroupHandle_t)
  : KCall EventBits_t
| xEventGroupSync (xEventGroup : EventGroupHandle_t)
    (uxBitsToSet uxBitsToWaitFor : EventBits_t) (xTicksToWait : TickType_t)
  : KCall EventBits_t
(* queue.h; an item is passed by value, a receive buffer is passed with
   its content and comes back in the answer *)
| xQueueCreate (uxQueueLength : UBaseType_t) (uxItemSize : size_t)
  : KCall QueueHandle_t
| xQueueCreateStatic (uxQueueLength : UBaseType_t) (uxItemSize : size_t)
    (pucQueueStorageBuffer pxQueueBuffer : BufPtr) : KCall QueueHandle_t
| vQueueDelete (xQueue : QueueHandle_t) : KCall unit
| xQueueSendToBack (T : Type) (xQueue : QueueHandle_t) (pvItemToQueue : T)
    (xTicksToWait : TickType_t) : KCall BaseType_t
| xQueueSendToBackFromISR (T : Type) (xQueue : QueueHandle_t)
    (pvItemToQueue : T) (pxHigherPriorityTaskWoken : option BaseType_t)
  : KCall (BaseType_t * BaseType_t)
| xQueueSendToFront (T : Type) (xQueue : QueueHandle_t) (pvItemToQueue : T)
    (xTicksToWait : TickType_t) : KCall BaseType_t
| xQueueSendToFrontFromISR (T : Type) (xQueue : QueueHandle_t)
    (pvItemToQueue : T) (pxHigherPriorityTaskWoken : option BaseType_t)
  : KCall (BaseType_t * BaseType_t)
| xQueueReceive (T : Type) (xQueue : QueueHandle_t) (pvBuffer : T)
    (xTicksToWait : TickType_t) : KCall (BaseType_t * T)
| xQueueReceiveFromISR (T : Type) (xQueue : QueueHandle_t) (pvBuffer : T)
    (pxHigherPriorityTaskWoken : option BaseType_t)
  : KCall ((BaseType_t * T) * BaseType_t)
| uxQueueMessagesWaiting (xQueue : QueueHandle_t) : KCall UBaseType_t
| uxQueueMessagesWaitingFromISR (xQueue : QueueHandle_t) : KCall UBaseType_t
| uxQueueSpacesAvailable (xQueue : QueueHandle_t) : KCall UBaseType_t
| xQueueReset (xQueue : QueueHandle_t) : KCall BaseType_t
| xQueueOverwrite (T : Type) (xQueue : QueueHandle_t) (pvItemToQueue : T)
  : KCall BaseType_t
| xQueueOverwriteFromISR (T : Type) (xQueue : QueueHandle_t)
    (pvItemToQueue : T) (pxHigherPriorityTaskWoken : option BaseType_t)
  : KCall (BaseType_t * BaseType_t)
| xQueuePeek (T : Type) (xQueue : QueueHandle_t) (pvBuffer : T)
    (xTicksToWait : TickType_t) : KCall (BaseType_t * T)
| xQueuePeekFromISR (T : Type) (xQueue : QueueHandle_t) (pvBuffer : T)
  : KCall (BaseType_t * T)
| vQueueAddToRegistry (xQueue : QueueHandle_t) (pcQueueName : string)
  : KCall unit
| vQueueUnregisterQueue (xQueue : QueueHandle_t) : KCall unit
| pcQueueGetName (xQueue : QueueHandle_t) : KCall (option string)
| xQueueIsQueueFullFromISR (xQueue : QueueHandle_t) : KCall BaseType_t
| xQueueIsQueueEmptyFromISR (xQueue : QueueHandle_t) : KCall BaseType_t
(* task.h *)
| xTaskCreate (pxTaskCode : FnPtr) (pcName : string)
    (usStackDepth : configSTACK_DEPTH_TYPE) (pvParameters : ObjAddr)
    (uxPriority : UBaseType_t) (pxCreatedTask : option TaskHandle_t)
  : KCall (BaseType_t * TaskHandle_t)
| xTaskCreateStatic (pxTaskCode : FnPtr) (pcName : string)
    (ulStackDepth : UBaseType_t) (pvParameters : ObjAddr)
    (uxPriority : UBaseType_t) (puxStackBuffer pxTaskBuffer : BufPtr)
  : KCall TaskHandle_t
| vTaskDelete (xTask : TaskHandle_t) : KCall unit
| uxTaskPriorityGet (xTask : TaskHandle_t) : KCall UBaseType_t
| vTaskPrioritySet (xTask : TaskHandle_t) (uxNewPriority : UBaseType_t)
  : KCall unit
| vTaskSuspend (xTask : TaskHandle_t) : KCall unit
| vTaskResume (xTask : TaskHandle_t) : KCall unit
| xTaskResumeFromISR (xTask : TaskHandle_t) : KCall BaseType_t
| xTaskAbortDelay (xTask : TaskHandle_t) : KCall BaseType_t
| xTaskGetIdleTaskHandle : KCall TaskHandle_t
| uxTaskGetStackHighWaterMark (xTask : TaskHandle_t) : KCall UBaseType_t
| uxTaskGetStackHighWaterMark2 (xTask : TaskHandle_t)
  : KCall configSTACK_DEPTH_TYPE
| eTaskGetState (xTask : TaskHandle_t) : KCall eTaskState
| pcTaskGetName (xTask : TaskHandle_t) : KCall (option string)
| xTaskGetHandle (pcNameToQuery : string) : KCall TaskHandle_t
| xTaskNotifyGiveIndexed (xTask : TaskHandle_t) (uxIndex : UBaseType_t)
  : KCall BaseType_t
| vTaskNotifyGiveIndexedFromISR (xTask : TaskHandle_t) (uxIndex : UBaseType_t)
    (pxHigherPriorityTaskWoken : option BaseType_t)
  : KCall (unit * BaseType_t)
| xTaskNotifyIndexed (xTask : TaskHandle_t) (uxIndex : UBaseType_t)
    (ulValue : uint32_t) (eAction : eNotifyAction) : KCall BaseType_t
| xTaskNotifyAndQueryIndexed (xTask : TaskHandle_t) (uxIndex : UBaseType_t)
    (ulValue : uint32_t) (eAction : eNotifyAction)
  : KCall (BaseType_t * uint32_t)
| xTaskNotifyAndQueryIndexedFromISR (xTask : TaskHandle_t)
    (uxIndex : UBaseType_t) (ulValue : uint32_t) (eAction : eNotifyAction)
    (pxHigherPriorityTaskWoken : option BaseType_t)
  : KCall ((BaseType_t * uint32_t) * BaseType_t)
| xTaskNotifyIndexedFromISR (xTask : TaskHandle_t) (uxIndex : UBaseType_t)
    (ulValue : uint32_t) (eAction : eNotifyAction)
    (pxHigherPriorityTaskWoken : option BaseType_t)
  : KCall (BaseType_t * BaseType_t)
| xTaskNotifyWaitIndexed (uxIndex : UBaseType_t)
    (ulBitsToClearOnEntry ulBitsToClearOnExit : uint32_t)
    (xTicksToWait : TickType_t) : KCall (BaseType_t * uint32_t)
| xTaskNotifyStateClearIndexed (xTask : TaskHandle_t) (uxIndex : UBaseType_t)
  : KCall BaseType_t
| ulTaskNotifyValueClearIndexed (xTask : TaskHandle_t) (uxIndex : UBaseType_t)
    (ulBitsToClear : uint32_t) : KCall uint32_t
| vTaskDelay (xTicksToDelay : TickType_t) : KCall unit
| xTaskDelayUntil (pxPreviousWakeTime : TickType_t)
    (xTimeIncrement : TickType_t) : KCall (BaseType_t * TickType_t)
| ulTaskNotifyTakeIndexed (uxIndex : UBaseType_t) (xClearCountOnExit : BaseType_t)
    (xTicksToWait : TickType_t) : KCall uint32_t
| xTaskGetSchedulerState : KCall BaseType_t
| uxTaskGetNumberOfTasks : KCall UBaseType_t
| xTaskGetIdleRunTimeCounter : KCall TickType_t
| xTaskGetTickCount : KCall TickType_t
| xTaskGetTickCountFromISR : KCall TickType_t
| taskYIELD : KCall unit
| taskENTER_CRITICAL : KCall unit
| taskENTER_CRITICAL_FROM_ISR : KCall uint32_t
| taskEXIT_CRITICAL : KCall unit
| taskEXIT_CRITICAL_FROM_ISR (x : uint32_t) : KCall unit
| taskDISABLE_INTERRUPTS : KCall unit
| taskENABLE_INTERRUPTS : KCall unit
| vTaskStartScheduler : KCall unit
| vTaskEndScheduler : KCall unit
| vTaskSuspendAll : KCall unit
| xTaskResumeAll : KCall BaseType_t
| vTaskStepTick (xTicksToJump : TickType_t) : KCall unit
| xTaskCatchUpTicks (xTicksToCatchUp : TickType_t) : KCall BaseType_t
(* timers.h *)
| xTimerCreate (pcTimerName : string) (xTimerPeriod : TickType_t)
    (uxAutoReload : BaseType_t) (pvTimerID : ObjAddr)
    (pxCallbackFunction : FnPtr) : KCall TimerHandle_t
| xTimerCreateStatic (pcTimerName : string) (xTimerPeriod : TickType_t)
    (uxAutoReload : BaseType_t) (pvTimerID : ObjAddr)
    (pxCallbackFunction : FnPtr) (pxTimerBuffer : BufPtr)
  : KCall TimerHandle_t
| xTimerIsTimerActive (xTimer : TimerHandle_t) : KCall BaseType_t
| xTimerStart (xTimer : TimerHandle_t) (xBlockTime : TickType_t)
  : KCall BaseType_t
| xTimerStartFromISR (xTimer : TimerHandle_t)
    (pxHigherPriorityTaskWoken : option BaseType_t)
  : KCall (BaseType_t * BaseType_t)
| xTimerStop (xTimer : TimerHandle_t) (xBlockTime : TickType_t)
  : KCall BaseType_t
| xTimerStopFromISR (xTimer : TimerHandle_t)
    (pxHigherPriorityTaskWoken : option BaseType_t)
  : KCall (BaseType_t * BaseType_t)
| xTimerChangePeriod (xTimer : TimerHandle_t) (xNewPeriod : TickType_t)
    (xBlockTime : TickType_t) : KCall BaseType_t
| xTimerChangePeriodFromISR (xTimer : TimerHandle_t) (xNewPeriod : TickType_t)
    (pxHigherPriorityTaskWoken : option BaseType_t)
  : KCall (BaseType_t * BaseType_t)
| xTimerDelete (xTimer : TimerHandle_t) (xBlockTime : TickType_t)
  : KCall BaseType_t
| xTimerReset (xTimer : TimerHandle_t) (xBlockTime : TickType_t)
  : KCall BaseType_t
| xTimerResetFromISR (xTimer : TimerHandle_t)
    (pxHigherPriorityTaskWoken : option BaseType_t)
  : KCall (BaseType_t * BaseType_t)
| vTimerSetReloadMode (xTimer : TimerHandle_t) (uxAutoReload : BaseType_t)
  : KCall unit
| pcTimerGetName (xTimer : TimerHandle_t) : KCall (option string)
| xTimerGetPeriod (xTimer : TimerHandle_t) : KCall TickType_t
| xTimerGetExpiryTime (xTimer : TimerHandle_t) : KCall TickType_t
| uxTimerGetReloadMode (xTimer : TimerHandle_t) : KCall UBaseType_t
| pvTimerGetTimerID (xTimer : TimerHandle_t) : KCall ObjAddr
(* stream_buffer.h; the bytes behind a data pointer are passed by value *)
| xStreamBufferCreate (xBufferSizeBytes xTriggerLevelBytes : size_t)
  : KCall StreamBufferHandle_t
| xStreamBufferCreateStatic (xBufferSizeBytes xTriggerLevelBytes : size_t)
    (pucStreamBufferStorageArea pxStaticStreamBuffer : BufPtr)
  : KCall StreamBufferHandle_t
| vStreamBufferDelete (xStreamBuffer : StreamBufferHandle_t) : KCall unit
| xStreamBufferSend (xStreamBuffer : StreamBufferHandle_t)
    (pvTxData : list byte) (xDataLengthBytes : size_t)
    (xTicksToWait : TickType_t) : KCall size_t
| xStreamBufferSendFromISR (xStreamBuffer : StreamBufferHandle_t)
    (pvTxData : list byte) (xDataLengthBytes : size_t)
    (pxHigherPriorityTaskWoken : option BaseType_t)
  : KCall (size_t * BaseType_t)
| xStreamBufferReceive (xStreamBuffer : StreamBufferHandle_t)
    (pvRxData : list byte) (xBufferLengthBytes : size_t)
    (xTicksToWait : TickType_t) : KCall (size_t * list byte)
| xStreamBufferReceiveFromISR (xStreamBuffer : StreamBufferHandle_t)
    (pvRxData : list byte) (xBufferLengthBytes : size_t)
    (pxHigherPriorityTaskWoken : option BaseType_t)
  : KCall ((size_t * list byte) * BaseType_t)
| xStreamBufferBytesAvailable (xStreamBuffer : StreamBufferHandle_t)
  : KCall size_t
| xStreamBufferSpacesAvailable (xStreamBuffer : StreamBufferHandle_t)
  : KCall size_t
| xStreamBufferSetTriggerLevel (xStreamBuffer : StreamBufferHandle_t)
    (xTriggerLevel : size_t) : KCall BaseType_t
| xStreamBufferReset (xStreamBuffer : StreamBufferHandle_t) : KCall BaseType_t
| xStreamBufferIsEmpty (xStreamBuffer : StreamBufferHandle_t)
  : KCall BaseType_t
| xStreamBufferIsFull (xStreamBuffer : StreamBufferHandle_t)
  : KCall BaseType_t
(* message_buffer.h *)
| xMessageBufferCreate (xBufferSizeBytes : size_t)
  : KCall MessageBufferHandle_t
| xMessageBufferCreateStatic (xBufferSizeBytes : size_t)
    (pucMessageBufferStorageArea pxStaticMessageBuffer : BufPtr)
  : KCall MessageBufferHandle_t
| vMessageBufferDelete (xMessageBuffer : MessageBufferHandle_t) : KCall unit
| xMessageBufferSend (xMessageBuffer : MessageBufferHandle_t)
    (pvTxData : list byte) (xDataLengthBytes : size_t)
    (xTicksToWait : TickType_t) : KCall size_t
| xMessageBufferSendFromISR (xMessageBuffer : MessageBufferHandle_t)
    (pvTxData : list byte) (xDataLengthBytes : size_t)
    (pxHigherPriorityTaskWoken : option BaseType_t)
  : KCall (size_t * BaseType_t)
| xMessageBufferReceive (xMessageBuffer : MessageBufferHandle_t)
    (pvRxData : list byte) (xBufferLengthBytes : size_t)
    (xTicksToWait : TickType_t) : KCall (size_t * list byte)
| xMessageBufferReceiveFromISR (xMessageBuffer : MessageBufferHandle_t)
    (pvRxData : list byte) (xBufferLengthBytes : size_t)
    (pxHigherPriorityTaskWoken : option BaseType_t)
  : KCall ((size_t * list byte) * BaseType_t)
| xMessageBufferSpacesAvailable (xMessageBuffer : MessageBufferHandle_t)
  : KCall size_t
| xMessageBufferReset (xMessageBuffer : MessageBufferHandle_t)
  : KCall BaseType_t
| xMessageBufferIsEmpty (xMessageBuffer : MessageBufferHandle_t)
  : KCall BaseType_t
| xMessageBufferIsFull (xMessageBuffer : MessageBufferHandle_t)
  : KCall BaseType_t.

(** ** Programs over the kernel API *)

Inductive Prog (A : Type) : Type :=
| Ret (a : A)
| Call (X : Type) (c : KCall X) (k : X -> Prog A).

Arguments Ret {A} a.
Arguments Call {A X} c k.

Fixpoint bind {A B : Type} (p : Prog A) (f : A -> Prog B) : Prog B :=
  match p with
  | Ret a => f a
  | Call c k => Call c (fun x => bind (k x) f)
  end.

Definition call {X : Type} (c : KCall X) : Prog X := Call c Ret.

Declare Scope prog_scope.
Delimit Scope prog_scope with prog.
Bind Scope prog_scope with Prog.
Notation "x <- c ;; k" := (bind c (fun x => k))
  (at level 61, c at next level, right associativity) : prog_scope.
Notation "' pat <- c ;; k" := (bind c (fun x => match x with pat => k end))
  (at level 61, pat pattern, c at next level, right associativity) : prog_scope.
Notation "c ;; k" := (bind c (fun _ => k))
  (at level 61, right associativity) : prog_scope.
Open Scope prog_scope.

(** A kernel: any state-passing implementation of the API. *)
Definition Kernel (S : Type) : Type := forall X : Type, KCall X -> S -> X * S.

(** A logged call, its answer forgotten. *)
Inductive AnyCall : Type :=
| anycall (X : Type) (c : KCall X).

Arguments anycall {X} c.

(** Running a program against a kernel: the result, the final kernel state
    and the kernel calls made, in order. *)
Fixpoint run {S A : Type} (K : Kernel S) (p : Prog A) (s : S)
  : A * S * list AnyCall :=
  match p with
  | Ret a => (a, s, [])
  | Call c k =>
      let (x, s1) := K _ c s in
      let '(a, s2, t) := run K (k x) s1 in
      (a, s2, anycall c :: t)
  end.

Definition result {S A : Type} (K : Kernel S) (p : Prog A) (s : S) : A :=
  fst (fst (run K p s)).

Definition calls {S A : Type} (K : Kernel S) (p : Prog A) (s : S)
  : list AnyCall :=
  snd (run K p s).

(** [Post Q p]: whatever the kernel answers, [p] ends in a result that
    satisfies [Q]. *)
Inductive Post {A : Type} (Q : A -> Prop) : Prog A -> Prop :=
| Post_Ret (a : A) : Q a -> Post Q (Ret a)
| Post_Call (X : Type) (c : KCall X) (k : X -> Prog A) :
    (forall x, Post Q (k x)) -> Post Q (Call c k).

(** [ncalls n p]: on every path [p] makes exactly [n] kernel calls. *)
Inductive ncalls {A : Type} : nat -> Prog A -> Prop :=
| ncalls_Ret (a : A) : ncalls 0 (Ret a)
| ncalls_Call (n : nat) (X : Type) (c : KCall X) (k : X -> Prog A) :
    (forall x, ncalls n (k x)) -> ncalls (S n) (Call c k).

(** ** Kernel.hpp: namespace [FreeRTOS::Kernel] *)

Module Kernel.
(** [enum class SchedulerState : BaseType_t]; the cast keeps the value. *)
Definition SchedulerState := BaseType_t.

Section functions.
Context {cfg : FreeRTOSConfig}.

Definition getSchedulerState : Prog SchedulerState :=
  call xTaskGetSchedulerState.
Definition getNumberOfTasks : Prog UBaseType_t :=
  call uxTaskGetNumberOfTasks.
Definition getIdleRunTimeCounter : Prog TickType_t :=
  call xTaskGetIdleRunTimeCounter.
Definition getTickCount : Prog TickType_t := call xTaskGetTickCount.
Definition getTickCountFromISR : Prog TickType_t :=
  call xTaskGetTickCountFromISR.
Definition yield : Prog unit := call taskYIELD.
Definition enterCritical : Prog unit := call taskENTER_CRITICAL.
Definition enterCriticalFromISR : Prog uint32_t :=
  call taskENTER_CRITICAL_FROM_ISR.
Definition exitCritical : Prog unit := call taskEXIT_CRITICAL.
Definition exitCriticalFromISR (interruptStatus : uint32_t) : Prog unit :=
  call (taskEXIT_CRITICAL_FROM_ISR interruptStatus).
Definition disableInterrupts : Prog unit := call taskDISABLE_INTERRUPTS.
Definition enableInterrupts : Prog unit := call taskENABLE_INTERRUPTS.
Definition startScheduler : Prog unit := call vTaskStartScheduler.
Definition endScheduler : Prog unit := call vTaskEndScheduler.
Definition suspendAll : Prog unit := call vTaskSuspendAll.
Definition resumeAll : Prog bool :=
  r <- call xTaskResumeAll ;; Ret (r =? pdTRUE).
Definition stepTick (ticksToJump : TickType_t) : Prog unit :=
  call (vTaskStepTick ticksToJump).
Definition catchUpTicks (ticksToCatchUp : TickType_t) : Prog bool :=
  r <- call (xTaskCatchUpTicks ticksToCatchUp) ;; Ret (r =? pdTRUE).
End functions.
End Kernel.

(** The statement [if (taskWoken == pdTRUE) { higherPriorityTaskWoken = true; }]
    shared by every FromISR method with a [bool&] parameter: the new content
    of the referenced [bool]. *)
Definition setIfWoken {cfg : FreeRTOSConfig}
    (taskWoken : BaseType_t) (higherPriorityTaskWoken : bool) : bool :=
  if taskWoken =? pdTRUE then true else higherPriorityTaskWoken.

(** ** Mutex.hpp *)

Module MutexBase.
Record t : Type := { handle : SemaphoreHandle_t }.

(** [MutexBase() = default] with [handle = NULL]. *)
Definition init : t := {| handle := NULL |}.

(** [this->handle = h] *)
Definition set_handle (h : Handle) (self : t) : t := {| handle := h |}.

Section methods.
Context {cfg : FreeRTOSConfig}.

Definition isValid (self : t) : bool := neqNULL (handle self).

Definition lock (self : t) (ticksToWait : TickType_t) : Prog bool :=
  r <- call (xSemaphoreTake (handle self) ticksToWait) ;;
  Ret (r =? pdTRUE).

(** A [bool&] parameter is passed in and returned with the result. *)
Definition lockFromISR (self : t) (higherPriorityTaskWoken : bool)
  : Prog (bool * bool) :=
  let taskWoken := pdFALSE in
  '(r, taskWoken) <-
    call (xSemaphoreTakeFromISR (handle self) (Some taskWoken)) ;;
  let result := r =? pdTRUE in
  Ret (result, setIfWoken taskWoken higherPriorityTaskWoken).

Definition lockFromISR' (self : t) : Prog bool :=
  '(r, _) <- call (xSemaphoreTakeFromISR (handle self) None) ;;
  Ret (r =? pdTRUE).

Definition unlock (self : t) : Prog bool :=
  r <- call (xSemaphoreGive (handle self)) ;; Ret (r =? pdTRUE).

Definition destructor (self : t) : Prog unit :=
  call (vSemaphoreDelete (handle self)).
End methods.
End MutexBase.

Module RecursiveMutexBase.
(** [class RecursiveMutexBase : public MutexBase], no member of its own;
    [lock] and [unlock] hide the inherited ones. *)
Definition t : Type := MutexBase.t.

Section methods.
Context {cfg : FreeRTOSConfig}.

Definition lock (self : t) (ticksToWait : TickType_t) : Prog bool :=
  r <- call (xSemaphoreTakeRecursive (MutexBase.handle self) ticksToWait) ;;
  Ret (r =? pdTRUE).

Definition unlock (self : t) : Prog bool :=
  r <- call (xSemaphoreGiveRecursive (MutexBase.handle self)) ;;
  Ret (r =? pdTRUE).

(** [~RecursiveMutexBase() = default]: the base destructor runs. *)
Definition destructor (self : t) : Prog unit := MutexBase.destructor self.
End methods.
End RecursiveMutexBase.

Module Mutex.
Definition constructor : Prog MutexBase.t :=
  h <- call xSemaphoreCreateMutex ;;
  Ret (MutexBase.set_handle h MutexBase.init).
Definition destructor (self : MutexBase.t) : Prog unit :=
  MutexBase.destructor self.
End Mutex.

Module RecursiveMutex.
Definition constructor : Prog RecursiveMutexBase.t :=
  h <- call xSemaphoreCreateRecursiveMutex ;;
  Ret (MutexBase.set_handle h MutexBase.init).
Definition destructor (self : RecursiveMutexBase.t) : Prog unit :=
  RecursiveMutexBase.destructor self.
End RecursiveMutex.

Module StaticMutex.
(** [StaticSemaphore_t staticMutex] is the storage at [member this
    staticMutex]. *)
Definition constructor (this : ObjAddr) : Prog MutexBase.t :=
  h <- call (xSemaphoreCreateMutexStatic (member this staticMutex)) ;;
  Ret (MutexBase.set_handle h MutexBase.init).
Definition destructor (self : MutexBase.t) : Prog unit :=
  MutexBase.destructor self.
End StaticMutex.

Module StaticRecursiveMutex.
Definition constructor (this : ObjAddr) : Prog RecursiveMutexBase.t :=
  h <- call (xSemaphoreCreateRecursiveMutexStatic
               (member this staticRecursiveMutex)) ;;
  Ret (MutexBase.set_handle h MutexBase.init).
Definition destructor (self : RecursiveMutexBase.t) : Prog unit :=
  RecursiveMutexBase.destructor self.
End StaticRecursiveMutex.

(** ** Semaphore.hpp *)

Module SemaphoreBase.
Record t : Type := { handle : SemaphoreHandle_t }.

Definition init : t := {| handle := NULL |}.

(** [this->handle = h] *)
Definition set_handle (h : Handle) (self : t) : t := {| handle := h |}.

Section methods.
Context {cfg : FreeRTOSConfig}.

Definition isValid (self : t) : bool := neqNULL (handle self).

Definition getCount (self : t) : Prog UBaseType_t :=
  call (uxSemaphoreGetCount (handle self)).

Definition take (self : t) (ticksToWait : TickType_t) : Prog bool :=
  r <- call (xSemaphoreTake (handle self) ticksToWait) ;;
  Ret (r =? pdTRUE).

Definition takeFromISR (self : t) (higherPriorityTaskWoken : bool)
  : Prog (bool * bool) :=
  let taskWoken := pdFALSE in
  '(r, taskWoken) <-
    call (xSemaphoreTakeFromISR (handle self) (Some taskWoken)) ;;
  let result := r =? pdTRUE in
  Ret (result, setIfWoken taskWoken higherPriorityTaskWoken).

Definition takeFromISR' (self : t) : Prog bool :=
  '(r, _) <- call (xSemaphoreTakeFromISR (handle self) None) ;;
  Ret (r =? pdTRUE).

Definition give (self : t) : Prog bool :=
  r <- call (xSemaphoreGive (handle self)) ;; Ret (r =? pdTRUE).

Definition giveFromISR (self : t) (higherPriorityTaskWoken : bool)
  : Prog (bool * bool) :=
  let taskWoken := pdFALSE in
  '(r, taskWoken) <-
    call (xSemaphoreGiveFromISR (handle self) (Some taskWoken)) ;;
  let result := r =? pdTRUE in
  Ret (result, setIfWoken taskWoken higherPriorityTaskWoken).

Definition giveFromISR' (self : t) : Prog bool :=
  '(r, _) <- call (xSemaphoreGiveFromISR (handle self) None) ;;
  Ret (r =? pdTRUE).

Definition destructor (self : t) : Prog unit :=
  call (vSemaphoreDelete (handle self)).
End methods.
End SemaphoreBase.

Module BinarySemaphore.
Definition constructor : Prog SemaphoreBase.t :=
  h <- call xSemaphoreCreateBinary ;;
  Ret (SemaphoreBase.set_handle h SemaphoreBase.init).
Definition destructor (self : SemaphoreBase.t) : Prog unit :=
  SemaphoreBase.destructor self.
End BinarySemaphore.

Module CountingSemaphore.
Definition constructor (maxCount initialCount : UBaseType_t)
  : Prog SemaphoreBase.t :=
  h <- call (xSemaphoreCreateCounting maxCount initialCount) ;;
  Ret (SemaphoreBase.set_handle h SemaphoreBase.init).
Definition destructor (self : SemaphoreBase.t) : Prog unit :=
  SemaphoreBase.destructor self.
End CountingSemaphore.

Module StaticBinarySemaphore.
Definition constructor (this : ObjAddr) : Prog SemaphoreBase.t :=
  h <- call (xSemaphoreCreateBinaryStatic
               (member this staticBinarySemaphore)) ;;
  Ret (SemaphoreBase.set_handle h SemaphoreBase.init).
Definition destructor (self : SemaphoreBase.t) : Prog unit :=
  SemaphoreBase.destructor self.
End StaticBinarySemaphore.

Module StaticCountingSemaphore.
Definition constructor (this : ObjAddr) (maxCount initialCount : UBaseType_t)
  : Prog SemaphoreBase.t :=
  h <- call (xSemaphoreCreateCountingStatic maxCount initialCount
               (member this staticCountingSemaphore)) ;;
  Ret (SemaphoreBase.set_handle h SemaphoreBase.init).
Definition destructor (self : SemaphoreBase.t) : Prog unit :=
  SemaphoreBase.destructor self.
End StaticCountingSemaphore.

(** ** EventGroups.hpp *)

Module EventGroupBase.
Record t : Type := { handle : EventGroupHandle_t }.

Definition init : t := {| handle := NULL |}.

(** [this->handle = h] *)
Definition set_handle (h : Handle) (self : t) : t := {| handle := h |}.

Section methods.
Context {cfg : FreeRTOSConfig}.

(** [using EventBits = std::bitset<((configUSE_16_BIT_TICKS == 1) ? 8 :
    24)>]: a bitset is its value; building one from an integer keeps
    the low bits, [to_ulong] gives the value back. *)
Definition EventBits_width : Z :=
  if configUSE_16_BIT_TICKS =? 1 then 8 else 24.
Definition EventBits (v : EventBits_t) : Z :=
  Z.land v (Z.ones EventBits_width).
Definition to_ulong (b : Z) : Z := b.

Definition isValid (self : t) : bool := neqNULL (handle self).

Definition wait (self : t) (bitsToWaitFor : Z)
    (clearOnExit waitForAllBits : bool) (ticksToWait : TickType_t)
  : Prog Z :=
  r <- call (xEventGroupWaitBits (handle self) (to_ulong bitsToWaitFor)
               (if clearOnExit then pdTRUE else pdFALSE)
               (if waitForAllBits then pdTRUE else pdFALSE) ticksToWait) ;;
  Ret (EventBits r).

Definition set (self : t) (bitsToSet : Z) : Prog Z :=
  r <- call (xEventGroupSetBits (handle self) (to_ulong bitsToSet)) ;;
  Ret (EventBits r).

Definition setFromISR (self : t) (higherPriorityTaskWoken : bool)
    (bitsToSet : Z) : Prog (bool * bool) :=
  let taskWoken := pdFALSE in
  '(r, taskWoken) <-
    call (xEventGroupSetBitsFromISR (handle self) (to_ulong bitsToSet)
            (Some taskWoken)) ;;
  let result := r =? pdPASS in
  Ret (result, setIfWoken taskWoken higherPriorityTaskWoken).

Definition setFromISR' (self : t) (bitsToSet : Z) : Prog bool :=
  '(r, _) <- call (xEventGroupSetBitsFromISR (handle self)
                     (to_ulong bitsToSet) None) ;;
  Ret (r =? pdPASS).

Definition clear (self : t) (bitsToClear : Z) : Prog Z :=
  r <- call (xEventGroupClearBits (handle self) (to_ulong bitsToClear)) ;;
  Ret (EventBits r).

Definition clearFromISR (self : t) (bitsToClear : Z) : Prog bool :=
  r <- call (xEventGroupClearBitsFromISR (handle self)
               (to_ulong bitsToClear)) ;;
  Ret (r =? pdPASS).

Definition get (self : t) : Prog Z :=
  r <- call (xEventGroupGetBits (handle self)) ;; Ret (EventBits r).

Definition getFromISR (self : t) : Prog Z :=
  r <- call (xEventGroupGetBitsFromISR (handle self)) ;; Ret (EventBits r).

Definition sync (self : t) (bitsToSet bitsToWaitFor : Z)
    (ticksToWait : TickType_t) : Prog Z :=
  r <- call (xEventGroupSync (handle self) (to_ulong bitsToSet)
               (to_ulong bitsToWaitFor) ticksToWait) ;;
  Ret (EventBits r).

Definition destructor (self : t) : Prog unit :=
  call (vEventGroupDelete (handle self)).
End methods.
End EventGroupBase.

Module EventGroup.
Definition constructor : Prog EventGroupBase.t :=
  h <- call xEventGroupCreate ;;
  Ret (EventGroupBase.set_handle h EventGroupBase.init).
Definition destructor (self : EventGroupBase.t) : Prog unit :=
  EventGroupBase.destructor self.
End EventGroup.

Module StaticEventGroup.
Definition constructor (this : ObjAddr) : Prog EventGroupBase.t :=
  h <- call (xEventGroupCreateStatic (member this staticEventGroup)) ;;
  Ret (EventGroupBase.set_handle h EventGroupBase.init).
Definition destructor (self : EventGroupBase.t) : Prog unit :=
  EventGroupBase.destructor self.
End StaticEventGroup.

(** ** Queue.hpp *)

Module QueueBase.
Record t : Type := { handle : QueueHandle_t }.

Definition init : t := {| handle := NULL |}.

(** [this->handle = h] *)
Definition set_handle (h : Handle) (self : t) : t := {| handle := h |}.

Section methods.
Context {cfg : FreeRTOSConfig}.
(** [template <class T>] *)
Context {T : Type}.
(** The content of a default-initialised [T], as in [T buffer;]. *)
Variable default_T : T.

Definition isValid (self : t) : bool := neqNULL (handle self).

Definition sendToBack (self : t) (item : T) (ticksToWait : TickType_t)
  : Prog bool :=
  r <- call (xQueueSendToBack (handle self) item ticksToWait) ;;
  Ret (r =? pdTRUE).

Definition sendToBackFromISR (self : t) (higherPriorityTaskWoken : bool)
    (item : T) : Prog (bool * bool) :=
  let taskWoken := pdFALSE in
  '(r, taskWoken) <-
    call (xQueueSendToBackFromISR (handle self) item (Some taskWoken)) ;;
  let result := r =? pdPASS in
  Ret (result, setIfWoken taskWoken higherPriorityTaskWoken).

Definition sendToBackFromISR' (self : t) (item : T) : Prog bool :=
  '(r, _) <- call (xQueueSendToBackFromISR (handle self) item None) ;;
  Ret (r =? pdPASS).

Definition sendToFront (self : t) (item : T) (ticksToWait : TickType_t)
  : Prog bool :=
  r <- call (xQueueSendToFront (handle self) item ticksToWait) ;;
  Ret (r =? pdTRUE).

Definition sendToFrontFromISR (self : t) (higherPriorityTaskWoken : bool)
    (item : T) : Prog (bool * bool) :=
  let taskWoken := pdFALSE in
  '(r, taskWoken) <-
    call (xQueueSendToFrontFromISR (handle self) item (Some taskWoken)) ;;
  let result := r =? pdPASS in
  Ret (result, setIfWoken taskWoken higherPriorityTaskWoken).

Definition sendToFrontFromISR' (self : t) (item : T) : Prog bool :=
  '(r, _) <- call (xQueueSendToFrontFromISR (handle self) item None) ;;
  Ret (r =? pdPASS).

(** [&buffer] is passed to the kernel, which may write the item into
    it; [std::optional<T>] is [option T], [std::nullopt] is [None]. *)
Definition receive (self : t) (ticksToWait : TickType_t)
  : Prog (option T) :=
  let buffer := default_T in
  '(r, buffer) <- call (xQueueReceive (handle self) buffer ticksToWait) ;;
  Ret (if r =? pdTRUE then Some buffer else None).

Definition receiveFromISR (self : t) (higherPriorityTaskWoken : bool)
  : Prog (option T * bool) :=
  let taskWoken := pdFALSE in
  let buffer := default_T in
  '((r, buffer), taskWoken) <-
    call (xQueueReceiveFromISR (handle self) buffer (Some taskWoken)) ;;
  let result := r =? pdTRUE in
  let higherPriorityTaskWoken :=
    setIfWoken taskWoken higherPriorityTaskWoken in
  Ret (if result then Some buffer else None, higherPriorityTaskWoken).

Definition receiveFromISR' (self : t) : Prog (option T) :=
  let buffer := default_T in
  '((r, buffer), _) <- call (xQueueReceiveFromISR (handle self) buffer None) ;;
  Ret (if r =? pdTRUE then Some buffer else None).

Definition messagesWaiting (self : t) : Prog UBaseType_t :=
  call (uxQueueMessagesWaiting (handle self)).

Definition messagesWaitingFromISR (self : t) : Prog UBaseType_t :=
  call (uxQueueMessagesWaitingFromISR (handle self)).

Definition spacesAvailable (self : t) : Prog UBaseType_t :=
  call (uxQueueSpacesAvailable (handle self)).

Definition reset (self : t) : Prog unit :=
  call (xQueueReset (handle self)) ;; Ret tt.

Definition overwrite (self : t) (item : T) : Prog unit :=
  call (xQueueOverwrite (handle self) item) ;; Ret tt.

Definition overwriteFromISR (self : t) (higherPriorityTaskWoken : bool)
    (item : T) : Prog (unit * bool) :=
  let taskWoken := pdFALSE in
  '(_, taskWoken) <-
    call (xQueueOverwriteFromISR (handle self) item (Some taskWoken)) ;;
  Ret (tt, setIfWoken taskWoken higherPriorityTaskWoken).

Definition overwriteFromISR' (self : t) (item : T) : Prog unit :=
  call (xQueueOverwriteFromISR (handle self) item None) ;; Ret tt.

Definition peek (self : t) (ticksToWait : TickType_t) : Prog (option T) :=
  let buffer := default_T in
  '(r, buffer) <- call (xQueuePeek (handle self) buffer ticksToWait) ;;
  Ret (if r =? pdTRUE then Some buffer else None).

Definition peekFromISR (self : t) : Prog (option T) :=
  let buffer := default_T in
  '(r, buffer) <- call (xQueuePeekFromISR (handle self) buffer) ;;
  Ret (if r =? pdTRUE then Some buffer else None).

Definition addToRegistry (self : t) (name : string) : Prog unit :=
  call (vQueueAddToRegistry (handle self) name).

Definition unregister (self : t) : Prog unit :=
  call (vQueueUnregisterQueue (handle self)).

Definition getName (self : t) : Prog (option string) :=
  call (pcQueueGetName (handle self)).

Definition isFullFromISR (self : t) : Prog bool :=
  r <- call (xQueueIsQueueFullFromISR (handle self)) ;; Ret (r =? pdTRUE).

Definition isEmptyFromISR (self : t) : Prog bool :=
  r <- call (xQueueIsQueueEmptyFromISR (handle self)) ;; Ret (r =? pdTRUE).

Definition destructor (self : t) : Prog unit :=
  call (vQueueDelete (handle self)).
End methods.
End QueueBase.

Module Queue.
(** [template <class T> class Queue]; [sizeof_T] is [sizeof(T)]. *)
Definition constructor (sizeof_T : size_t) (length : UBaseType_t)
  : Prog QueueBase.t :=
  h <- call (xQueueCreate length sizeof_T) ;;
  Ret (QueueBase.set_handle h QueueBase.init).
Definition destructor (self : QueueBase.t) : Prog unit :=
  QueueBase.destructor self.
End Queue.

Module StaticQueue.
(** [template <class T, UBaseType_t N> class StaticQueue] *)
Definition constructor (sizeof_T : size_t) (N : UBaseType_t) (this : ObjAddr)
  : Prog QueueBase.t :=
  h <- call (xQueueCreateStatic N sizeof_T (member this storage)
               (member this staticQueue)) ;;
  Ret (QueueBase.set_handle h QueueBase.init).
Definition destructor (self : QueueBase.t) : Prog unit :=
  QueueBase.destructor self.
End StaticQueue.

(** ** Task.hpp *)

Module TaskBase.
Record t : Type := {
  handle : TaskHandle_t;
  previousWakeTime : TickType_t
}.

Definition init : t := {| handle := NULL; previousWakeTime := 0 |}.

Definition set_handle (h : Handle) (self : t) : t :=
  {| handle := h; previousWakeTime := previousWakeTime self |}.
Definition set_previousWakeTime (w : TickType_t) (self : t) : t :=
  {| handle := handle self; previousWakeTime := w |}.

Inductive State : Type :=
| Running | Ready | Blocked | Suspended | Deleted | Invalid.

Inductive NotifyAction : Type :=
| NoAction | SetBits | Increment
| SetValueWithOverwrite | SetValueWithoutOverwrite.

(** [static_cast<State>(...)] and [static_cast<eNotifyAction>(...)]: the
    enumerators are defined by the kernel's. *)
Definition to_State (s : eTaskState) : State :=
  match s with
  | eRunning => Running | eReady => Ready | eBlocked => Blocked
  | eSuspended => Suspended | eDeleted => Deleted | eInvalid => Invalid
  end.
Definition to_eNotifyAction (a : NotifyAction) : eNotifyAction :=
  match a with
  | NoAction => eNoAction | SetBits => eSetBits | Increment => eIncrement
  | SetValueWithOverwrite => eSetValueWithOverwrite
  | SetValueWithoutOverwrite => eSetValueWithoutOverwrite
  end.

(** [using NotificationBits = std::bitset<32>] *)
Definition NotificationBits (v : uint32_t) : Z := Z.land v (Z.ones 32).
Definition to_ulong (b : Z) : Z := b.

Section methods.
Context {cfg : FreeRTOSConfig}.

(** [virtual void taskFunction() = 0]: the user's override, which runs
    on the object and may change it through [delayUntil]. *)
Variable taskFunction : t -> Prog t.

Definition taskEntry (self : t) : Prog t :=
  tick <- Kernel.getTickCount ;;
  let self := set_previousWakeTime tick self in
  taskFunction self.

Definition getPriority (self : t) : Prog UBaseType_t :=
  call (uxTaskPriorityGet (handle self)).

Definition setPriority (self : t) (newPriority : UBaseType_t) : Prog unit :=
  call (vTaskPrioritySet (handle self) newPriority).

Definition suspend (self : t) : Prog unit := call (vTaskSuspend (handle self)).

Definition resume (self : t) : Prog unit := call (vTaskResume (handle self)).

Definition resumeFromISR (self : t) : Prog bool :=
  r <- call (xTaskResumeFromISR (handle self)) ;; Ret (r =? pdTRUE).

Definition abortDelay (self : t) : Prog bool :=
  r <- call (xTaskAbortDelay (handle self)) ;; Ret (r =? pdPASS).

Definition getIdleHandle : Prog TaskHandle_t := call xTaskGetIdleTaskHandle.

Definition getStackHighWaterMark (self : t) : Prog UBaseType_t :=
  call (uxTaskGetStackHighWaterMark (handle self)).

Definition getStackHighWaterMark2 (self : t) : Prog configSTACK_DEPTH_TYPE :=
  call (uxTaskGetStackHighWaterMark2 (handle self)).

Definition getState (self : t) : Prog State :=
  s <- call (eTaskGetState (handle self)) ;; Ret (to_State s).

Definition getName (self : t) : Prog (option string) :=
  call (pcTaskGetName (handle self)).

Definition getHandle (name : string) : Prog TaskHandle_t :=
  call (xTaskGetHandle name).

Definition notifyGive (self : t) (index : UBaseType_t) : Prog unit :=
  call (xTaskNotifyGiveIndexed (handle self) index) ;; Ret tt.

Definition notifyGiveFromISR (self : t) (higherPriorityTaskWoken : bool)
    (index : UBaseType_t) : Prog (unit * bool) :=
  let taskWoken := pdFALSE in
  '(_, taskWoken) <-
    call (vTaskNotifyGiveIndexedFromISR (handle self) index
            (Some taskWoken)) ;;
  Ret (tt, setIfWoken taskWoken higherPriorityTaskWoken).

Definition notifyGiveFromISR' (self : t) (index : UBaseType_t)
  : Prog unit :=
  call (vTaskNotifyGiveIndexedFromISR (handle self) index None) ;; Ret tt.

Definition notify (self : t) (action : NotifyAction) (value : Z)
    (index : UBaseType_t) : Prog bool :=
  r <- call (xTaskNotifyIndexed (handle self) index (to_ulong value)
               (to_eNotifyAction action)) ;;
  Ret (r =? pdPASS).

(** [uint32_t pulNotificationValue;] is written by the kernel. *)
Definition notifyAndQuery (self : t) (action : NotifyAction) (value : Z)
    (index : UBaseType_t) : Prog (bool * Z) :=
  '(r, pulNotificationValue) <-
    call (xTaskNotifyAndQueryIndexed (handle self) index (to_ulong value)
            (to_eNotifyAction action)) ;;
  let result := r =? pdPASS in
  Ret (result, NotificationBits pulNotificationValue).

Definition notifyAndQueryFromISR (self : t)
    (higherPriorityTaskWoken : bool) (action : NotifyAction) (value : Z)
    (index : UBaseType_t) : Prog ((bool * Z) * bool) :=
  let taskWoken := pdFALSE in
  '((r, pulNotificationValue), taskWoken) <-
    call (xTaskNotifyAndQueryIndexedFromISR (handle self) index
            (to_ulong value) (to_eNotifyAction action) (Some taskWoken)) ;;
  let result := r =? pdPASS in
  let higherPriorityTaskWoken :=
    setIfWoken taskWoken higherPriorityTaskWoken in
  Ret ((result, NotificationBits pulNotificationValue),
       higherPriorityTaskWoken).

Definition notifyAndQueryFromISR' (self : t) (action : NotifyAction)
    (value : Z) (index : UBaseType_t) : Prog (bool * Z) :=
  '((r, pulNotificationValue), _) <-
    call (xTaskNotifyAndQueryIndexedFromISR (handle self) index
            (to_ulong value) (to_eNotifyAction action) None) ;;
  let result := r =? pdPASS in
  Ret (result, NotificationBits pulNotificationValue).

Definition notifyFromISR (self : t) (higherPriorityTaskWoken : bool)
    (action : NotifyAction) (value : Z) (index : UBaseType_t)
  : Prog (bool * bool) :=
  let taskWoken := pdFALSE in
  '(r, taskWoken) <-
    call (xTaskNotifyIndexedFromISR (handle self) index (to_ulong value)
            (to_eNotifyAction action) (Some taskWoken)) ;;
  let result := r =? pdPASS in
  Ret (result, setIfWoken taskWoken higherPriorityTaskWoken).

Definition notifyFromISR' (self : t) (action : NotifyAction) (value : Z)
    (index : UBaseType_t) : Prog bool :=
  '(r, _) <-
    call (xTaskNotifyIndexedFromISR (handle self) index (to_ulong value)
            (to_eNotifyAction action) None) ;;
  Ret (r =? pdPASS).

Definition notifyWait (ticksToWait : TickType_t)
    (bitsToClearOnEntry bitsToClearOnExit : Z) (index : UBaseType_t)
  : Prog (bool * Z) :=
  '(r, pulNotificationValue) <-
    call (xTaskNotifyWaitIndexed index (to_ulong bitsToClearOnEntry)
            (to_ulong bitsToClearOnExit) ticksToWait) ;;
  let result := r =? pdTRUE in
  Ret (result, NotificationBits pulNotificationValue).

Definition notifyStateClear (self : t) (index : UBaseType_t) : Prog bool :=
  r <- call (xTaskNotifyStateClearIndexed (handle self) index) ;;
  Ret (r =? pdTRUE).

Definition notifyValueClear (self : t) (bitsToClear : Z)
    (index : UBaseType_t) : Prog Z :=
  r <- call (ulTaskNotifyValueClearIndexed (handle self) index
               (to_ulong bitsToClear)) ;;
  Ret (NotificationBits r).

(** protected members *)

Definition delay (ticksToDelay : TickType_t) : Prog unit :=
  call (vTaskDelay ticksToDelay).

(** [&previousWakeTime] is passed: the kernel reads the member and the
    member holds what the kernel leaves in it. *)
Definition delayUntil (self : t) (timeIncrement : TickType_t)
  : Prog (bool * t) :=
  '(r, w) <- call (xTaskDelayUntil (previousWakeTime self) timeIncrement) ;;
  Ret (r =? pdTRUE, set_previousWakeTime w self).

(** [bool clearCountOnExit] converts to [BaseType_t] as 0 or 1. *)
Definition notifyTake (ticksToWait : TickType_t) (clearCountOnExit : bool)
    (index : UBaseType_t) : Prog Z :=
  r <- call (ulTaskNotifyTakeIndexed index (Z.b2z clearCountOnExit)
               ticksToWait) ;;
  Ret (NotificationBits r).

Definition destructor (self : t) : Prog unit :=
  if INCLUDE_vTaskDelete =? 1 then
    if neqNULL (handle self) then call (vTaskDelete (handle self))
    else Ret tt
  else Ret tt.
End methods.

(** [callTaskFunction(void* task)]: the kernel enters the task here. *)
Definition callTaskFunction {cfg : FreeRTOSConfig}
    (taskFunction : t -> Prog t) (task : t) : Prog t :=
  taskEntry taskFunction task.
End TaskBase.

Module Task.
Record t : Type := {
  base : TaskBase.t;
  taskCreatedSuccessfully : bool
}.

Definition init : t :=
  {| base := TaskBase.init; taskCreatedSuccessfully := false |}.

Section methods.
Context {cfg : FreeRTOSConfig}.

Definition isValid (self : t) : bool := taskCreatedSuccessfully self.

(** [&handle] is passed to the kernel, which may store the handle of
    the created task in it. *)
Definition constructor (this : ObjAddr) (priority : UBaseType_t)
    (stackDepth : configSTACK_DEPTH_TYPE) (name : string) : Prog t :=
  let self := init in
  '(r, h) <-
    call (xTaskCreate fn_callTaskFunction name stackDepth this priority
            (Some (TaskBase.handle (base self)))) ;;
  Ret {| base := TaskBase.set_handle h (base self);
         taskCreatedSuccessfully := r =? pdPASS |}.

Definition destructor (self : t) : Prog unit :=
  TaskBase.destructor (base self).
End methods.
End Task.

Module StaticTask.
Section methods.
Context {cfg : FreeRTOSConfig}.

(** [template <UBaseType_t N> class StaticTask] *)
Definition constructor (N : UBaseType_t) (this : ObjAddr)
    (priority : UBaseType_t) (name : string) : Prog TaskBase.t :=
  h <- call (xTaskCreateStatic fn_callTaskFunction name N this priority
               (member this stack) (member this taskBuffer)) ;;
  Ret (TaskBase.set_handle h TaskBase.init).

Definition destructor (self : TaskBase.t) : Prog unit :=
  TaskBase.destructor self.
End methods.
End StaticTask.

(** ** Timer.hpp *)

Module TimerBase.
Record t : Type := {
  handle : TimerHandle_t;
  deleteBlockTime : TickType_t
}.

(** [explicit TimerBase(const TickType_t deleteBlockTime = 0)] *)
Definition init (deleteBlockTime : TickType_t) : t :=
  {| handle := NULL; deleteBlockTime := deleteBlockTime |}.

Definition set_handle (h : Handle) (self : t) : t :=
  {| handle := h; deleteBlockTime := deleteBlockTime self |}.

Section methods.
Context {cfg : FreeRTOSConfig}.

(** [virtual void timerFunction() = 0]: the user's override. *)
Variable timerFunction : t -> Prog t.

Definition timerEntry (self : t) : Prog t := timerFunction self.

Definition isValid (self : t) : bool := neqNULL (handle self).

Definition isActive (self : t) : Prog bool :=
  r <- call (xTimerIsTimerActive (handle self)) ;;
  Ret (negb (r =? pdFALSE)).

Definition start (self : t) (blockTime : TickType_t) : Prog bool :=
  r <- call (xTimerStart (handle self) blockTime) ;; Ret (r =? pdPASS).

Definition startFromISR (self : t) (higherPriorityTaskWoken : bool)
  : Prog (bool * bool) :=
  let taskWoken := pdFALSE in
  '(r, taskWoken) <-
    call (xTimerStartFromISR (handle self) (Some taskWoken)) ;;
  let result := r =? pdPASS in
  Ret (result, setIfWoken taskWoken higherPriorityTaskWoken).

Definition startFromISR' (self : t) : Prog bool :=
  '(r, _) <- call (xTimerStartFromISR (handle self) None) ;;
  Ret (r =? pdPASS).

Definition stop (self : t) (blockTime : TickType_t) : Prog bool :=
  r <- call (xTimerStop (handle self) blockTime) ;; Ret (r =? pdPASS).

Definition stopFromISR (self : t) (higherPriorityTaskWoken : bool)
  : Prog (bool * bool) :=
  let taskWoken := pdFALSE in
  '(r, taskWoken) <-
    call (xTimerStopFromISR (handle self) (Some taskWoken)) ;;
  let result := r =? pdPASS in
  Ret (result, setIfWoken taskWoken higherPriorityTaskWoken).

Definition stopFromISR' (self : t) : Prog bool :=
  '(r, _) <- call (xTimerStopFromISR (handle self) None) ;;
  Ret (r =? pdPASS).

Definition changePeriod (self : t) (newPeriod blockTime : TickType_t)
  : Prog bool :=
  r <- call (xTimerChangePeriod (handle self) newPeriod blockTime) ;;
  Ret (r =? pdPASS).

Definition changePeriodFromISR (self : t) (higherPriorityTaskWoken : bool)
    (newPeriod : TickType_t) : Prog (bool * bool) :=
  let taskWoken := pdFALSE in
  '(r, taskWoken) <-
    call (xTimerChangePeriodFromISR (handle self) newPeriod
            (Some taskWoken)) ;;
  let result := r =? pdPASS in
  Ret (result, setIfWoken taskWoken higherPriorityTaskWoken).

Definition changePeriodFromISR' (self : t) (newPeriod : TickType_t)
  : Prog bool :=
  '(r, _) <- call (xTimerChangePeriodFromISR (handle self) newPeriod None) ;;
  Ret (r =? pdPASS).

(** Not [const]: a successful delete clears the handle. *)
Definition deleteTimer (self : t) (blockTime : TickType_t)
  : Prog (bool * t) :=
  r <- call (xTimerDelete (handle self) blockTime) ;;
  if r =? pdPASS then Ret (true, set_handle NULL self)
  else Ret (false, self).

Definition reset (self : t) (blockTime : TickType_t) : Prog bool :=
  r <- call (xTimerReset (handle self) blockTime) ;; Ret (r =? pdPASS).

Definition resetFromISR (self : t) (higherPriorityTaskWoken : bool)
  : Prog (bool * bool) :=
  let taskWoken := pdFALSE in
  '(r, taskWoken) <-
    call (xTimerResetFromISR (handle self) (Some taskWoken)) ;;
  let result := r =? pdPASS in
  Ret (result, setIfWoken taskWoken higherPriorityTaskWoken).

Definition resetFromISR' (self : t) : Prog bool :=
  '(r, _) <- call (xTimerResetFromISR (handle self) None) ;;
  Ret (r =? pdPASS).

Definition setReloadMode (self : t) (autoReload : bool) : Prog unit :=
  call (vTimerSetReloadMode (handle self)
          (if autoReload then pdTRUE else pdFALSE)).

Definition getName (self : t) : Prog (option string) :=
  call (pcTimerGetName (handle self)).

Definition getPeriod (self : t) : Prog TickType_t :=
  call (xTimerGetPeriod (handle self)).

Definition getExpiryTime (self : t) : Prog TickType_t :=
  call (xTimerGetExpiryTime (handle self)).

Definition getReloadMode (self : t) : Prog bool :=
  r <- call (uxTimerGetReloadMode (handle self)) ;; Ret (r =? pdTRUE).

Definition setDeleteBlockTime (self : t) (deleteBlockTime' : TickType_t)
  : t :=
  {| handle := handle self; deleteBlockTime := deleteBlockTime' |}.

Definition getDeleteBlockTime (self : t) : TickType_t :=
  deleteBlockTime self.

Definition destructor (self : t) : Prog unit :=
  if isValid self then
    deleteTimer self (getDeleteBlockTime self) ;; Ret tt
  else Ret tt.
End methods.

(** [callTimerFunction(TimerHandle_t timer)]: the timer ID the kernel
    stores is the address of the wrapper object, whose [timerEntry] runs;
    [timerEntryAt] is that dispatch. *)
Definition callTimerFunction (timerEntryAt : ObjAddr -> Prog unit)
    (timer : TimerHandle_t) : Prog unit :=
  id <- call (pvTimerGetTimerID timer) ;; timerEntryAt id.
End TimerBase.

Module Timer.
Section methods.
Context {cfg : FreeRTOSConfig}.

Definition constructor (this : ObjAddr) (period : TickType_t)
    (autoReload : bool) (name : string) (deleteBlockTime : TickType_t)
  : Prog TimerBase.t :=
  let self := TimerBase.init deleteBlockTime in
  h <- call (xTimerCreate name period
               (if autoReload then pdTRUE else pdFALSE) this
               fn_callTimerFunction) ;;
  Ret (TimerBase.set_handle h self).

Definition destructor (self : TimerBase.t) : Prog unit :=
  TimerBase.destructor self.
End methods.
End Timer.

Module StaticTimer.
Section methods.
Context {cfg : FreeRTOSConfig}.

Definition constructor (this : ObjAddr) (period : TickType_t)
    (autoReload : bool) (name : string) (deleteBlockTime : TickType_t)
  : Prog TimerBase.t :=
  let self := TimerBase.init deleteBlockTime in
  h <- call (xTimerCreateStatic name period
               (if autoReload then pdTRUE else pdFALSE) this
               fn_callTimerFunction (member this staticTimer)) ;;
  Ret (TimerBase.set_handle h self).

Definition destructor (self : TimerBase.t) : Prog unit :=
  TimerBase.destructor self.
End methods.
End StaticTimer.

(** ** StreamBuffer.hpp *)

Module StreamBufferBase.
Record t : Type := { handle : StreamBufferHandle_t }.

Definition init : t := {| handle := NULL |}.

(** [this->handle = h] *)
Definition set_handle (h : Handle) (self : t) : t := {| handle := h |}.

Section methods.
Context {cfg : FreeRTOSConfig}.

Definition isValid (self : t) : bool := neqNULL (handle self).

Definition send (self : t) (data : list byte) (length : size_t)
    (ticksToWait : TickType_t) : Prog size_t :=
  call (xStreamBufferSend (handle self) data length ticksToWait).

Definition sendFromISR (self : t) (higherPriorityTaskWoken : bool)
    (data : list byte) (length : size_t) : Prog (size_t * bool) :=
  let taskWoken := pdFALSE in
  '(result, taskWoken) <-
    call (xStreamBufferSendFromISR (handle self) data length
            (Some taskWoken)) ;;
  Ret (result, setIfWoken taskWoken higherPriorityTaskWoken).

Definition sendFromISR' (self : t) (data : list byte) (length : size_t)
  : Prog size_t :=
  '(result, _) <-
    call (xStreamBufferSendFromISR (handle self) data length None) ;;
  Ret result.

(** The caller's [buffer] comes back with what the kernel wrote. *)
Definition receive (self : t) (buffer : list byte) (bufferLength : size_t)
    (ticksToWait : TickType_t) : Prog (size_t * list byte) :=
  call (xStreamBufferReceive (handle self) buffer bufferLength ticksToWait).

Definition receiveFromISR (self : t) (higherPriorityTaskWoken : bool)
    (buffer : list byte) (bufferLength : size_t)
  : Prog ((size_t * list byte) * bool) :=
  let taskWoken := pdFALSE in
  '(result, taskWoken) <-
    call (xStreamBufferReceiveFromISR (handle self) buffer bufferLength
            (Some taskWoken)) ;;
  Ret (result, setIfWoken taskWoken higherPriorityTaskWoken).

Definition receiveFromISR' (self : t) (buffer : list byte)
    (bufferLength : size_t) : Prog (size_t * list byte) :=
  '(result, _) <-
    call (xStreamBufferReceiveFromISR (handle self) buffer bufferLength
            None) ;;
  Ret result.

Definition bytesAvailable (self : t) : Prog size_t :=
  call (xStreamBufferBytesAvailable (handle self)).

Definition spacesAvailable (self : t) : Prog size_t :=
  call (xStreamBufferSpacesAvailable (handle self)).

Definition setTriggerLevel (self : t) (triggerLevel : size_t) : Prog bool :=
  r <- call (xStreamBufferSetTriggerLevel (handle self) triggerLevel) ;;
  Ret (r =? pdTRUE).

Definition reset (self : t) : Prog bool :=
  r <- call (xStreamBufferReset (handle self)) ;; Ret (r =? pdPASS).

Definition isEmpty (self : t) : Prog bool :=
  r <- call (xStreamBufferIsEmpty (handle self)) ;; Ret (r =? pdTRUE).

Definition isFull (self : t) : Prog bool :=
  r <- call (xStreamBufferIsFull (handle self)) ;; Ret (r =? pdTRUE).

Definition destructor (self : t) : Prog unit :=
  call (vStreamBufferDelete (handle self)).
End methods.
End StreamBufferBase.

Module StreamBuffer.
Definition constructor (size triggerLevel : size_t)
  : Prog StreamBufferBase.t :=
  h <- call (xStreamBufferCreate size triggerLevel) ;;
  Ret (StreamBufferBase.set_handle h StreamBufferBase.init).
Definition destructor (self : StreamBufferBase.t) : Prog unit :=
  StreamBufferBase.destructor self.
End StreamBuffer.

Module StaticStreamBuffer.
(** [template <size_t N>]; [uint8_t storage[N]], so [sizeof(storage)] is
    [N]. *)
Definition sizeof_storage (N : size_t) : size_t := N.

Definition constructor (N : size_t) (this : ObjAddr) (triggerLevel : size_t)
  : Prog StreamBufferBase.t :=
  h <- call (xStreamBufferCreateStatic (sizeof_storage N) triggerLevel
               (member this storage) (member this staticStreamBuffer)) ;;
  Ret (StreamBufferBase.set_handle h StreamBufferBase.init).
Definition destructor (self : StreamBufferBase.t) : Prog unit :=
  StreamBufferBase.destructor self.
End StaticStreamBuffer.

(** ** MessageBuffer.hpp *)

Module MessageBufferBase.
Record t : Type := { handle : MessageBufferHandle_t }.

Definition init : t := {| handle := NULL |}.

(** [this->handle = h] *)
Definition set_handle (h : Handle) (self : t) : t := {| handle := h |}.

Section methods.
Context {cfg : FreeRTOSConfig}.

Definition isValid (self : t) : bool := neqNULL (handle self).

Definition send (self : t) (data : list byte) (length : size_t)
    (ticksToWait : TickType_t) : Prog size_t :=
  call (xMessageBufferSend (handle self) data length ticksToWait).

Definition sendFromISR (self : t) (higherPriorityTaskWoken : bool)
    (data : list byte) (length : size_t) : Prog (size_t * bool) :=
  let taskWoken := pdFALSE in
  '(result, taskWoken) <-
    call (xMessageBufferSendFromISR (handle self) data length
            (Some taskWoken)) ;;
  Ret (result, setIfWoken taskWoken higherPriorityTaskWoken).

Definition sendFromISR' (self : t) (data : list byte) (length : size_t)
  : Prog size_t :=
  '(result, _) <-
    call (xMessageBufferSendFromISR (handle self) data length None) ;;
  Ret result.

Definition receive (self : t) (buffer : list byte) (bufferLength : size_t)
    (ticksToWait : TickType_t) : Prog (size_t * list byte) :=
  call (xMessageBufferReceive (handle self) buffer bufferLength
          ticksToWait).

Definition receiveFromISR (self : t) (higherPriorityTaskWoken : bool)
    (buffer : list byte) (bufferLength : size_t)
  : Prog ((size_t * list byte) * bool) :=
  let taskWoken := pdFALSE in
  '(result, taskWoken) <-
    call (xMessageBufferReceiveFromISR (handle self) buffer bufferLength
            (Some taskWoken)) ;;
  Ret (result, setIfWoken taskWoken higherPriorityTaskWoken).

Definition receiveFromISR' (self : t) (buffer : list byte)
    (bufferLength : size_t) : Prog (size_t * list byte) :=
  '(result, _) <-
    call (xMessageBufferReceiveFromISR (handle self) buffer bufferLength
            None) ;;
  Ret result.

Definition spacesAvailable (self : t) : Prog size_t :=
  call (xMessageBufferSpacesAvailable (handle self)).

Definition reset (self : t) : Prog bool :=
  r <- call (xMessageBufferReset (handle self)) ;; Ret (r =? pdPASS).

Definition isEmpty (self : t) : Prog bool :=
  r <- call (xMessageBufferIsEmpty (handle self)) ;; Ret (r =? pdTRUE).

Definition isFull (self : t) : Prog bool :=
  r <- call (xMessageBufferIsFull (handle self)) ;; Ret (r =? pdTRUE).

Definition destructor (self : t) : Prog unit :=
  call (vMessageBufferDelete (handle self)).
End methods.
End MessageBufferBase.

Module MessageBuffer.
Definition constructor (size : size_t) : Prog MessageBufferBase.t :=
  h <- call (xMessageBufferCreate size) ;;
  Ret (MessageBufferBase.set_handle h MessageBufferBase.init).
Definition destructor (self : MessageBufferBase.t) : Prog unit :=
  MessageBufferBase.destructor self.
End MessageBuffer.

Module StaticMessageBuffer.
(** [template <size_t N>]; [uint8_t storage[N] = {0}]. *)
Definition sizeof_storage (N : size_t) : size_t := N.

Definition constructor (N : size_t) (this : ObjAddr)
  : Prog MessageBufferBase.t :=
  h <- call (xMessageBufferCreateStatic (sizeof_storage N)
               (member this storage) (member this staticMessageBuffer)) ;;
  Ret (MessageBufferBase.set_handle h MessageBufferBase.init).
Definition destructor (self : MessageBufferBase.t) : Prog unit :=
  MessageBufferBase.destructor self.
End StaticMessageBuffer.

(** ** Observations on programs *)

Definition pmap {A B : Type} (f : A -> B) (p : Prog A) : Prog B :=
  bind p (fun a => Ret (f a)).

(** Two programs make the same calls and end in the same results. *)
Inductive peq {A : Type} : Prog A -> Prog A -> Prop :=
| peq_Ret (a : A) : peq (Ret a) (Ret a)
| peq_Call (X : Type) (c : KCall X) (k1 k2 : X -> Prog A) :
    (forall x, peq (k1 x) (k2 x)) -> peq (Call c k1) (Call c k2).

(** ** The public interface, class by class

    A method is taken with its object: the body receives the object and the
    arguments and gives back the result and the object as the method leaves
    it.  A [bool&] parameter is an argument that comes back in the result. *)
Record Method : Type := {
  m_class : string;
  m_name : string;
  m_self : Type;
  m_handle : m_self -> Handle;
  m_arg : Type;
  m_ret : Type;
  m_body : m_self -> m_arg -> Prog (m_ret * m_self)
}.

(** A [const] member function: the object is not assignable in the body. *)
Definition const_method {Self Arg R : Type} (cls name : string)
    (h : Self -> Handle) (f : Self -> Arg -> Prog R) : Method :=
  {| m_class := cls; m_name := name; m_self := Self; m_handle := h;
     m_arg := Arg; m_ret := R;
     m_body := fun self a => r <- f self a ;; Ret (r, self) |}.

(** A [static] member function or a namespace function: no object. *)
Definition static_method {Arg R : Type} (cls name : string)
    (f : Arg -> Prog R) : Method :=
  const_method cls name (fun _ : unit => NULL) (fun _ a => f a).

(** [X(X&&) noexcept = default] and [X& operator=(X&&) noexcept = default],
    which every wrapper class declares, public in the classes of mutexes,
    semaphores, event groups, queues, stream buffers and message buffers and
    protected in those of tasks and timers.  Each base and member is moved
    from the source's; the members are the handle, numbers, a [bool] and
    kernel structures of such, whose move is a copy.  So the object gets the
    value of every member of the source, its old handle being overwritten in
    an assignment, and the source keeps its own; no kernel function is
    called.  The result is the object and the source as the operation
    leaves them. *)
Definition move_constructor {Obj : Type} (other : Obj) : Prog (Obj * Obj) :=
  Ret (other, other).

Definition move_assignment {Obj : Type} (self other : Obj)
  : Prog (Obj * Obj) :=
  Ret (other, other).

(** The move assignment operator as a method: the source is its
    argument. *)
Definition move_assignment_method {Self : Type} (cls : string)
    (h : Self -> Handle) : Method :=
  {| m_class := cls; m_name := "operator=(&&)"; m_self := Self;
     m_handle := h; m_arg := Self; m_ret := unit;
     m_body := fun self other =>
                 '(self', _) <- move_assignment self other ;;
                 Ret (tt, self') |}.

Section Interface.
Context {cfg : FreeRTOSConfig}.
(** The element type of the queue classes and its default-initialised
    content. *)
Variable T : Type.
Variable default_T : T.

Definition Kernel_functions : list Method := [
  static_method "Kernel" "getSchedulerState"
    (fun _ : unit => Kernel.getSchedulerState);
  static_method "Kernel" "getNumberOfTasks"
    (fun _ : unit => Kernel.getNumberOfTasks);
  static_method "Kernel" "getIdleRunTimeCounter"
    (fun _ : unit => Kernel.getIdleRunTimeCounter);
  static_method "Kernel" "getTickCount" (fun _ : unit => Kernel.getTickCount);
  static_method "Kernel" "getTickCountFromISR"
    (fun _ : unit => Kernel.getTickCountFromISR);
  static_method "Kernel" "yield" (fun _ : unit => Kernel.yield);
  static_method "Kernel" "enterCritical" (fun _ : unit => Kernel.enterCritical);
  static_method "Kernel" "enterCriticalFromISR"
    (fun _ : unit => Kernel.enterCriticalFromISR);
  static_method "Kernel" "exitCritical" (fun _ : unit => Kernel.exitCritical);
  static_method "Kernel" "exitCriticalFromISR" Kernel.exitCriticalFromISR;
  static_method "Kernel" "disableInterrupts"
    (fun _ : unit => Kernel.disableInterrupts);
  static_method "Kernel" "enableInterrupts"
    (fun _ : unit => Kernel.enableInterrupts);
  static_method "Kernel" "startScheduler"
    (fun _ : unit => Kernel.startScheduler);
  static_method "Kernel" "endScheduler" (fun _ : unit => Kernel.endScheduler);
  static_method "Kernel" "suspendAll" (fun _ : unit => Kernel.suspendAll);
  static_method "Kernel" "resumeAll" (fun _ : unit => Kernel.resumeAll);
  static_method "Kernel" "stepTick" Kernel.stepTick;
  static_method "Kernel" "catchUpTicks" Kernel.catchUpTicks
].

Definition MutexBase_methods : list Method := [
  const_method "MutexBase" "lock" MutexBase.handle MutexBase.lock;
  const_method "MutexBase" "lockFromISR(bool&)" MutexBase.handle
    MutexBase.lockFromISR;
  const_method "MutexBase" "lockFromISR()" MutexBase.handle
    (fun self (_ : unit) => MutexBase.lockFromISR' self);
  const_method "MutexBase" "unlock" MutexBase.handle
    (fun self (_ : unit) => MutexBase.unlock self);
  const_method "RecursiveMutexBase" "lock" MutexBase.handle
    RecursiveMutexBase.lock;
  const_method "RecursiveMutexBase" "unlock" MutexBase.handle
    (fun self (_ : unit) => RecursiveMutexBase.unlock self)
].

Definition SemaphoreBase_methods : list Method := [
  const_method "SemaphoreBase" "getCount" SemaphoreBase.handle
    (fun self (_ : unit) => SemaphoreBase.getCount self);
  const_method "SemaphoreBase" "take" SemaphoreBase.handle SemaphoreBase.take;
  const_method "SemaphoreBase" "takeFromISR(bool&)" SemaphoreBase.handle
    SemaphoreBase.takeFromISR;
  const_method "SemaphoreBase" "takeFromISR()" SemaphoreBase.handle
    (fun self (_ : unit) => SemaphoreBase.takeFromISR' self);
  const_method "SemaphoreBase" "give" SemaphoreBase.handle
    (fun self (_ : unit) => SemaphoreBase.give self);
  const_method "SemaphoreBase" "giveFromISR(bool&)" SemaphoreBase.handle
    SemaphoreBase.giveFromISR;
  const_method "SemaphoreBase" "giveFromISR()" SemaphoreBase.handle
    (fun self (_ : unit) => SemaphoreBase.giveFromISR' self)
].

Definition EventGroupBase_methods : list Method := [
  const_method "EventGroupBase" "wait" EventGroupBase.handle
    (fun self '(bitsToWaitFor, clearOnExit, waitForAllBits, ticksToWait) =>
       EventGroupBase.wait self bitsToWaitFor clearOnExit waitForAllBits
         ticksToWait);
  const_method "EventGroupBase" "set" EventGroupBase.handle
    EventGroupBase.set;
  const_method "EventGroupBase" "setFromISR(bool&)" EventGroupBase.handle
    (fun self '(higherPriorityTaskWoken, bitsToSet) =>
       EventGroupBase.setFromISR self higherPriorityTaskWoken bitsToSet);
  const_method "EventGroupBase" "setFromISR()" EventGroupBase.handle
    EventGroupBase.setFromISR';
  const_method "EventGroupBase" "clear" EventGroupBase.handle
    EventGroupBase.clear;
  const_method "EventGroupBase" "clearFromISR" EventGroupBase.handle
    EventGroupBase.clearFromISR;
  const_method "EventGroupBase" "get" EventGroupBase.handle
    (fun self (_ : unit) => EventGroupBase.get self);
  const_method "EventGroupBase" "getFromISR" EventGroupBase.handle
    (fun self (_ : unit) => EventGroupBase.getFromISR self);
  const_method "EventGroupBase" "sync" EventGroupBase.handle
    (fun self '(bitsToSet, bitsToWaitFor, ticksToWait) =>
       EventGroupBase.sync self bitsToSet bitsToWaitFor ticksToWait)
].

Definition QueueBase_methods : list Method := [
  const_method "QueueBase" "sendToBack" QueueBase.handle
    (fun self '(item, ticksToWait) =>
       QueueBase.sendToBack (T:=T) self item ticksToWait);
  const_method "QueueBase" "sendToBackFromISR(bool&)" QueueBase.handle
    (fun self '(higherPriorityTaskWoken, item) =>
       QueueBase.sendToBackFromISR (T:=T) self higherPriorityTaskWoken item);
  const_method "QueueBase" "sendToBackFromISR()" QueueBase.handle
    (QueueBase.sendToBackFromISR' (T:=T));
  const_method "QueueBase" "sendToFront" QueueBase.handle
    (fun self '(item, ticksToWait) =>
       QueueBase.sendToFront (T:=T) self item ticksToWait);
  const_method "QueueBase" "sendToFrontFromISR(bool&)" QueueBase.handle
    (fun self '(higherPriorityTaskWoken, item) =>
       QueueBase.sendToFrontFromISR (T:=T) self higherPriorityTaskWoken item);
  const_method "QueueBase" "sendToFrontFromISR()" QueueBase.handle
    (QueueBase.sendToFrontFromISR' (T:=T));
  const_method "QueueBase" "receive" QueueBase.handle
    (QueueBase.receive default_T);
  const_method "QueueBase" "receiveFromISR(bool&)" QueueBase.handle
    (QueueBase.receiveFromISR default_T);
  const_method "QueueBase" "receiveFromISR()" QueueBase.handle
    (fun self (_ : unit) => QueueBase.receiveFromISR' default_T self);
  const_method "QueueBase" "messagesWaiting" QueueBase.handle
    (fun self (_ : unit) => QueueBase.messagesWaiting self);
  const_method "QueueBase" "messagesWaitingFromISR" QueueBase.handle
    (fun self (_ : unit) => QueueBase.messagesWaitingFromISR self);
  const_method "QueueBase" "spacesAvailable" QueueBase.handle
    (fun self (_ : unit) => QueueBase.spacesAvailable self);
  const_method "QueueBase" "reset" QueueBase.handle
    (fun self (_ : unit) => QueueBase.reset self);
  const_method "QueueBase" "overwrite" QueueBase.handle
    (QueueBase.overwrite (T:=T));
  const_method "QueueBase" "overwriteFromISR(bool&)" QueueBase.handle
    (fun self '(higherPriorityTaskWoken, item) =>
       QueueBase.overwriteFromISR (T:=T) self higherPriorityTaskWoken item);
  const_method "QueueBase" "overwriteFromISR()" QueueBase.handle
    (QueueBase.overwriteFromISR' (T:=T));
  const_method "QueueBase" "peek" QueueBase.handle (QueueBase.peek default_T);
  const_method "QueueBase" "peekFromISR" QueueBase.handle
    (fun self (_ : unit) => QueueBase.peekFromISR default_T self);
  const_method "QueueBase" "addToRegistry" QueueBase.handle
    QueueBase.addToRegistry;
  const_method "QueueBase" "unregister" QueueBase.handle
    (fun self (_ : unit) => QueueBase.unregister self);
  const_method "QueueBase" "getName" QueueBase.handle
    (fun self (_ : unit) => QueueBase.getName self);
  const_method "QueueBase" "isFullFromISR" QueueBase.handle
    (fun self (_ : unit) => QueueBase.isFullFromISR self);
  const_method "QueueBase" "isEmptyFromISR" QueueBase.handle
    (fun self (_ : unit) => QueueBase.isEmptyFromISR self)
].

Definition TaskBase_methods : list Method := [
  const_method "TaskBase" "getPriority" TaskBase.handle
    (fun self (_ : unit) => TaskBase.getPriority self);
  const_method "TaskBase" "setPriority" TaskBase.handle TaskBase.setPriority;
  const_method "TaskBase" "suspend" TaskBase.handle
    (fun self (_ : unit) => TaskBase.suspend self);
  const_method "TaskBase" "resume" TaskBase.handle
    (fun self (_ : unit) => TaskBase.resume self);
  const_method "TaskBase" "resumeFromISR" TaskBase.handle
    (fun self (_ : unit) => TaskBase.resumeFromISR self);
  const_method "TaskBase" "abortDelay" TaskBase.handle
    (fun self (_ : unit) => TaskBase.abortDelay self);
  static_method "TaskBase" "getIdleHandle"
    (fun _ : unit => TaskBase.getIdleHandle);
  const_method "TaskBase" "getStackHighWaterMark" TaskBase.handle
    (fun self (_ : unit) => TaskBase.getStackHighWaterMark self);
  const_method "TaskBase" "getStackHighWaterMark2" TaskBase.handle
    (fun self (_ : unit) => TaskBase.getStackHighWaterMark2 self);
  const_method "TaskBase" "getState" TaskBase.handle
    (fun self (_ : unit) => TaskBase.getState self);
  const_method "TaskBase" "getName" TaskBase.handle
    (fun self (_ : unit) => TaskBase.getName self);
  static_method "TaskBase" "getHandle" TaskBase.getHandle;
  const_method "TaskBase" "notifyGive" TaskBase.handle TaskBase.notifyGive;
  const_method "TaskBase" "notifyGiveFromISR(bool&)" TaskBase.handle
    (fun self '(higherPriorityTaskWoken, index) =>
       TaskBase.notifyGiveFromISR self higherPriorityTaskWoken index);
  const_method "TaskBase" "notifyGiveFromISR()" TaskBase.handle
    TaskBase.notifyGiveFromISR';
  const_method "TaskBase" "notify" TaskBase.handle
    (fun self '(action, value, index) =>
       TaskBase.notify self action value index);
  const_method "TaskBase" "notifyAndQuery" TaskBase.handle
    (fun self '(action, value, index) =>
       TaskBase.notifyAndQuery self action value index);
  const_method "TaskBase" "notifyAndQueryFromISR(bool&)" TaskBase.handle
    (fun self '(higherPriorityTaskWoken, action, value, index) =>
       TaskBase.notifyAndQueryFromISR self higherPriorityTaskWoken action
         value index);
  const_method "TaskBase" "notifyAndQueryFromISR()" TaskBase.handle
    (fun self '(action, value, index) =>
       TaskBase.notifyAndQueryFromISR' self action value index);
  const_method "TaskBase" "notifyFromISR(bool&)" TaskBase.handle
    (fun self '(higherPriorityTaskWoken, action, value, index) =>
       TaskBase.notifyFromISR self higherPriorityTaskWoken action value
         index);
  const_method "TaskBase" "notifyFromISR()" TaskBase.handle
    (fun self '(action, value, index) =>
       TaskBase.notifyFromISR' self action value index);
  static_method "TaskBase" "notifyWait"
    (fun '(ticksToWait, bitsToClearOnEntry, bitsToClearOnExit, index) =>
       TaskBase.notifyWait ticksToWait bitsToClearOnEntry bitsToClearOnExit
         index);
  const_method "TaskBase" "notifyStateClear" TaskBase.handle
    TaskBase.notifyStateClear;
  const_method "TaskBase" "notifyValueClear" TaskBase.handle
    (fun self '(bitsToClear, index) =>
       TaskBase.notifyValueClear self bitsToClear index)
].

Definition TimerBase_methods : list Method := [
  const_method "TimerBase" "isActive" TimerBase.handle
    (fun self (_ : unit) => TimerBase.isActive self);
  const_method "TimerBase" "start" TimerBase.handle TimerBase.start;
  const_method "TimerBase" "startFromISR(bool&)" TimerBase.handle
    TimerBase.startFromISR;
  const_method "TimerBase" "startFromISR()" TimerBase.handle
    (fun self (_ : unit) => TimerBase.startFromISR' self);
  const_method "TimerBase" "stop" TimerBase.handle TimerBase.stop;
  const_method "TimerBase" "stopFromISR(bool&)" TimerBase.handle
    TimerBase.stopFromISR;
  const_method "TimerBase" "stopFromISR()" TimerBase.handle
    (fun self (_ : unit) => TimerBase.stopFromISR' self);
  const_method "TimerBase" "changePeriod" TimerBase.handle
    (fun self '(newPeriod, blockTime) =>
       TimerBase.changePeriod self newPeriod blockTime);
  const_method "TimerBase" "changePeriodFromISR(bool&)" TimerBase.handle
    (fun self '(higherPriorityTaskWoken, newPeriod) =>
       TimerBase.changePeriodFromISR self higherPriorityTaskWoken newPeriod);
  const_method "TimerBase" "changePeriodFromISR()" TimerBase.handle
    TimerBase.changePeriodFromISR';
  const_method "TimerBase" "reset" TimerBase.handle TimerBase.reset;
  const_method "TimerBase" "resetFromISR(bool&)" TimerBase.handle
    TimerBase.resetFromISR;
  const_method "TimerBase" "resetFromISR()" TimerBase.handle
    (fun self (_ : unit) => TimerBase.resetFromISR' self);
  const_method "TimerBase" "setReloadMode" TimerBase.handle
    TimerBase.setReloadMode;
  const_method "TimerBase" "getName" TimerBase.handle
    (fun self (_ : unit) => TimerBase.getName self);
  const_method "TimerBase" "getPeriod" TimerBase.handle
    (fun self (_ : unit) => TimerBase.getPeriod self);
  const_method "TimerBase" "getExpiryTime" TimerBase.handle
    (fun self (_ : unit) => TimerBase.getExpiryTime self);
  const_method "TimerBase" "getReloadMode" TimerBase.handle
    (fun self (_ : unit) => TimerBase.getReloadMode self)
].

Definition StreamBufferBase_methods : list Method := [
  const_method "StreamBufferBase" "send" StreamBufferBase.handle
    (fun self '(data, length, ticksToWait) =>
       StreamBufferBase.send self data length ticksToWait);
  const_method "StreamBufferBase" "sendFromISR(bool&)"
    StreamBufferBase.handle
    (fun self '(higherPriorityTaskWoken, data, length) =>
       StreamBufferBase.sendFromISR self higherPriorityTaskWoken data length);
  const_method "StreamBufferBase" "sendFromISR()" StreamBufferBase.handle
    (fun self '(data, length) => StreamBufferBase.sendFromISR' self data length);
  const_method "StreamBufferBase" "receive" StreamBufferBase.handle
    (fun self '(buffer, bufferLength, ticksToWait) =>
       StreamBufferBase.receive self buffer bufferLength ticksToWait);
  const_method "StreamBufferBase" "receiveFromISR(bool&)"
    StreamBufferBase.handle
    (fun self '(higherPriorityTaskWoken, buffer, bufferLength) =>
       StreamBufferBase.receiveFromISR self higherPriorityTaskWoken buffer
         bufferLength);
  const_method "StreamBufferBase" "receiveFromISR()" StreamBufferBase.handle
    (fun self '(buffer, bufferLength) =>
       StreamBufferBase.receiveFromISR' self buffer bufferLength);
  const_method "StreamBufferBase" "bytesAvailable" StreamBufferBase.handle
    (fun self (_ : unit) => StreamBufferBase.bytesAvailable self);
  const_method "StreamBufferBase" "spacesAvailable" StreamBufferBase.handle
    (fun self (_ : unit) => StreamBufferBase.spacesAvailable self);
  const_method "StreamBufferBase" "setTriggerLevel" StreamBufferBase.handle
    StreamBufferBase.setTriggerLevel;
  const_method "StreamBufferBase" "reset" StreamBufferBase.handle
    (fun self (_ : unit) => StreamBufferBase.reset self);
  const_method "StreamBufferBase" "isEmpty" StreamBufferBase.handle
    (fun self (_ : unit) => StreamBufferBase.isEmpty self);
  const_method "StreamBufferBase" "isFull" StreamBufferBase.handle
    (fun self (_ : unit) => StreamBufferBase.isFull self)
].

Definition MessageBufferBase_methods : list Method := [
  const_method "MessageBufferBase" "send" MessageBufferBase.handle
    (fun self '(data, length, ticksToWait) =>
       MessageBufferBase.send self data length ticksToWait);
  const_method "MessageBufferBase" "sendFromISR(bool&)"
    MessageBufferBase.handle
    (fun self '(higherPriorityTaskWoken, data, length) =>
       MessageBufferBase.sendFromISR self higherPriorityTaskWoken data length);
  const_method "MessageBufferBase" "sendFromISR()" MessageBufferBase.handle
    (fun self '(data, length) =>
       MessageBufferBase.sendFromISR' self data length);
  const_method "MessageBufferBase" "receive" MessageBufferBase.handle
    (fun self '(buffer, bufferLength, ticksToWait) =>
       MessageBufferBase.receive self buffer bufferLength ticksToWait);
  const_method "MessageBufferBase" "receiveFromISR(bool&)"
    MessageBufferBase.handle
    (fun self '(higherPriorityTaskWoken, buffer, bufferLength) =>
       MessageBufferBase.receiveFromISR self higherPriorityTaskWoken buffer
         bufferLength);
  const_method "MessageBufferBase" "receiveFromISR()"
    MessageBufferBase.handle
    (fun self '(buffer, bufferLength) =>
       MessageBufferBase.receiveFromISR' self buffer bufferLength);
  const_method "MessageBufferBase" "spacesAvailable" MessageBufferBase.handle
    (fun self (_ : unit) => MessageBufferBase.spacesAvailable self);
  const_method "MessageBufferBase" "reset" MessageBufferBase.handle
    (fun self (_ : unit) => MessageBufferBase.reset self);
  const_method "MessageBufferBase" "isEmpty" MessageBufferBase.handle
    (fun self (_ : unit) => MessageBufferBase.isEmpty self);
  const_method "MessageBufferBase" "isFull" MessageBufferBase.handle
    (fun self (_ : unit) => MessageBufferBase.isFull self)
].

(** The public methods that forward to the kernel and leave the object as
    it is. *)
Definition forwarding_methods : list Method :=
  Kernel_functions ++ MutexBase_methods ++ SemaphoreBase_methods
  ++ EventGroupBase_methods ++ QueueBase_methods ++ TaskBase_methods
  ++ TimerBase_methods ++ StreamBufferBase_methods
  ++ MessageBufferBase_methods.

(** [TimerBase::deleteTimer], which clears [handle] when the timer is
    deleted. *)
Definition deleteTimer_method : Method :=
  {| m_class := "TimerBase"; m_name := "deleteTimer";
     m_self := TimerBase.t; m_handle := TimerBase.handle;
     m_arg := TickType_t; m_ret := bool;
     m_body := TimerBase.deleteTimer |}.

(** The public methods whose body is an expression over the data
    members. *)
Definition isValid_methods : list Method := [
  const_method "MutexBase" "isValid" MutexBase.handle
    (fun self (_ : unit) => Ret (MutexBase.isValid self));
  const_method "SemaphoreBase" "isValid" SemaphoreBase.handle
    (fun self (_ : unit) => Ret (SemaphoreBase.isValid self));
  const_method "EventGroupBase" "isValid" EventGroupBase.handle
    (fun self (_ : unit) => Ret (EventGroupBase.isValid self));
  const_method "QueueBase" "isValid" QueueBase.handle
    (fun self (_ : unit) => Ret (QueueBase.isValid self));
  const_method "TimerBase" "isValid" TimerBase.handle
    (fun self (_ : unit) => Ret (TimerBase.isValid self));
  const_method "StreamBufferBase" "isValid" StreamBufferBase.handle
    (fun self (_ : unit) => Ret (StreamBufferBase.isValid self));
  const_method "MessageBufferBase" "isValid" MessageBufferBase.handle
    (fun self (_ : unit) => Ret (MessageBufferBase.isValid self))
].

Definition Task_isValid_method : Method :=
  const_method "Task" "isValid" (fun self => TaskBase.handle (Task.base self))
    (fun self (_ : unit) => Ret (Task.isValid self)).

Definition getDeleteBlockTime_method : Method :=
  const_method "TimerBase" "getDeleteBlockTime" TimerBase.handle
    (fun self (_ : unit) => Ret (TimerBase.getDeleteBlockTime self)).

Definition setDeleteBlockTime_method : Method :=
  {| m_class := "TimerBase"; m_name := "setDeleteBlockTime";
     m_self := TimerBase.t; m_handle := TimerBase.handle;
     m_arg := TickType_t; m_ret := unit;
     m_body := fun self deleteBlockTime =>
                 Ret (tt, TimerBase.setDeleteBlockTime self deleteBlockTime) |}.

(** The entry points the kernel reaches through the trampolines; the
    user's override is an argument. *)
Definition taskEntry_method : Method :=
  {| m_class := "TaskBase"; m_name := "taskEntry";
     m_self := TaskBase.t; m_handle := TaskBase.handle;
     m_arg := TaskBase.t -> Prog TaskBase.t; m_ret := unit;
     m_body := fun self taskFunction =>
                 self' <- TaskBase.taskEntry taskFunction self ;;
                 Ret (tt, self') |}.

Definition timerEntry_method : Method :=
  {| m_class := "TimerBase"; m_name := "timerEntry";
     m_self := TimerBase.t; m_handle := TimerBase.handle;
     m_arg := TimerBase.t -> Prog TimerBase.t; m_ret := unit;
     m_body := fun self timerFunction =>
                 self' <- TimerBase.timerEntry timerFunction self ;;
                 Ret (tt, self') |}.

(** The [protected] members of [TaskBase], which the user's [taskFunction]
    calls on its own object. *)
Definition delayUntil_method : Method :=
  {| m_class := "TaskBase"; m_name := "delayUntil";
     m_self := TaskBase.t; m_handle := TaskBase.handle;
     m_arg := TickType_t; m_ret := bool;
     m_body := TaskBase.delayUntil |}.

Definition protected_methods : list Method := [
  static_method "TaskBase" "delay" TaskBase.delay;
  delayUntil_method;
  static_method "TaskBase" "notifyTake"
    (fun '(ticksToWait, clearCountOnExit, index) =>
       TaskBase.notifyTake ticksToWait clearCountOnExit index)
].

Definition local_methods : list Method :=
  isValid_methods
  ++ [Task_isValid_method; getDeleteBlockTime_method;
      setDeleteBlockTime_method].

(** The public move assignment operators, class by class. *)
Definition move_assignment_methods : list Method := [
  move_assignment_method "Mutex" MutexBase.handle;
  move_assignment_method "RecursiveMutex" MutexBase.handle;
  move_assignment_method "StaticMutex" MutexBase.handle;
  move_assignment_method "StaticRecursiveMutex" MutexBase.handle;
  move_assignment_method "BinarySemaphore" SemaphoreBase.handle;
  move_assignment_method "CountingSemaphore" SemaphoreBase.handle;
  move_assignment_method "StaticBinarySemaphore" SemaphoreBase.handle;
  move_assignment_method "StaticCountingSemaphore" SemaphoreBase.handle;
  move_assignment_method "EventGroup" EventGroupBase.handle;
  move_assignment_method "StaticEventGroup" EventGroupBase.handle;
  move_assignment_method "Queue" QueueBase.handle;
  move_assignment_method "StaticQueue" QueueBase.handle;
  move_assignment_method "StreamBuffer" StreamBufferBase.handle;
  move_assignment_method "StaticStreamBuffer" StreamBufferBase.handle;
  move_assignment_method "MessageBuffer" MessageBufferBase.handle;
  move_assignment_method "StaticMessageBuffer" MessageBufferBase.handle
].

Definition public_methods : list Method :=
  forwarding_methods ++ [deleteTimer_method] ++ local_methods
  ++ [taskEntry_method; timerEntry_method] ++ move_assignment_methods.
End Interface.

(** ** The translation table

    The binding layer as the table the specification speaks of: method X of
    class Y calls kernel function Z.  A line names the method, the kernel
    call it makes from the stored handle and its arguments, and the value it
    returns from its arguments and the answer of the call. *)
Record Translation : Type := {
  tr_method : Method;
  tr_answer : Type;
  tr_call : Handle -> m_arg tr_method -> KCall tr_answer;
  tr_value : m_arg tr_method -> tr_answer -> m_ret tr_method
}.

Definition translation (m : Method) {X : Type}
    (c : Handle -> m_arg m -> KCall X) (v : m_arg m -> X -> m_ret m)
  : Translation :=
  {| tr_method := m; tr_answer := X; tr_call := c; tr_value := v |}.

(** The method does what its line says: the one call, on the stored
    handle, the value of the line returned and the object left as it
    is. *)
Definition translates (t : Translation) : Prop :=
  forall (self : m_self (tr_method t)) (a : m_arg (tr_method t)),
    peq (m_body (tr_method t) self a)
      (Call (tr_call t (m_handle (tr_method t) self) a)
         (fun x => Ret (tr_value t a x, self))).

Section Translations.
Context {cfg : FreeRTOSConfig}.
Variable T : Type.
Variable default_T : T.

Definition Kernel_translations : list Translation := [
  translation
    (static_method "Kernel" "getSchedulerState"
      (fun _ : unit => Kernel.getSchedulerState))
    (fun _ (_ : unit) => xTaskGetSchedulerState)
    (fun _ r => r);
  translation
    (static_method "Kernel" "getNumberOfTasks"
      (fun _ : unit => Kernel.getNumberOfTasks))
    (fun _ (_ : unit) => uxTaskGetNumberOfTasks)
    (fun _ r => r);
  translation
    (static_method "Kernel" "getIdleRunTimeCounter"
      (fun _ : unit => Kernel.getIdleRunTimeCounter))
    (fun _ (_ : unit) => xTaskGetIdleRunTimeCounter)
    (fun _ r => r);
  translation
    (static_method "Kernel" "getTickCount" (fun _ : unit => Kernel.getTickCount))
    (fun _ (_ : unit) => xTaskGetTickCount)
    (fun _ r => r);
  translation
    (static_method "Kernel" "getTickCountFromISR"
      (fun _ : unit => Kernel.getTickCountFromISR))
    (fun _ (_ : unit) => xTaskGetTickCountFromISR)
    (fun _ r => r);
  translation
    (static_method "Kernel" "yield" (fun _ : unit => Kernel.yield))
    (fun _ (_ : unit) => taskYIELD)
    (fun _ r => r);
  translation
    (static_method "Kernel" "enterCritical" (fun _ : unit => Kernel.enterCritical))
    (fun _ (_ : unit) => taskENTER_CRITICAL)
    (fun _ r => r);
  translation
    (static_method "Kernel" "enterCriticalFromISR"
      (fun _ : unit => Kernel.enterCriticalFromISR))
    (fun _ (_ : unit) => taskENTER_CRITICAL_FROM_ISR)
    (fun _ r => r);
  translation
    (static_method "Kernel" "exitCritical" (fun _ : unit => Kernel.exitCritical))
    (fun _ (_ : unit) => taskEXIT_CRITICAL)
    (fun _ r => r);
  translation
    (static_method "Kernel" "exitCriticalFromISR" Kernel.exitCriticalFromISR)
    (fun _ interruptStatus => taskEXIT_CRITICAL_FROM_ISR interruptStatus)
    (fun _ r => r);
  translation
    (static_method "Kernel" "disableInterrupts"
      (fun _ : unit => Kernel.disableInterrupts))
    (fun _ (_ : unit) => taskDISABLE_INTERRUPTS)
    (fun _ r => r);
  translation
    (static_method "Kernel" "enableInterrupts"
      (fun _ : unit => Kernel.enableInterrupts))
    (fun _ (_ : unit) => taskENABLE_INTERRUPTS)
    (fun _ r => r);
  translation
    (static_method "Kernel" "startScheduler"
      (fun _ : unit => Kernel.startScheduler))
    (fun _ (_ : unit) => vTaskStartScheduler)
    (fun _ r => r);
  translation
    (static_method "Kernel" "endScheduler" (fun _ : unit => Kernel.endScheduler))
    (fun _ (_ : unit) => vTaskEndScheduler)
    (fun _ r => r);
  translation
    (static_method "Kernel" "suspendAll" (fun _ : unit => Kernel.suspendAll))
    (fun _ (_ : unit) => vTaskSuspendAll)
    (fun _ r => r);
  translation
    (static_method "Kernel" "resumeAll" (fun _ : unit => Kernel.resumeAll))
    (fun _ (_ : unit) => xTaskResumeAll)
    (fun _ r => r =? pdTRUE);
  translation
    (static_method "Kernel" "stepTick" Kernel.stepTick)
    (fun _ ticksToJump => vTaskStepTick ticksToJump)
    (fun _ r => r);
  translation
    (static_method "Kernel" "catchUpTicks" Kernel.catchUpTicks)
    (fun _ ticksToCatchUp => xTaskCatchUpTicks ticksToCatchUp)
    (fun _ r => r =? pdTRUE)
].

Definition MutexBase_translations : list Translation := [
  translation
    (const_method "MutexBase" "lock" MutexBase.handle MutexBase.lock)
    (fun h ticksToWait => xSemaphoreTake h ticksToWait)
    (fun _ r => r =? pdTRUE);
  translation
    (const_method "MutexBase" "lockFromISR(bool&)" MutexBase.handle
      MutexBase.lockFromISR)
    (fun h higherPriorityTaskWoken => xSemaphoreTakeFromISR h (Some pdFALSE))
    (fun higherPriorityTaskWoken '(r, taskWoken) =>
       (r =? pdTRUE, setIfWoken taskWoken higherPriorityTaskWoken));
  translation
    (const_method "MutexBase" "lockFromISR()" MutexBase.handle
      (fun self (_ : unit) => MutexBase.lockFromISR' self))
    (fun h (_ : unit) => xSemaphoreTakeFromISR h None)
    (fun _ '(r, _) => r =? pdTRUE);
  translation
    (const_method "MutexBase" "unlock" MutexBase.handle
      (fun self (_ : unit) => MutexBase.unlock self))
    (fun h (_ : unit) => xSemaphoreGive h)
    (fun _ r => r =? pdTRUE);
  translation
    (const_method "RecursiveMutexBase" "lock" MutexBase.handle
      RecursiveMutexBase.lock)
    (fun h ticksToWait => xSemaphoreTakeRecursive h ticksToWait)
    (fun _ r => r =? pdTRUE);
  translation
    (const_method "RecursiveMutexBase" "unlock" MutexBase.handle
      (fun self (_ : unit) => RecursiveMutexBase.unlock self))
    (fun h (_ : unit) => xSemaphoreGiveRecursive h)
    (fun _ r => r =? pdTRUE)
].

Definition SemaphoreBase_translations : list Translation := [
  translation
    (const_method "SemaphoreBase" "getCount" SemaphoreBase.handle
      (fun self (_ : unit) => SemaphoreBase.getCount self))
    (fun h (_ : unit) => uxSemaphoreGetCount h)
    (fun _ r => r);
  translation
    (const_method "SemaphoreBase" "take" SemaphoreBase.handle SemaphoreBase.take)
    (fun h ticksToWait => xSemaphoreTake h ticksToWait)
    (fun _ r => r =? pdTRUE);
  translation
    (const_method "SemaphoreBase" "takeFromISR(bool&)" SemaphoreBase.handle
      SemaphoreBase.takeFromISR)
    (fun h higherPriorityTaskWoken => xSemaphoreTakeFromISR h (Some pdFALSE))
    (fun higherPriorityTaskWoken '(r, taskWoken) =>
       (r =? pdTRUE, setIfWoken taskWoken higherPriorityTaskWoken));
  translation
    (const_method "SemaphoreBase" "takeFromISR()" SemaphoreBase.handle
      (fun self (_ : unit) => SemaphoreBase.takeFromISR' self))
    (fun h (_ : unit) => xSemaphoreTakeFromISR h None)
    (fun _ '(r, _) => r =? pdTRUE);
  translation
    (const_method "SemaphoreBase" "give" SemaphoreBase.handle
      (fun self (_ : unit) => SemaphoreBase.give self))
    (fun h (_ : unit) => xSemaphoreGive h)
    (fun _ r => r =? pdTRUE);
  translation
    (const_method "SemaphoreBase" "giveFromISR(bool&)" SemaphoreBase.handle
      SemaphoreBase.giveFromISR)
    (fun h higherPriorityTaskWoken => xSemaphoreGiveFromISR h (Some pdFALSE))
    (fun higherPriorityTaskWoken '(r, taskWoken) =>
       (r =? pdTRUE, setIfWoken taskWoken higherPriorityTaskWoken));
  translation
    (const_method "SemaphoreBase" "giveFromISR()" SemaphoreBase.handle
      (fun self (_ : unit) => SemaphoreBase.giveFromISR' self))
    (fun h (_ : unit) => xSemaphoreGiveFromISR h None)
    (fun _ '(r, _) => r =? pdTRUE)
].

Definition EventGroupBase_translations : list Translation := [
  translation
    (const_method "EventGroupBase" "wait" EventGroupBase.handle
      (fun self '(bitsToWaitFor, clearOnExit, waitForAllBits, ticksToWait) =>
         EventGroupBase.wait self bitsToWaitFor clearOnExit waitForAllBits
           ticksToWait))
    (fun h '(bitsToWaitFor, clearOnExit, waitForAllBits, ticksToWait) =>
       xEventGroupWaitBits h bitsToWaitFor (if clearOnExit : bool then pdTRUE
         else pdFALSE) (if waitForAllBits : bool then pdTRUE else pdFALSE)
         ticksToWait)
    (fun _ r => EventGroupBase.EventBits r);
  translation
    (const_method "EventGroupBase" "set" EventGroupBase.handle
      EventGroupBase.set)
    (fun h bitsToSet => xEventGroupSetBits h bitsToSet)
    (fun _ r => EventGroupBase.EventBits r);
  translation
    (const_method "EventGroupBase" "setFromISR(bool&)" EventGroupBase.handle
      (fun self '(higherPriorityTaskWoken, bitsToSet) =>
         EventGroupBase.setFromISR self higherPriorityTaskWoken bitsToSet))
    (fun h '(higherPriorityTaskWoken, bitsToSet) =>
       xEventGroupSetBitsFromISR h bitsToSet (Some pdFALSE))
    (fun '(higherPriorityTaskWoken, bitsToSet) '(r, taskWoken) =>
       (r =? pdPASS, setIfWoken taskWoken higherPriorityTaskWoken));
  translation
    (const_method "EventGroupBase" "setFromISR()" EventGroupBase.handle
      EventGroupBase.setFromISR')
    (fun h bitsToSet => xEventGroupSetBitsFromISR h bitsToSet None)
    (fun _ '(r, _) => r =? pdPASS);
  translation
    (const_method "EventGroupBase" "clear" EventGroupBase.handle
      EventGroupBase.clear)
    (fun h bitsToClear => xEventGroupClearBits h bitsToClear)
    (fun _ r => EventGroupBase.EventBits r);
  translation
    (const_method "EventGroupBase" "clearFromISR" EventGroupBase.handle
      EventGroupBase.clearFromISR)
    (fun h bitsToClear => xEventGroupClearBitsFromISR h bitsToClear)
    (fun _ r => r =? pdPASS);
  translation
    (const_method "EventGroupBase" "get" EventGroupBase.handle
      (fun self (_ : unit) => EventGroupBase.get self))
    (fun h (_ : unit) => xEventGroupGetBits h)
    (fun _ r => EventGroupBase.EventBits r);
  translation
    (const_method "EventGroupBase" "getFromISR" EventGroupBase.handle
      (fun self (_ : unit) => EventGroupBase.getFromISR self))
    (fun h (_ : unit) => xEventGroupGetBitsFromISR h)
    (fun _ r => EventGroupBase.EventBits r);
  translation
    (const_method "EventGroupBase" "sync" EventGroupBase.handle
      (fun self '(bitsToSet, bitsToWaitFor, ticksToWait) =>
         EventGroupBase.sync self bitsToSet bitsToWaitFor ticksToWait))
    (fun h '(bitsToSet, bitsToWaitFor, ticksToWait) =>
       xEventGroupSync h bitsToSet bitsToWaitFor ticksToWait)
    (fun _ r => EventGroupBase.EventBits r)
].

Definition QueueBase_translations : list Translation := [
  translation
    (const_method "QueueBase" "sendToBack" QueueBase.handle
      (fun self '(item, ticksToWait) =>
         QueueBase.sendToBack (T:=T) self item ticksToWait))
    (fun h '((item, ticksToWait) : T * TickType_t) =>
       xQueueSendToBack h item ticksToWait)
    (fun _ r => r =? pdTRUE);
  translation
    (const_method "QueueBase" "sendToBackFromISR(bool&)" QueueBase.handle
      (fun self '(higherPriorityTaskWoken, item) =>
         QueueBase.sendToBackFromISR (T:=T) self higherPriorityTaskWoken item))
    (fun h '((higherPriorityTaskWoken, item) : bool * T) =>
       xQueueSendToBackFromISR h item (Some pdFALSE))
    (fun '((higherPriorityTaskWoken, item) : bool * T) '(r, taskWoken) =>
       (r =? pdPASS, setIfWoken taskWoken higherPriorityTaskWoken));
  translation
    (const_method "QueueBase" "sendToBackFromISR()" QueueBase.handle
      (QueueBase.sendToBackFromISR' (T:=T)))
    (fun h (item : T) => xQueueSendToBackFromISR h item None)
    (fun _ '(r, _) => r =? pdPASS);
  translation
    (const_method "QueueBase" "sendToFront" QueueBase.handle
      (fun self '(item, ticksToWait) =>
         QueueBase.sendToFront (T:=T) self item ticksToWait))
    (fun h '((item, ticksToWait) : T * TickType_t) =>
       xQueueSendToFront h item ticksToWait)
    (fun _ r => r =? pdTRUE);
  translation
    (const_method "QueueBase" "sendToFrontFromISR(bool&)" QueueBase.handle
      (fun self '(higherPriorityTaskWoken, item) =>
         QueueBase.sendToFrontFromISR (T:=T) self higherPriorityTaskWoken item))
    (fun h '((higherPriorityTaskWoken, item) : bool * T) =>
       xQueueSendToFrontFromISR h item (Some pdFALSE))
    (fun '((higherPriorityTaskWoken, item) : bool * T) '(r, taskWoken) =>
       (r =? pdPASS, setIfWoken taskWoken higherPriorityTaskWoken));
  translation
    (const_method "QueueBase" "sendToFrontFromISR()" QueueBase.handle
      (QueueBase.sendToFrontFromISR' (T:=T)))
    (fun h (item : T) => xQueueSendToFrontFromISR h item None)
    (fun _ '(r, _) => r =? pdPASS);
  translation
    (const_method "QueueBase" "receive" QueueBase.handle
      (QueueBase.receive default_T))
    (fun h ticksToWait => xQueueReceive h default_T ticksToWait)
    (fun _ '(r, buffer) => if r =? pdTRUE then Some buffer else None);
  translation
    (const_method "QueueBase" "receiveFromISR(bool&)" QueueBase.handle
      (QueueBase.receiveFromISR default_T))
    (fun h higherPriorityTaskWoken =>
       xQueueReceiveFromISR h default_T (Some pdFALSE))
    (fun higherPriorityTaskWoken '(r, buffer, taskWoken) =>
       (if r =? pdTRUE then Some buffer else None,
        setIfWoken taskWoken higherPriorityTaskWoken));
  translation
    (const_method "QueueBase" "receiveFromISR()" QueueBase.handle
      (fun self (_ : unit) => QueueBase.receiveFromISR' default_T self))
    (fun h (_ : unit) => xQueueReceiveFromISR h default_T None)
    (fun _ '(r, buffer, _) => if r =? pdTRUE then Some buffer else None);
  translation
    (const_method "QueueBase" "messagesWaiting" QueueBase.handle
      (fun self (_ : unit) => QueueBase.messagesWaiting self))
    (fun h (_ : unit) => uxQueueMessagesWaiting h)
    (fun _ r => r);
  translation
    (const_method "QueueBase" "messagesWaitingFromISR" QueueBase.handle
      (fun self (_ : unit) => QueueBase.messagesWaitingFromISR self))
    (fun h (_ : unit) => uxQueueMessagesWaitingFromISR h)
    (fun _ r => r);
  translation
    (const_method "QueueBase" "spacesAvailable" QueueBase.handle
      (fun self (_ : unit) => QueueBase.spacesAvailable self))
    (fun h (_ : unit) => uxQueueSpacesAvailable h)
    (fun _ r => r);
  translation
    (const_method "QueueBase" "reset" QueueBase.handle
      (fun self (_ : unit) => QueueBase.reset self))
    (fun h (_ : unit) => xQueueReset h)
    (fun _ _ => tt);
  translation
    (const_method "QueueBase" "overwrite" QueueBase.handle
      (QueueBase.overwrite (T:=T)))
    (fun h (item : T) => xQueueOverwrite h item)
    (fun _ _ => tt);
  translation
    (const_method "QueueBase" "overwriteFromISR(bool&)" QueueBase.handle
      (fun self '(higherPriorityTaskWoken, item) =>
         QueueBase.overwriteFromISR (T:=T) self higherPriorityTaskWoken item))
    (fun h '((higherPriorityTaskWoken, item) : bool * T) =>
       xQueueOverwriteFromISR h item (Some pdFALSE))
    (fun '((higherPriorityTaskWoken, item) : bool * T) '(_, taskWoken) =>
       (tt, setIfWoken taskWoken higherPriorityTaskWoken));
  translation
    (const_method "QueueBase" "overwriteFromISR()" QueueBase.handle
      (QueueBase.overwriteFromISR' (T:=T)))
    (fun h (item : T) => xQueueOverwriteFromISR h item None)
    (fun _ _ => tt);
  translation
    (const_method "QueueBase" "peek" QueueBase.handle (QueueBase.peek default_T))
    (fun h ticksToWait => xQueuePeek h default_T ticksToWait)
    (fun _ '(r, buffer) => if r =? pdTRUE then Some buffer else None);
  translation
    (const_method "QueueBase" "peekFromISR" QueueBase.handle
      (fun self (_ : unit) => QueueBase.peekFromISR default_T self))
    (fun h (_ : unit) => xQueuePeekFromISR h default_T)
    (fun _ '(r, buffer) => if r =? pdTRUE then Some buffer else None);
  translation
    (const_method "QueueBase" "addToRegistry" QueueBase.handle
      QueueBase.addToRegistry)
    (fun h name => vQueueAddToRegistry h name)
    (fun _ r => r);
  translation
    (const_method "QueueBase" "unregister" QueueBase.handle
      (fun self (_ : unit) => QueueBase.unregister self))
    (fun h (_ : unit) => vQueueUnregisterQueue h)
    (fun _ r => r);
  translation
    (const_method "QueueBase" "getName" QueueBase.handle
      (fun self (_ : unit) => QueueBase.getName self))
    (fun h (_ : unit) => pcQueueGetName h)
    (fun _ r => r);
  translation
    (const_method "QueueBase" "isFullFromISR" QueueBase.handle
      (fun self (_ : unit) => QueueBase.isFullFromISR self))
    (fun h (_ : unit) => xQueueIsQueueFullFromISR h)
    (fun _ r => r =? pdTRUE);
  translation
    (const_method "QueueBase" "isEmptyFromISR" QueueBase.handle
      (fun self (_ : unit) => QueueBase.isEmptyFromISR self))
    (fun h (_ : unit) => xQueueIsQueueEmptyFromISR h)
    (fun _ r => r =? pdTRUE)
].

Definition TaskBase_translations : list Translation := [
  translation
    (const_method "TaskBase" "getPriority" TaskBase.handle
      (fun self (_ : unit) => TaskBase.getPriority self))
    (fun h (_ : unit) => uxTaskPriorityGet h)
    (fun _ r => r);
  translation
    (const_method "TaskBase" "setPriority" TaskBase.handle TaskBase.setPriority)
    (fun h newPriority => vTaskPrioritySet h newPriority)
    (fun _ r => r);
  translation
    (const_method "TaskBase" "suspend" TaskBase.handle
      (fun self (_ : unit) => TaskBase.suspend self))
    (fun h (_ : unit) => vTaskSuspend h)
    (fun _ r => r);
  translation
    (const_method "TaskBase" "resume" TaskBase.handle
      (fun self (_ : unit) => TaskBase.resume self))
    (fun h (_ : unit) => vTaskResume h)
    (fun _ r => r);
  translation
    (const_method "TaskBase" "resumeFromISR" TaskBase.handle
      (fun self (_ : unit) => TaskBase.resumeFromISR self))
    (fun h (_ : unit) => xTaskResumeFromISR h)
    (fun _ r => r =? pdTRUE);
  translation
    (const_method "TaskBase" "abortDelay" TaskBase.handle
      (fun self (_ : unit) => TaskBase.abortDelay self))
    (fun h (_ : unit) => xTaskAbortDelay h)
    (fun _ r => r =? pdPASS);
  translation
    (static_method "TaskBase" "getIdleHandle"
      (fun _ : unit => TaskBase.getIdleHandle))
    (fun _ (_ : unit) => xTaskGetIdleTaskHandle)
    (fun _ r => r);
  translation
    (const_method "TaskBase" "getStackHighWaterMark" TaskBase.handle
      (fun self (_ : unit) => TaskBase.getStackHighWaterMark self))
    (fun h (_ : unit) => uxTaskGetStackHighWaterMark h)
    (fun _ r => r);
  translation
    (const_method "TaskBase" "getStackHighWaterMark2" TaskBase.handle
      (fun self (_ : unit) => TaskBase.getStackHighWaterMark2 self))
    (fun h (_ : unit) => uxTaskGetStackHighWaterMark2 h)
    (fun _ r => r);
  translation
    (const_method "TaskBase" "getState" TaskBase.handle
      (fun self (_ : unit) => TaskBase.getState self))
    (fun h (_ : unit) => eTaskGetState h)
    (fun _ r => TaskBase.to_State r);
  translation
    (const_method "TaskBase" "getName" TaskBase.handle
      (fun self (_ : unit) => TaskBase.getName self))
    (fun h (_ : unit) => pcTaskGetName h)
    (fun _ r => r);
  translation
    (static_method "TaskBase" "getHandle" TaskBase.getHandle)
    (fun _ name => xTaskGetHandle name)
    (fun _ r => r);
  translation
    (const_method "TaskBase" "notifyGive" TaskBase.handle TaskBase.notifyGive)
    (fun h index => xTaskNotifyGiveIndexed h index)
    (fun _ _ => tt);
  translation
    (const_method "TaskBase" "notifyGiveFromISR(bool&)" TaskBase.handle
      (fun self '(higherPriorityTaskWoken, index) =>
         TaskBase.notifyGiveFromISR self higherPriorityTaskWoken index))
    (fun h '(higherPriorityTaskWoken, index) =>
       vTaskNotifyGiveIndexedFromISR h index (Some pdFALSE))
    (fun '(higherPriorityTaskWoken, index) '(_, taskWoken) =>
       (tt, setIfWoken taskWoken higherPriorityTaskWoken));
  translation
    (const_method "TaskBase" "notifyGiveFromISR()" TaskBase.handle
      TaskBase.notifyGiveFromISR')
    (fun h index => vTaskNotifyGiveIndexedFromISR h index None)
    (fun _ _ => tt);
  translation
    (const_method "TaskBase" "notify" TaskBase.handle
      (fun self '(action, value, index) =>
         TaskBase.notify self action value index))
    (fun h '(action, value, index) =>
       xTaskNotifyIndexed h index value (TaskBase.to_eNotifyAction action))
    (fun _ r => r =? pdPASS);
  translation
    (const_method "TaskBase" "notifyAndQuery" TaskBase.handle
      (fun self '(action, value, index) =>
         TaskBase.notifyAndQuery self action value index))
    (fun h '(action, value, index) =>
       xTaskNotifyAndQueryIndexed h index value (TaskBase.to_eNotifyAction
         action))
    (fun _ '(r, value') => (r =? pdPASS, TaskBase.NotificationBits value'));
  translation
    (const_method "TaskBase" "notifyAndQueryFromISR(bool&)" TaskBase.handle
      (fun self '(higherPriorityTaskWoken, action, value, index) =>
         TaskBase.notifyAndQueryFromISR self higherPriorityTaskWoken action
           value index))
    (fun h '(higherPriorityTaskWoken, action, value, index) =>
       xTaskNotifyAndQueryIndexedFromISR h index value
         (TaskBase.to_eNotifyAction action) (Some pdFALSE))
    (fun
        '(higherPriorityTaskWoken, action, value, index) '(r, value', taskWoken) =>
       ((r =? pdPASS, TaskBase.NotificationBits value'),
        setIfWoken taskWoken higherPriorityTaskWoken));
  translation
    (const_method "TaskBase" "notifyAndQueryFromISR()" TaskBase.handle
      (fun self '(action, value, index) =>
         TaskBase.notifyAndQueryFromISR' self action value index))
    (fun h '(action, value, index) =>
       xTaskNotifyAndQueryIndexedFromISR h index value
         (TaskBase.to_eNotifyAction action) None)
    (fun _ '(r, value', _) => (r =? pdPASS, TaskBase.NotificationBits value'));
  translation
    (const_method "TaskBase" "notifyFromISR(bool&)" TaskBase.handle
      (fun self '(higherPriorityTaskWoken, action, value, index) =>
         TaskBase.notifyFromISR self higherPriorityTaskWoken action value
           index))
    (fun h '(higherPriorityTaskWoken, action, value, index) =>
       xTaskNotifyIndexedFromISR h index value (TaskBase.to_eNotifyAction
         action) (Some pdFALSE))
    (fun '(higherPriorityTaskWoken, action, value, index) '(r, taskWoken) =>
       (r =? pdPASS, setIfWoken taskWoken higherPriorityTaskWoken));
  translation
    (const_method "TaskBase" "notifyFromISR()" TaskBase.handle
      (fun self '(action, value, index) =>
         TaskBase.notifyFromISR' self action value index))
    (fun h '(action, value, index) =>
       xTaskNotifyIndexedFromISR h index value (TaskBase.to_eNotifyAction
         action) None)
    (fun _ '(r, _) => r =? pdPASS);
  translation
    (static_method "TaskBase" "notifyWait"
      (fun '(ticksToWait, bitsToClearOnEntry, bitsToClearOnExit, index) =>
         TaskBase.notifyWait ticksToWait bitsToClearOnEntry bitsToClearOnExit
           index))
    (fun _ '(ticksToWait, bitsToClearOnEntry, bitsToClearOnExit, index) =>
       xTaskNotifyWaitIndexed index bitsToClearOnEntry bitsToClearOnExit
         ticksToWait)
    (fun _ '(r, value') => (r =? pdTRUE, TaskBase.NotificationBits value'));
  translation
    (const_method "TaskBase" "notifyStateClear" TaskBase.handle
      TaskBase.notifyStateClear)
    (fun h index => xTaskNotifyStateClearIndexed h index)
    (fun _ r => r =? pdTRUE);
  translation
    (const_method "TaskBase" "notifyValueClear" TaskBase.handle
      (fun self '(bitsToClear, index) =>
         TaskBase.notifyValueClear self bitsToClear index))
    (fun h '(bitsToClear, index) =>
       ulTaskNotifyValueClearIndexed h index bitsToClear)
    (fun _ r => TaskBase.NotificationBits r)
].

Definition TimerBase_translations : list Translation := [
  translation
    (const_method "TimerBase" "isActive" TimerBase.handle
      (fun self (_ : unit) => TimerBase.isActive self))
    (fun h (_ : unit) => xTimerIsTimerActive h)
    (fun _ r => negb (r =? pdFALSE));
  translation
    (const_method "TimerBase" "start" TimerBase.handle TimerBase.start)
    (fun h blockTime => xTimerStart h blockTime)
    (fun _ r => r =? pdPASS);
  translation
    (const_method "TimerBase" "startFromISR(bool&)" TimerBase.handle
      TimerBase.startFromISR)
    (fun h higherPriorityTaskWoken => xTimerStartFromISR h (Some pdFALSE))
    (fun higherPriorityTaskWoken '(r, taskWoken) =>
       (r =? pdPASS, setIfWoken taskWoken higherPriorityTaskWoken));
  translation
    (const_method "TimerBase" "startFromISR()" TimerBase.handle
      (fun self (_ : unit) => TimerBase.startFromISR' self))
    (fun h (_ : unit) => xTimerStartFromISR h None)
    (fun _ '(r, _) => r =? pdPASS);
  translation
    (const_method "TimerBase" "stop" TimerBase.handle TimerBase.stop)
    (fun h blockTime => xTimerStop h blockTime)
    (fun _ r => r =? pdPASS);
  translation
    (const_method "TimerBase" "stopFromISR(bool&)" TimerBase.handle
      TimerBase.stopFromISR)
    (fun h higherPriorityTaskWoken => xTimerStopFromISR h (Some pdFALSE))
    (fun higherPriorityTaskWoken '(r, taskWoken) =>
       (r =? pdPASS, setIfWoken taskWoken higherPriorityTaskWoken));
  translation
    (const_method "TimerBase" "stopFromISR()" TimerBase.handle
      (fun self (_ : unit) => TimerBase.stopFromISR' self))
    (fun h (_ : unit) => xTimerStopFromISR h None)
    (fun _ '(r, _) => r =? pdPASS);
  translation
    (const_method "TimerBase" "changePeriod" TimerBase.handle
      (fun self '(newPeriod, blockTime) =>
         TimerBase.changePeriod self newPeriod blockTime))
    (fun h '(newPeriod, blockTime) =>
       xTimerChangePeriod h newPeriod blockTime)
    (fun _ r => r =? pdPASS);
  translation
    (const_method "TimerBase" "changePeriodFromISR(bool&)" TimerBase.handle
      (fun self '(higherPriorityTaskWoken, newPeriod) =>
         TimerBase.changePeriodFromISR self higherPriorityTaskWoken newPeriod))
    (fun h '(higherPriorityTaskWoken, newPeriod) =>
       xTimerChangePeriodFromISR h newPeriod (Some pdFALSE))
    (fun '(higherPriorityTaskWoken, newPeriod) '(r, taskWoken) =>
       (r =? pdPASS, setIfWoken taskWoken higherPriorityTaskWoken));
  translation
    (const_method "TimerBase" "changePeriodFromISR()" TimerBase.handle
      TimerBase.changePeriodFromISR')
    (fun h newPeriod => xTimerChangePeriodFromISR h newPeriod None)
    (fun _ '(r, _) => r =? pdPASS);
  translation
    (const_method "TimerBase" "reset" TimerBase.handle TimerBase.reset)
    (fun h blockTime => xTimerReset h blockTime)
    (fun _ r => r =? pdPASS);
  translation
    (const_method "TimerBase" "resetFromISR(bool&)" TimerBase.handle
      TimerBase.resetFromISR)
    (fun h higherPriorityTaskWoken => xTimerResetFromISR h (Some pdFALSE))
    (fun higherPriorityTaskWoken '(r, taskWoken) =>
       (r =? pdPASS, setIfWoken taskWoken higherPriorityTaskWoken));
  translation
    (const_method "TimerBase" "resetFromISR()" TimerBase.handle
      (fun self (_ : unit) => TimerBase.resetFromISR' self))
    (fun h (_ : unit) => xTimerResetFromISR h None)
    (fun _ '(r, _) => r =? pdPASS);
  translation
    (const_method "TimerBase" "setReloadMode" TimerBase.handle
      TimerBase.setReloadMode)
    (fun h autoReload =>
       vTimerSetReloadMode h (if autoReload : bool then pdTRUE else pdFALSE))
    (fun _ r => r);
  translation
    (const_method "TimerBase" "getName" TimerBase.handle
      (fun self (_ : unit) => TimerBase.getName self))
    (fun h (_ : unit) => pcTimerGetName h)
    (fun _ r => r);
  translation
    (const_method "TimerBase" "getPeriod" TimerBase.handle
      (fun self (_ : unit) => TimerBase.getPeriod self))
    (fun h (_ : unit) => xTimerGetPeriod h)
    (fun _ r => r);
  translation
    (const_method "TimerBase" "getExpiryTime" TimerBase.handle
      (fun self (_ : unit) => TimerBase.getExpiryTime self))
    (fun h (_ : unit) => xTimerGetExpiryTime h)
    (fun _ r => r);
  translation
    (const_method "TimerBase" "getReloadMode" TimerBase.handle
      (fun self (_ : unit) => TimerBase.getReloadMode self))
    (fun h (_ : unit) => uxTimerGetReloadMode h)
    (fun _ r => r =? pdTRUE)
].

Definition StreamBufferBase_translations : list Translation := [
  translation
    (const_method "StreamBufferBase" "send" StreamBufferBase.handle
      (fun self '(data, length, ticksToWait) =>
         StreamBufferBase.send self data length ticksToWait))
    (fun h '(data, length, ticksToWait) =>
       xStreamBufferSend h data length ticksToWait)
    (fun _ r => r);
  translation
    (const_method "StreamBufferBase" "sendFromISR(bool&)"
      StreamBufferBase.handle
      (fun self '(higherPriorityTaskWoken, data, length) =>
         StreamBufferBase.sendFromISR self higherPriorityTaskWoken data length))
    (fun h '(higherPriorityTaskWoken, data, length) =>
       xStreamBufferSendFromISR h data length (Some pdFALSE))
    (fun '(higherPriorityTaskWoken, data, length) '(sent, taskWoken) =>
       (sent, setIfWoken taskWoken higherPriorityTaskWoken));
  translation
    (const_method "StreamBufferBase" "sendFromISR()" StreamBufferBase.handle
      (fun self '(data, length) => StreamBufferBase.sendFromISR' self data length))
    (fun h '(data, length) => xStreamBufferSendFromISR h data length None)
    (fun _ '(sent, _) => sent);
  translation
    (const_method "StreamBufferBase" "receive" StreamBufferBase.handle
      (fun self '(buffer, bufferLength, ticksToWait) =>
         StreamBufferBase.receive self buffer bufferLength ticksToWait))
    (fun h '(buffer, bufferLength, ticksToWait) =>
       xStreamBufferReceive h buffer bufferLength ticksToWait)
    (fun _ r => r);
  translation
    (const_method "StreamBufferBase" "receiveFromISR(bool&)"
      StreamBufferBase.handle
      (fun self '(higherPriorityTaskWoken, buffer, bufferLength) =>
         StreamBufferBase.receiveFromISR self higherPriorityTaskWoken buffer
           bufferLength))
    (fun h '(higherPriorityTaskWoken, buffer, bufferLength) =>
       xStreamBufferReceiveFromISR h buffer bufferLength (Some pdFALSE))
    (fun
        '(higherPriorityTaskWoken, buffer, bufferLength) '(received, taskWoken) =>
       (received, setIfWoken taskWoken higherPriorityTaskWoken));
  translation
    (const_method "StreamBufferBase" "receiveFromISR()" StreamBufferBase.handle
      (fun self '(buffer, bufferLength) =>
         StreamBufferBase.receiveFromISR' self buffer bufferLength))
    (fun h '(buffer, bufferLength) =>
       xStreamBufferReceiveFromISR h buffer bufferLength None)
    (fun _ '(received, _) => received);
  translation
    (const_method "StreamBufferBase" "bytesAvailable" StreamBufferBase.handle
      (fun self (_ : unit) => StreamBufferBase.bytesAvailable self))
    (fun h (_ : unit) => xStreamBufferBytesAvailable h)
    (fun _ r => r);
  translation
    (const_method "StreamBufferBase" "spacesAvailable" StreamBufferBase.handle
      (fun self (_ : unit) => StreamBufferBase.spacesAvailable self))
    (fun h (_ : unit) => xStreamBufferSpacesAvailable h)
    (fun _ r => r);
  translation
    (const_method "StreamBufferBase" "setTriggerLevel" StreamBufferBase.handle
      StreamBufferBase.setTriggerLevel)
    (fun h triggerLevel => xStreamBufferSetTriggerLevel h triggerLevel)
    (fun _ r => r =? pdTRUE);
  translation
    (const_method "StreamBufferBase" "reset" StreamBufferBase.handle
      (fun self (_ : unit) => StreamBufferBase.reset self))
    (fun h (_ : unit) => xStreamBufferReset h)
    (fun _ r => r =? pdPASS);
  translation
    (const_method "StreamBufferBase" "isEmpty" StreamBufferBase.handle
      (fun self (_ : unit) => StreamBufferBase.isEmpty self))
    (fun h (_ : unit) => xStreamBufferIsEmpty h)
    (fun _ r => r =? pdTRUE);
  translation
    (const_method "StreamBufferBase" "isFull" StreamBufferBase.handle
      (fun self (_ : unit) => StreamBufferBase.isFull self))
    (fun h (_ : unit) => xStreamBufferIsFull h)
    (fun _ r => r =? pdTRUE)
].

Definition MessageBufferBase_translations : list Translation := [
  translation
    (const_method "MessageBufferBase" "send" MessageBufferBase.handle
      (fun self '(data, length, ticksToWait) =>
         MessageBufferBase.send self data length ticksToWait))
    (fun h '(data, length, ticksToWait) =>
       xMessageBufferSend h data length ticksToWait)
    (fun _ r => r);
  translation
    (const_method "MessageBufferBase" "sendFromISR(bool&)"
      MessageBufferBase.handle
      (fun self '(higherPriorityTaskWoken, data, length) =>
         MessageBufferBase.sendFromISR self higherPriorityTaskWoken data length))
    (fun h '(higherPriorityTaskWoken, data, length) =>
       xMessageBufferSendFromISR h data length (Some pdFALSE))
    (fun '(higherPriorityTaskWoken, data, length) '(sent, taskWoken) =>
       (sent, setIfWoken taskWoken higherPriorityTaskWoken));
  translation
    (const_method "MessageBufferBase" "sendFromISR()" MessageBufferBase.handle
      (fun self '(data, length) =>
         MessageBufferBase.sendFromISR' self data length))
    (fun h '(data, length) => xMessageBufferSendFromISR h data length None)
    (fun _ '(sent, _) => sent);
  translation
    (const_method "MessageBufferBase" "receive" MessageBufferBase.handle
      (fun self '(buffer, bufferLength, ticksToWait) =>
         MessageBufferBase.receive self buffer bufferLength ticksToWait))
    (fun h '(buffer, bufferLength, ticksToWait) =>
       xMessageBufferReceive h buffer bufferLength ticksToWait)
    (fun _ r => r);
  translation
    (const_method "MessageBufferBase" "receiveFromISR(bool&)"
      MessageBufferBase.handle
      (fun self '(higherPriorityTaskWoken, buffer, bufferLength) =>
         MessageBufferBase.receiveFromISR self higherPriorityTaskWoken buffer
           bufferLength))
    (fun h '(higherPriorityTaskWoken, buffer, bufferLength) =>
       xMessageBufferReceiveFromISR h buffer bufferLength (Some pdFALSE))
    (fun
        '(higherPriorityTaskWoken, buffer, bufferLength) '(received, taskWoken) =>
       (received, setIfWoken taskWoken higherPriorityTaskWoken));
  translation
    (const_method "MessageBufferBase" "receiveFromISR()"
      MessageBufferBase.handle
      (fun self '(buffer, bufferLength) =>
         MessageBufferBase.receiveFromISR' self buffer bufferLength))
    (fun h '(buffer, bufferLength) =>
       xMessageBufferReceiveFromISR h buffer bufferLength None)
    (fun _ '(received, _) => received);
  translation
    (const_method "MessageBufferBase" "spacesAvailable" MessageBufferBase.handle
      (fun self (_ : unit) => MessageBufferBase.spacesAvailable self))
    (fun h (_ : unit) => xMessageBufferSpacesAvailable h)
    (fun _ r => r);
  translation
    (const_method "MessageBufferBase" "reset" MessageBufferBase.handle
      (fun self (_ : unit) => MessageBufferBase.reset self))
    (fun h (_ : unit) => xMessageBufferReset h)
    (fun _ r => r =? pdPASS);
  translation
    (const_method "MessageBufferBase" "isEmpty" MessageBufferBase.handle
      (fun self (_ : unit) => MessageBufferBase.isEmpty self))
    (fun h (_ : unit) => xMessageBufferIsEmpty h)
    (fun _ r => r =? pdTRUE);
  translation
    (const_method "MessageBufferBase" "isFull" MessageBufferBase.handle
      (fun self (_ : unit) => MessageBufferBase.isFull self))
    (fun h (_ : unit) => xMessageBufferIsFull h)
    (fun _ r => r =? pdTRUE)
].

Definition translation_table : list Translation :=
  Kernel_translations ++ MutexBase_translations ++ SemaphoreBase_translations
  ++ EventGroupBase_translations ++ QueueBase_translations
  ++ TaskBase_translations ++ TimerBase_translations
  ++ StreamBufferBase_translations ++ MessageBufferBase_translations.
End Translations.

(** ** A scripted kernel

    A kernel that gives the same answers at every call: [a_status] as the
    return value of the functions that report a status, [a_woken] as what is
    left behind [pxHigherPriorityTaskWoken], [a_handle] for every handle and
    [a_value] for every other number.  A buffer comes back as it was passed;
    [xTaskDelayUntil] moves the wake time on by the increment.  The kernel
    state counts the calls. *)
Record Answers : Type := {
  a_status : BaseType_t;
  a_woken : BaseType_t;
  a_handle : Handle;
  a_value : Z
}.

Definition answer (a : Answers) {X : Type} (c : KCall X) : X :=
  match c in KCall X return X with
  | xSemaphoreCreateMutex => a_handle a
  | xSemaphoreCreateRecursiveMutex => a_handle a
  | xSemaphoreCreateMutexStatic _ => a_handle a
  | xSemaphoreCreateRecursiveMutexStatic _ => a_handle a
  | xSemaphoreCreateBinary => a_handle a
  | xSemaphoreCreateCounting _ _ => a_handle a
  | xSemaphoreCreateBinaryStatic _ => a_handle a
  | xSemaphoreCreateCountingStatic _ _ _ => a_handle a
  | vSemaphoreDelete _ => tt
  | xSemaphoreTake _ _ => a_status a
  | xSemaphoreTakeFromISR _ _ => (a_status a, a_woken a)
  | xSemaphoreGive _ => a_status a
  | xSemaphoreGiveFromISR _ _ => (a_status a, a_woken a)
  | xSemaphoreTakeRecursive _ _ => a_status a
  | xSemaphoreGiveRecursive _ => a_status a
  | uxSemaphoreGetCount _ => a_value a
  | xEventGroupCreate => a_handle a
  | xEventGroupCreateStatic _ => a_handle a
  | vEventGroupDelete _ => tt
  | xEventGroupWaitBits _ _ _ _ _ => a_value a
  | xEventGroupSetBits _ _ => a_value a
  | xEventGroupSetBitsFromISR _ _ _ => (a_status a, a_woken a)
  | xEventGroupClearBits _ _ => a_value a
  | xEventGroupClearBitsFromISR _ _ => a_status a
  | xEventGroupGetBits _ => a_value a
  | xEventGroupGetBitsFromISR _ => a_value a
  | xEventGroupSync _ _ _ _ => a_value a
  | xQueueCreate _ _ => a_handle a
  | xQueueCreateStatic _ _ _ _ => a_handle a
  | vQueueDelete _ => tt
  | xQueueSendToBack _ _ _ => a_status a
  | xQueueSendToBackFromISR _ _ _ => (a_status a, a_woken a)
  | xQueueSendToFront _ _ _ => a_status a
  | xQueueSendToFrontFromISR _ _ _ => (a_status a, a_woken a)
  | xQueueReceive _ pvBuffer _ => (a_status a, pvBuffer)
  | xQueueReceiveFromISR _ pvBuffer _ => ((a_status a, pvBuffer), a_woken a)
  | uxQueueMessagesWaiting _ => a_value a
  | uxQueueMessagesWaitingFromISR _ => a_value a
  | uxQueueSpacesAvailable _ => a_value a
  | xQueueReset _ => a_status a
  | xQueueOverwrite _ _ => a_status a
  | xQueueOverwriteFromISR _ _ _ => (a_status a, a_woken a)
  | xQueuePeek _ pvBuffer _ => (a_status a, pvBuffer)
  | xQueuePeekFromISR _ pvBuffer => (a_status a, pvBuffer)
  | vQueueAddToRegistry _ _ => tt
  | vQueueUnregisterQueue _ => tt
  | pcQueueGetName _ => None
  | xQueueIsQueueFullFromISR _ => a_status a
  | xQueueIsQueueEmptyFromISR _ => a_status a
  | xTaskCreate _ _ _ _ _ _ => (a_status a, a_handle a)
  | xTaskCreateStatic _ _ _ _ _ _ _ => a_handle a
  | vTaskDelete _ => tt
  | uxTaskPriorityGet _ => a_value a
  | vTaskPrioritySet _ _ => tt
  | vTaskSuspend _ => tt
  | vTaskResume _ => tt
  | xTaskResumeFromISR _ => a_status a
  | xTaskAbortDelay _ => a_status a
  | xTaskGetIdleTaskHandle => a_handle a
  | uxTaskGetStackHighWaterMark _ => a_value a
  | uxTaskGetStackHighWaterMark2 _ => a_value a
  | eTaskGetState _ => eRunning
  | pcTaskGetName _ => None
  | xTaskGetHandle _ => a_handle a
  | xTaskNotifyGiveIndexed _ _ => a_status a
  | vTaskNotifyGiveIndexedFromISR _ _ _ => (tt, a_woken a)
  | xTaskNotifyIndexed _ _ _ _ => a_status a
  | xTaskNotifyAndQueryIndexed _ _ _ _ => (a_status a, a_value a)
  | xTaskNotifyAndQueryIndexedFromISR _ _ _ _ _ => ((a_status a, a_value a), 
      a_woken a)
  | xTaskNotifyIndexedFromISR _ _ _ _ _ => (a_status a, a_woken a)
  | xTaskNotifyWaitIndexed _ _ _ _ => (a_status a, a_value a)
  | xTaskNotifyStateClearIndexed _ _ => a_status a
  | ulTaskNotifyValueClearIndexed _ _ _ => a_value a
  | vTaskDelay _ => tt
  | xTaskDelayUntil pxPreviousWakeTime xTimeIncrement => (a_status a, 
      pxPreviousWakeTime + xTimeIncrement)
  | ulTaskNotifyTakeIndexed _ _ _ => a_value a
  | xTaskGetSchedulerState => a_value a
  | uxTaskGetNumberOfTasks => a_value a
  | xTaskGetIdleRunTimeCounter => a_value a
  | xTaskGetTickCount => a_value a
  | xTaskGetTickCountFromISR => a_value a
  | taskYIELD => tt
  | taskENTER_CRITICAL => tt
  | taskENTER_CRITICAL_FROM_ISR => a_value a
  | taskEXIT_CRITICAL => tt
  | taskEXIT_CRITICAL_FROM_ISR _ => tt
  | taskDISABLE_INTERRUPTS => tt
  | taskENABLE_INTERRUPTS => tt
  | vTaskStartScheduler => tt
  | vTaskEndScheduler => tt
  | vTaskSuspendAll => tt
  | xTaskResumeAll => a_status a
  | vTaskStepTick _ => tt
  | xTaskCatchUpTicks _ => a_status a
  | xTimerCreate _ _ _ _ _ => a_handle a
  | xTimerCreateStatic _ _ _ _ _ _ => a_handle a
  | xTimerIsTimerActive _ => a_status a
  | xTimerStart _ _ => a_status a
  | xTimerStartFromISR _ _ => (a_status a, a_woken a)
  | xTimerStop _ _ => a_status a
  | xTimerStopFromISR _ _ => (a_status a, a_woken a)
  | xTimerChangePeriod _ _ _ => a_status a
  | xTimerChangePeriodFromISR _ _ _ => (a_status a, a_woken a)
  | xTimerDelete _ _ => a_status a
  | xTimerReset _ _ => a_status a
  | xTimerResetFromISR _ _ => (a_status a, a_woken a)
  | vTimerSetReloadMode _ _ => tt
  | pcTimerGetName _ => None
  | xTimerGetPeriod _ => a_value a
  | xTimerGetExpiryTime _ => a_value a
  | uxTimerGetReloadMode _ => a_value a
  | pvTimerGetTimerID _ => 1%positive
  | xStreamBufferCreate _ _ => a_handle a
  | xStreamBufferCreateStatic _ _ _ _ => a_handle a
  | vStreamBufferDelete _ => tt
  | xStreamBufferSend _ _ _ _ => a_value a
  | xStreamBufferSendFromISR _ _ _ _ => (a_value a, a_woken a)
  | xStreamBufferReceive _ pvRxData _ _ => (a_value a, pvRxData)
  | xStreamBufferReceiveFromISR _ pvRxData _ _ => ((a_value a, pvRxData), 
      a_woken a)
  | xStreamBufferBytesAvailable _ => a_value a
  | xStreamBufferSpacesAvailable _ => a_value a
  | xStreamBufferSetTriggerLevel _ _ => a_status a
  | xStreamBufferReset _ => a_status a
  | xStreamBufferIsEmpty _ => a_status a
  | xStreamBufferIsFull _ => a_status a
  | xMessageBufferCreate _ => a_handle a
  | xMessageBufferCreateStatic _ _ _ => a_handle a
  | vMessageBufferDelete _ => tt
  | xMessageBufferSend _ _ _ _ => a_value a
  | xMessageBufferSendFromISR _ _ _ _ => (a_value a, a_woken a)
  | xMessageBufferReceive _ pvRxData _ _ => (a_value a, pvRxData)
  | xMessageBufferReceiveFromISR _ pvRxData _ _ => ((a_value a, pvRxData), 
      a_woken a)
  | xMessageBufferSpacesAvailable _ => a_value a
  | xMessageBufferReset _ => a_status a
  | xMessageBufferIsEmpty _ => a_status a
  | xMessageBufferIsFull _ => a_status a
  end.

Definition scripted (a : Answers) : Kernel nat :=
  fun X c n => (answer a c, S n).

(** A kernel that has no memory left: every create call fails, with
    [errCOULD_NOT_ALLOCATE_REQUIRED_MEMORY] where a status is returned. *)
Definition out_of_memory : Answers :=
  {| a_status := -1; a_woken := 0; a_handle := NULL; a_value := 0 |}.

(** A kernel that succeeds and hands out the handle [Ptr 1]. *)
Definition all_fine : Answers :=
  {| a_status := 1; a_woken := 0; a_handle := Ptr 1; a_value := 0 |}.

(** A kernel whose first call succeeds and whose later calls report
    failure, as when a mutex is taken and further takes time out. *)
Definition first_call_only : Kernel nat :=
  fun X c n =>
    (answer {| a_status := if (n =? 0)%nat then 1 else 0; a_woken := 0;
               a_handle := Ptr 1; a_value := 0 |} c,
     S n).

(** ** What a call reports

    [status c] reads the C return value out of the answer of the kernel
    functions that report success or failure (a [BaseType_t], or for
    [uxTimerGetReloadMode] the [UBaseType_t] the wrapper compares with
    [pdTRUE]); it is the first component of the answer. *)
Definition status {X : Type} (c : KCall X) : option (X -> BaseType_t) :=
  match c in KCall X return option (X -> BaseType_t) with
  | xSemaphoreTake _ _ | xSemaphoreGive _
  | xSemaphoreTakeRecursive _ _ | xSemaphoreGiveRecursive _
  | xEventGroupClearBitsFromISR _ _
  | xQueueSendToBack _ _ _ | xQueueSendToFront _ _ _
  | xQueueReset _ | xQueueOverwrite _ _
  | xQueueIsQueueFullFromISR _ | xQueueIsQueueEmptyFromISR _
  | xTaskResumeFromISR _ | xTaskAbortDelay _
  | xTaskNotifyGiveIndexed _ _ | xTaskNotifyIndexed _ _ _ _
  | xTaskNotifyStateClearIndexed _ _
  | xTaskResumeAll | xTaskCatchUpTicks _
  | xTimerIsTimerActive _ | xTimerStart _ _ | xTimerStop _ _
  | xTimerChangePeriod _ _ _ | xTimerDelete _ _ | xTimerReset _ _
  | uxTimerGetReloadMode _
  | xStreamBufferSetTriggerLevel _ _ | xStreamBufferReset _
  | xStreamBufferIsEmpty _ | xStreamBufferIsFull _
  | xMessageBufferReset _ | xMessageBufferIsEmpty _
  | xMessageBufferIsFull _ => Some (fun r => r)
  | xSemaphoreTakeFromISR _ _ | xSemaphoreGiveFromISR _ _
  | xEventGroupSetBitsFromISR _ _ _
  | xQueueSendToBackFromISR _ _ _ | xQueueSendToFrontFromISR _ _ _
  | xQueueOverwriteFromISR _ _ _
  | xTaskNotifyIndexedFromISR _ _ _ _ _
  | xTaskDelayUntil _ _
  | xTaskNotifyAndQueryIndexed _ _ _ _ | xTaskNotifyWaitIndexed _ _ _ _
  | xTimerStartFromISR _ _ | xTimerStopFromISR _ _
  | xTimerChangePeriodFromISR _ _ _ | xTimerResetFromISR _ _ =>
      Some (fun x => fst x)
  | xTaskCreate _ _ _ _ _ _ => Some (fun x => fst x)
  | xQueueReceive _ _ _ | xQueuePeek _ _ _ | xQueuePeekFromISR _ _ =>
      Some (fun x => fst x)
  | xQueueReceiveFromISR _ _ _ => Some (fun x => fst (fst x))
  | xTaskNotifyAndQueryIndexedFromISR _ _ _ _ _ => Some (fun x => fst (fst x))
  | _ => None
  end.

(** [woken c] reads what the kernel left in the cell behind
    [pxHigherPriorityTaskWoken], for the calls that were given the address of
    one (not [NULL]); it is the last component of the answer. *)
Definition woken {X : Type} (c : KCall X) : option (X -> BaseType_t) :=
  match c in KCall X return option (X -> BaseType_t) with
  | xSemaphoreTakeFromISR _ (Some _) | xSemaphoreGiveFromISR _ (Some _)
  | xEventGroupSetBitsFromISR _ _ (Some _)
  | xQueueSendToBackFromISR _ _ (Some _)
  | xQueueSendToFrontFromISR _ _ (Some _)
  | xQueueOverwriteFromISR _ _ (Some _)
  | xTaskNotifyIndexedFromISR _ _ _ _ (Some _)
  | xTimerStartFromISR _ (Some _) | xTimerStopFromISR _ (Some _)
  | xTimerChangePeriodFromISR _ _ (Some _) | xTimerResetFromISR _ (Some _) =>
      Some (fun x => snd x)
  | xQueueReceiveFromISR _ _ (Some _) => Some (fun x => snd x)
  | vTaskNotifyGiveIndexedFromISR _ _ (Some _) => Some (fun x => snd x)
  | xTaskNotifyAndQueryIndexedFromISR _ _ _ _ (Some _) => Some (fun x => snd x)
  | xStreamBufferSendFromISR _ _ _ (Some _)
  | xMessageBufferSendFromISR _ _ _ (Some _) => Some (fun x => snd x)
  | xStreamBufferReceiveFromISR _ _ _ (Some _)
  | xMessageBufferReceiveFromISR _ _ _ (Some _) => Some (fun x => snd x)
  | _ => None
  end.

(** [given_taskWoken c] is what the cell behind [pxHigherPriorityTaskWoken]
    holds when the call is made, for the calls that are given the address
    of one. *)
Definition given_taskWoken {X : Type} (c : KCall X) : option BaseType_t :=
  match c with
  | xSemaphoreTakeFromISR _ w | xSemaphoreGiveFromISR _ w
  | xEventGroupSetBitsFromISR _ _ w
  | xQueueSendToBackFromISR _ _ w | xQueueSendToFrontFromISR _ _ w
  | xQueueReceiveFromISR _ _ w | xQueueOverwriteFromISR _ _ w
  | vTaskNotifyGiveIndexedFromISR _ _ w
  | xTaskNotifyAndQueryIndexedFromISR _ _ _ _ w
  | xTaskNotifyIndexedFromISR _ _ _ _ w
  | xTimerStartFromISR _ w | xTimerStopFromISR _ w
  | xTimerChangePeriodFromISR _ _ w | xTimerResetFromISR _ w
  | xStreamBufferSendFromISR _ _ _ w | xStreamBufferReceiveFromISR _ _ _ w
  | xMessageBufferSendFromISR _ _ _ w
  | xMessageBufferReceiveFromISR _ _ _ w => w
  | _ => None
  end.

(** [returns_iff code p]: [p] is one call of a status-reporting kernel
    function followed by [return (status == code)]. *)
Definition returns_iff (code : BaseType_t) (p : Prog bool) : Prop :=
  match p with
  | Ret _ => False
  | Call c k =>
      match status c with
      | None => False
      | Some st => forall x, k x = Ret (st x =? code)
      end
  end.

(** What the kernel function called first in a run returned, when it is a
    status-reporting one. *)
Definition returned {S A : Type} (K : Kernel S) (p : Prog A) (s : S)
  : option BaseType_t :=
  match p with
  | Ret _ => None
  | Call c _ =>
      match status c with
      | Some st => Some (st (fst (K _ c s)))
      | None => None
      end
  end.

(** [true_iff_status code p]: in every run, [p] returns [true] when the
    kernel function returned [code] and [false] when it returned anything
    else. *)
Definition true_iff_status (code : BaseType_t) (p : Prog bool) : Prop :=
  forall (S : Type) (K : Kernel S) (s : S),
    exists r, returned K p s = Some r /\ (result K p s = true <-> r = code).

(** [sets_flag flag p]: [p] is one kernel call that was given the address
    of a [taskWoken] cell, and ends with the referenced [bool] [true] when
    the kernel left [pdTRUE] in the cell and with [flag], its content on
    entry, otherwise. *)
Definition sets_flag {cfg : FreeRTOSConfig} {R : Type} (flag : bool)
    (p : Prog (R * bool)) : Prop :=
  match p with
  | Ret _ => False
  | Call c k =>
      match woken c with
      | None => False
      | Some w =>
          forall x, exists r,
            k x = Ret (r, if w x =? pdTRUE then true else flag)
      end
  end.

(** [starts_at_pdFALSE p]: the call [p] makes is given the address of a
    [taskWoken] that holds [pdFALSE]. *)
Definition starts_at_pdFALSE {cfg : FreeRTOSConfig} {A : Type} (p : Prog A)
  : Prop :=
  match p with
  | Ret _ => False
  | Call c _ => given_taskWoken c = Some pdFALSE
  end.

(** What the kernel function called first in a run left in the cell behind
    [pxHigherPriorityTaskWoken]. *)
Definition left_in_taskWoken {S A : Type} (K : Kernel S) (p : Prog A) (s : S)
  : option BaseType_t :=
  match p with
  | Ret _ => None
  | Call c _ =>
      match woken c with
      | Some w => Some (w (fst (K _ c s)))
      | None => None
      end
  end.

(** [flag_follows_kernel flag p]: in every run, the referenced [bool],
    which holds [flag] on entry, holds [true] on exit when the kernel left
    [pdTRUE] in [taskWoken], and [flag] when it left anything else. *)
Definition flag_follows_kernel {cfg : FreeRTOSConfig} {R : Type} (flag : bool)
    (p : Prog (R * bool)) : Prop :=
  forall (S : Type) (K : Kernel S) (s : S),
    exists w,
      left_in_taskWoken K p s = Some w
      /\ snd (result K p s) = (if w =? pdTRUE then true else flag).

(** ** The methods that return [bool] from a kernel call *)

Record BoolMethod : Type := {
  b_class : string;
  b_name : string;
  b_self : Type;
  b_arg : Type;
  b_body : b_self -> b_arg -> Prog bool
}.

Definition bool_method {Self Arg : Type} (cls name : string)
    (f : Self -> Arg -> Prog bool) : BoolMethod :=
  {| b_class := cls; b_name := name; b_self := Self; b_arg := Arg;
     b_body := f |}.

Section BoolInterface.
Context {cfg : FreeRTOSConfig}.
Variable T : Type.

(** The methods whose source compares the kernel's return value with
    [pdTRUE]. *)
Definition pdTRUE_methods : list BoolMethod := [
  bool_method "Kernel" "resumeAll" (fun (_ _ : unit) => Kernel.resumeAll);
  bool_method "Kernel" "catchUpTicks"
    (fun (_ : unit) ticksToCatchUp => Kernel.catchUpTicks ticksToCatchUp);
  bool_method "MutexBase" "lock" MutexBase.lock;
  bool_method "MutexBase" "lockFromISR(bool&)"
    (fun self flag => pmap fst (MutexBase.lockFromISR self flag));
  bool_method "MutexBase" "lockFromISR()"
    (fun self (_ : unit) => MutexBase.lockFromISR' self);
  bool_method "MutexBase" "unlock"
    (fun self (_ : unit) => MutexBase.unlock self);
  bool_method "RecursiveMutexBase" "lock" RecursiveMutexBase.lock;
  bool_method "RecursiveMutexBase" "unlock"
    (fun self (_ : unit) => RecursiveMutexBase.unlock self);
  bool_method "SemaphoreBase" "take" SemaphoreBase.take;
  bool_method "SemaphoreBase" "takeFromISR(bool&)"
    (fun self flag => pmap fst (SemaphoreBase.takeFromISR self flag));
  bool_method "SemaphoreBase" "takeFromISR()"
    (fun self (_ : unit) => SemaphoreBase.takeFromISR' self);
  bool_method "SemaphoreBase" "give"
    (fun self (_ : unit) => SemaphoreBase.give self);
  bool_method "SemaphoreBase" "giveFromISR(bool&)"
    (fun self flag => pmap fst (SemaphoreBase.giveFromISR self flag));
  bool_method "SemaphoreBase" "giveFromISR()"
    (fun self (_ : unit) => SemaphoreBase.giveFromISR' self);
  bool_method "QueueBase" "sendToBack"
    (fun self '(item, ticksToWait) =>
       QueueBase.sendToBack (T:=T) self item ticksToWait);
  bool_method "QueueBase" "sendToFront"
    (fun self '(item, ticksToWait) =>
       QueueBase.sendToFront (T:=T) self item ticksToWait);
  bool_method "QueueBase" "isFullFromISR"
    (fun self (_ : unit) => QueueBase.isFullFromISR self);
  bool_method "QueueBase" "isEmptyFromISR"
    (fun self (_ : unit) => QueueBase.isEmptyFromISR self);
  bool_method "TaskBase" "resumeFromISR"
    (fun self (_ : unit) => TaskBase.resumeFromISR self);
  bool_method "TaskBase" "notifyStateClear" TaskBase.notifyStateClear;
  bool_method "TaskBase" "delayUntil"
    (fun self timeIncrement =>
       pmap fst (TaskBase.delayUntil self timeIncrement));
  bool_method "TimerBase" "getReloadMode"
    (fun self (_ : unit) => TimerBase.getReloadMode self);
  bool_method "StreamBufferBase" "setTriggerLevel"
    StreamBufferBase.setTriggerLevel;
  bool_method "StreamBufferBase" "isEmpty"
    (fun self (_ : unit) => StreamBufferBase.isEmpty self);
  bool_method "StreamBufferBase" "isFull"
    (fun self (_ : unit) => StreamBufferBase.isFull self);
  bool_method "MessageBufferBase" "isEmpty"
    (fun self (_ : unit) => MessageBufferBase.isEmpty self);
  bool_method "MessageBufferBase" "isFull"
    (fun self (_ : unit) => MessageBufferBase.isFull self)
].

(** The methods whose source compares it with [pdPASS]. *)
Definition pdPASS_methods : list BoolMethod := [
  bool_method "EventGroupBase" "setFromISR(bool&)"
    (fun self '(flag, bitsToSet) =>
       pmap fst (EventGroupBase.setFromISR self flag bitsToSet));
  bool_method "EventGroupBase" "setFromISR()" EventGroupBase.setFromISR';
  bool_method "EventGroupBase" "clearFromISR" EventGroupBase.clearFromISR;
  bool_method "QueueBase" "sendToBackFromISR(bool&)"
    (fun self '(flag, item) =>
       pmap fst (QueueBase.sendToBackFromISR (T:=T) self flag item));
  bool_method "QueueBase" "sendToBackFromISR()"
    (QueueBase.sendToBackFromISR' (T:=T));
  bool_method "QueueBase" "sendToFrontFromISR(bool&)"
    (fun self '(flag, item) =>
       pmap fst (QueueBase.sendToFrontFromISR (T:=T) self flag item));
  bool_method "QueueBase" "sendToFrontFromISR()"
    (QueueBase.sendToFrontFromISR' (T:=T));
  bool_method "TaskBase" "abortDelay"
    (fun self (_ : unit) => TaskBase.abortDelay self);
  bool_method "TaskBase" "notify"
    (fun self '(action, value, index) =>
       TaskBase.notify self action value index);
  bool_method "TaskBase" "notifyFromISR(bool&)"
    (fun self '(flag, action, value, index) =>
       pmap fst (TaskBase.notifyFromISR self flag action value index));
  bool_method "TaskBase" "notifyFromISR()"
    (fun self '(action, value, index) =>
       TaskBase.notifyFromISR' self action value index);
  bool_method "TimerBase" "start" TimerBase.start;
  bool_method "TimerBase" "startFromISR(bool&)"
    (fun self flag => pmap fst (TimerBase.startFromISR self flag));
  bool_method "TimerBase" "startFromISR()"
    (fun self (_ : unit) => TimerBase.startFromISR' self);
  bool_method "TimerBase" "stop" TimerBase.stop;
  bool_method "TimerBase" "stopFromISR(bool&)"
    (fun self flag => pmap fst (TimerBase.stopFromISR self flag));
  bool_method "TimerBase" "stopFromISR()"
    (fun self (_ : unit) => TimerBase.stopFromISR' self);
  bool_method "TimerBase" "changePeriod"
    (fun self '(newPeriod, blockTime) =>
       TimerBase.changePeriod self newPeriod blockTime);
  bool_method "TimerBase" "changePeriodFromISR(bool&)"
    (fun self '(flag, newPeriod) =>
       pmap fst (TimerBase.changePeriodFromISR self flag newPeriod));
  bool_method "TimerBase" "changePeriodFromISR()"
    TimerBase.changePeriodFromISR';
  bool_method "TimerBase" "deleteTimer"
    (fun self blockTime => pmap fst (TimerBase.deleteTimer self blockTime));
  bool_method "TimerBase" "reset" TimerBase.reset;
  bool_method "TimerBase" "resetFromISR(bool&)"
    (fun self flag => pmap fst (TimerBase.resetFromISR self flag));
  bool_method "TimerBase" "resetFromISR()"
    (fun self (_ : unit) => TimerBase.resetFromISR' self);
  bool_method "StreamBufferBase" "reset"
    (fun self (_ : unit) => StreamBufferBase.reset self);
  bool_method "MessageBufferBase" "reset"
    (fun self (_ : unit) => MessageBufferBase.reset self)
].

(** [TimerBase::isActive], whose source compares with [pdFALSE]. *)
Definition isActive_method : BoolMethod :=
  bool_method "TimerBase" "isActive"
    (fun self (_ : unit) => TimerBase.isActive self).

Definition bool_methods : list BoolMethod :=
  pdTRUE_methods ++ pdPASS_methods ++ [isActive_method].
End BoolInterface.

(** ** The FromISR methods with a [bool& higherPriorityTaskWoken] *)

Record IsrMethod : Type := {
  i_class : string;
  i_name : string;
  i_self : Type;
  i_arg : Type;
  i_ret : Type;
  i_body : i_self -> bool -> i_arg -> Prog (i_ret * bool)
}.

Definition isr_method {Self Arg R : Type} (cls name : string)
    (f : Self -> bool -> Arg -> Prog (R * bool)) : IsrMethod :=
  {| i_class := cls; i_name := name; i_self := Self; i_arg := Arg;
     i_ret := R; i_body := f |}.

Section IsrInterface.
Context {cfg : FreeRTOSConfig}.
Variable T : Type.
Variable default_T : T.

Definition isr_methods : list IsrMethod := [
  isr_method "MutexBase" "lockFromISR"
    (fun self flag (_ : unit) => MutexBase.lockFromISR self flag);
  isr_method "SemaphoreBase" "takeFromISR"
    (fun self flag (_ : unit) => SemaphoreBase.takeFromISR self flag);
  isr_method "SemaphoreBase" "giveFromISR"
    (fun self flag (_ : unit) => SemaphoreBase.giveFromISR self flag);
  isr_method "EventGroupBase" "setFromISR" EventGroupBase.setFromISR;
  isr_method "QueueBase" "sendToBackFromISR"
    (QueueBase.sendToBackFromISR (T:=T));
  isr_method "QueueBase" "sendToFrontFromISR"
    (QueueBase.sendToFrontFromISR (T:=T));
  isr_method "QueueBase" "receiveFromISR"
    (fun self flag (_ : unit) => QueueBase.receiveFromISR default_T self flag);
  isr_method "QueueBase" "overwriteFromISR"
    (QueueBase.overwriteFromISR (T:=T));
  isr_method "TaskBase" "notifyGiveFromISR" TaskBase.notifyGiveFromISR;
  isr_method "TaskBase" "notifyAndQueryFromISR"
    (fun self flag '(action, value, index) =>
       TaskBase.notifyAndQueryFromISR self flag action value index);
  isr_method "TaskBase" "notifyFromISR"
    (fun self flag '(action, value, index) =>
       TaskBase.notifyFromISR self flag action value index);
  isr_method "TimerBase" "startFromISR"
    (fun self flag (_ : unit) => TimerBase.startFromISR self flag);
  isr_method "TimerBase" "stopFromISR"
    (fun self flag (_ : unit) => TimerBase.stopFromISR self flag);
  isr_method "TimerBase" "changePeriodFromISR" TimerBase.changePeriodFromISR;
  isr_method "TimerBase" "resetFromISR"
    (fun self flag (_ : unit) => TimerBase.resetFromISR self flag);
  isr_method "StreamBufferBase" "sendFromISR"
    (fun self flag '(data, length) =>
       StreamBufferBase.sendFromISR self flag data length);
  isr_method "StreamBufferBase" "receiveFromISR"
    (fun self flag '(buffer, bufferLength) =>
       StreamBufferBase.receiveFromISR self flag buffer bufferLength);
  isr_method "MessageBufferBase" "sendFromISR"
    (fun self flag '(data, length) =>
       MessageBufferBase.sendFromISR self flag data length);
  isr_method "MessageBufferBase" "receiveFromISR"
    (fun self flag '(buffer, bufferLength) =>
       MessageBufferBase.receiveFromISR self flag buffer bufferLength)
].
End IsrInterface.

(** One call of such a method in an interrupt handler, and a handler that
    makes several of them on one [bool] variable. *)
Record IsrCall : Type := {
  ic_method : IsrMethod;
  ic_self : i_self ic_method;
  ic_arg : i_arg ic_method
}.

Definition isr_call (c : IsrCall) (flag : bool) : Prog bool :=
  pmap snd (i_body (ic_method c) (ic_self c) flag (ic_arg c)).

Fixpoint isr_sequence (cs : list IsrCall) (flag : bool) : Prog bool :=
  match cs with
  | [] => Ret flag
  | c :: cs' => flag' <- isr_call c flag ;; isr_sequence cs' flag'
  end.

(** ** The wrapper classes with their constructors and destructors

    [w_create] is the kernel create function of the object type with the
    arguments the constructor gives it, [w_created] the handle in its
    answer, and [w_delete] the kernel delete function of the object type
    applied to the stored handle.  [w_constructor] is the constructor the
    class defines; the defaulted move constructor and move assignment, the
    same for every class, are [move_constructor] and [move_assignment] at
    the type [w_obj]. *)
Record WrapperClass : Type := {
  w_name : string;
  w_obj : Type;
  w_handle : w_obj -> Handle;
  w_isValid : option (w_obj -> bool);
  w_args : Type;
  w_constructor : w_args -> Prog w_obj;
  w_destructor : w_obj -> Prog unit;
  w_answer : Type;
  w_create : w_args -> KCall w_answer;
  w_created : w_answer -> Handle;
  w_delete : w_obj -> AnyCall
}.

Section Classes.
Context {cfg : FreeRTOSConfig}.

Definition Mutex_family {Args : Type} (name : string)
    (ctor : Args -> Prog MutexBase.t) (create : Args -> KCall Handle)
  : WrapperClass :=
  {| w_name := name; w_obj := MutexBase.t; w_handle := MutexBase.handle;
     w_isValid := Some MutexBase.isValid;
     w_args := Args; w_constructor := ctor;
     w_destructor := MutexBase.destructor;
     w_answer := Handle; w_create := create; w_created := fun h => h;
     w_delete := fun self => anycall (vSemaphoreDelete (MutexBase.handle self))
  |}.

Definition Semaphore_family {Args : Type} (name : string)
    (ctor : Args -> Prog SemaphoreBase.t) (create : Args -> KCall Handle)
  : WrapperClass :=
  {| w_name := name; w_obj := SemaphoreBase.t;
     w_handle := SemaphoreBase.handle;
     w_isValid := Some SemaphoreBase.isValid;
     w_args := Args; w_constructor := ctor;
     w_destructor := SemaphoreBase.destructor;
     w_answer := Handle; w_create := create; w_created := fun h => h;
     w_delete :=
       fun self => anycall (vSemaphoreDelete (SemaphoreBase.handle self)) |}.

Definition EventGroup_family {Args : Type} (name : string)
    (ctor : Args -> Prog EventGroupBase.t) (create : Args -> KCall Handle)
  : WrapperClass :=
  {| w_name := name; w_obj := EventGroupBase.t;
     w_handle := EventGroupBase.handle;
     w_isValid := Some EventGroupBase.isValid;
     w_args := Args; w_constructor := ctor;
     w_destructor := EventGroupBase.destructor;
     w_answer := Handle; w_create := create; w_created := fun h => h;
     w_delete :=
       fun self => anycall (vEventGroupDelete (EventGroupBase.handle self))
  |}.

Definition Queue_family {Args : Type} (name : string)
    (ctor : Args -> Prog QueueBase.t) (create : Args -> KCall Handle)
  : WrapperClass :=
  {| w_name := name; w_obj := QueueBase.t; w_handle := QueueBase.handle;
     w_isValid := Some QueueBase.isValid;
     w_args := Args; w_constructor := ctor;
     w_destructor := QueueBase.destructor;
     w_answer := Handle; w_create := create; w_created := fun h => h;
     w_delete := fun self => anycall (vQueueDelete (QueueBase.handle self))
  |}.

Definition StreamBuffer_family {Args : Type} (name : string)
    (ctor : Args -> Prog StreamBufferBase.t) (create : Args -> KCall Handle)
  : WrapperClass :=
  {| w_name := name; w_obj := StreamBufferBase.t;
     w_handle := StreamBufferBase.handle;
     w_isValid := Some StreamBufferBase.isValid;
     w_args := Args; w_constructor := ctor;
     w_destructor := StreamBufferBase.destructor;
     w_answer := Handle; w_create := create; w_created := fun h => h;
     w_delete :=
       fun self =>
         anycall (vStreamBufferDelete (StreamBufferBase.handle self)) |}.

Definition MessageBuffer_family {Args : Type} (name : string)
    (ctor : Args -> Prog MessageBufferBase.t) (create : Args -> KCall Handle)
  : WrapperClass :=
  {| w_name := name; w_obj := MessageBufferBase.t;
     w_handle := MessageBufferBase.handle;
     w_isValid := Some MessageBufferBase.isValid;
     w_args := Args; w_constructor := ctor;
     w_destructor := MessageBufferBase.destructor;
     w_answer := Handle; w_create := create; w_created := fun h => h;
     w_delete :=
       fun self =>
         anycall (vMessageBufferDelete (MessageBufferBase.handle self)) |}.

Definition Timer_family {Args : Type} (name : string)
    (ctor : Args -> Prog TimerBase.t) (create : Args -> KCall Handle)
  : WrapperClass :=
  {| w_name := name; w_obj := TimerBase.t; w_handle := TimerBase.handle;
     w_isValid := Some TimerBase.isValid;
     w_args := Args; w_constructor := ctor;
     w_destructor := TimerBase.destructor;
     w_answer := Handle; w_create := create; w_created := fun h => h;
     w_delete :=
       fun self =>
         anycall (xTimerDelete (TimerBase.handle self)
                    (TimerBase.deleteBlockTime self)) |}.

(** The classes whose destructor is the one kernel delete call. *)
Definition plain_classes : list WrapperClass := [
  Mutex_family "Mutex" (fun _ : unit => Mutex.constructor)
    (fun _ => xSemaphoreCreateMutex);
  Mutex_family "RecursiveMutex" (fun _ : unit => RecursiveMutex.constructor)
    (fun _ => xSemaphoreCreateRecursiveMutex);
  Mutex_family "StaticMutex" StaticMutex.constructor
    (fun this => xSemaphoreCreateMutexStatic (member this staticMutex));
  Mutex_family "StaticRecursiveMutex" StaticRecursiveMutex.constructor
    (fun this =>
       xSemaphoreCreateRecursiveMutexStatic
         (member this staticRecursiveMutex));
  Semaphore_family "BinarySemaphore"
    (fun _ : unit => BinarySemaphore.constructor)
    (fun _ => xSemaphoreCreateBinary);
  Semaphore_family "CountingSemaphore"
    (fun '(maxCount, initialCount) =>
       CountingSemaphore.constructor maxCount initialCount)
    (fun '(maxCount, initialCount) =>
       xSemaphoreCreateCounting maxCount initialCount);
  Semaphore_family "StaticBinarySemaphore" StaticBinarySemaphore.constructor
    (fun this =>
       xSemaphoreCreateBinaryStatic (member this staticBinarySemaphore));
  Semaphore_family "StaticCountingSemaphore"
    (fun '(this, maxCount, initialCount) =>
       StaticCountingSemaphore.constructor this maxCount initialCount)
    (fun '(this, maxCount, initialCount) =>
       xSemaphoreCreateCountingStatic maxCount initialCount
         (member this staticCountingSemaphore));
  EventGroup_family "EventGroup" (fun _ : unit => EventGroup.constructor)
    (fun _ => xEventGroupCreate);
  EventGroup_family "StaticEventGroup" StaticEventGroup.constructor
    (fun this => xEventGroupCreateStatic (member this staticEventGroup));
  Queue_family "Queue"
    (fun '(sizeof_T, length) => Queue.constructor sizeof_T length)
    (fun '(sizeof_T, length) => xQueueCreate length sizeof_T);
  Queue_family "StaticQueue"
    (fun '(sizeof_T, N, this) => StaticQueue.constructor sizeof_T N this)
    (fun '(sizeof_T, N, this) =>
       xQueueCreateStatic N sizeof_T (member this storage)
         (member this staticQueue));
  StreamBuffer_family "StreamBuffer"
    (fun '(size, triggerLevel) => StreamBuffer.constructor size triggerLevel)
    (fun '(size, triggerLevel) => xStreamBufferCreate size triggerLevel);
  StreamBuffer_family "StaticStreamBuffer"
    (fun '(N, this, triggerLevel) =>
       StaticStreamBuffer.constructor N this triggerLevel)
    (fun '(N, this, triggerLevel) =>
       xStreamBufferCreateStatic N triggerLevel (member this storage)
         (member this staticStreamBuffer));
  MessageBuffer_family "MessageBuffer" MessageBuffer.constructor
    xMessageBufferCreate;
  MessageBuffer_family "StaticMessageBuffer"
    (fun '(N, this) => StaticMessageBuffer.constructor N this)
    (fun '(N, this) =>
       xMessageBufferCreateStatic N (member this storage)
         (member this staticMessageBuffer))
].

Definition timer_classes : list WrapperClass := [
  Timer_family "Timer"
    (fun '(this, period, autoReload, name, deleteBlockTime) =>
       Timer.constructor this period autoReload name deleteBlockTime)
    (fun '(this, period, autoReload, name, deleteBlockTime) =>
       xTimerCreate name period (if autoReload : bool then pdTRUE else pdFALSE)
         this fn_callTimerFunction);
  Timer_family "StaticTimer"
    (fun '(this, period, autoReload, name, deleteBlockTime) =>
       StaticTimer.constructor this period autoReload name deleteBlockTime)
    (fun '(this, period, autoReload, name, deleteBlockTime) =>
       xTimerCreateStatic name period
         (if autoReload : bool then pdTRUE else pdFALSE) this
         fn_callTimerFunction (member this staticTimer))
].

Definition Task_class : WrapperClass :=
  {| w_name := "Task"; w_obj := Task.t;
     w_handle := fun self => TaskBase.handle (Task.base self);
     w_isValid := Some Task.isValid;
     w_args := ObjAddr * UBaseType_t * configSTACK_DEPTH_TYPE * string;
     w_constructor :=
       fun '(this, priority, stackDepth, name) =>
         Task.constructor this priority stackDepth name;
     w_destructor := Task.destructor;
     w_answer := BaseType_t * TaskHandle_t;
     w_create :=
       fun '(this, priority, stackDepth, name) =>
         xTaskCreate fn_callTaskFunction name stackDepth this priority
           (Some NULL);
     w_created := fun x => snd x;
     w_delete :=
       fun self => anycall (vTaskDelete (TaskBase.handle (Task.base self)))
  |}.

Definition StaticTask_class : WrapperClass :=
  {| w_name := "StaticTask"; w_obj := TaskBase.t;
     w_handle := TaskBase.handle;
     w_isValid := None;
     w_args := UBaseType_t * ObjAddr * UBaseType_t * string;
     w_constructor :=
       fun '(N, this, priority, name) =>
         StaticTask.constructor N this priority name;
     w_destructor := StaticTask.destructor;
     w_answer := TaskHandle_t;
     w_create :=
       fun '(N, this, priority, name) =>
         xTaskCreateStatic fn_callTaskFunction name N this priority
           (member this stack) (member this taskBuffer);
     w_created := fun h => h;
     w_delete := fun self => anycall (vTaskDelete (TaskBase.handle self)) |}.

Definition task_classes : list WrapperClass :=
  [Task_class; StaticTask_class].

Definition wrapper_classes : list WrapperClass :=
  plain_classes ++ timer_classes ++ task_classes.

(** The wrappers other than the tasks'. *)
Definition non_task_classes : list WrapperClass :=
  plain_classes ++ timer_classes.

(** The constructor makes the one call [w_create] and stores the handle
    of the answer. *)
Definition constructs (w : WrapperClass) : Prop :=
  forall (args : w_args w) (S : Type) (K : Kernel S) (s : S),
    calls K (w_constructor w args) s = [anycall (w_create w args)]
    /\ w_handle w (result K (w_constructor w args) s)
       = w_created w (fst (K _ (w_create w args) s)).

(** The destructor makes the one call [w_delete], whatever the handle. *)
Definition deletes (w : WrapperClass) : Prop :=
  forall (self : w_obj w) (S : Type) (K : Kernel S) (s : S),
    calls K (w_destructor w self) s = [w_delete w self].

(** The destructor makes the call [w_delete] when [guard] holds of the
    object and no call otherwise. *)
Definition deletes_if (guard : Handle -> bool) (w : WrapperClass) : Prop :=
  forall (self : w_obj w) (S : Type) (K : Kernel S) (s : S),
    calls K (w_destructor w self) s
    = if guard (w_handle w self) then [w_delete w self] else [].
End Classes.

(** ** The declarations of the statically-allocated variants *)

(** The types of the storage members. *)
Inductive CType : Type :=
| StaticSemaphore_t | StaticEventGroup_t | StaticQueue_t
| StaticTask_t | StackType_t | StaticTimer_t
| StaticStreamBuffer_t | StaticMessageBuffer_t
| uint8_t.

(** A data member [md_type md_field;] or, with [md_length := Some n],
    [md_type md_field[n];]. *)
Record MemberDecl : Type := {
  md_field : Field;
  md_type : CType;
  md_length : option Z
}.

(** A parameter of a [template <...>] header. *)
Inductive TemplateParam : Type :=
| class_param (name : string)
| value_param (type name : string).

(** The template arguments of an instance: [sizeof(T)] for a type argument
    [T] and the value of [N]. *)
Record TemplateArgs : Type := {
  sizeof_T : size_t;
  N : Z
}.

Record StaticClass : Type := {
  s_name : string;
  s_template : list TemplateParam;
  s_members : TemplateArgs -> list MemberDecl;
  s_obj : Type;
  s_args : Type;
  s_constructor : TemplateArgs -> ObjAddr -> s_args -> Prog s_obj
}.

Section StaticClasses.
Context {cfg : FreeRTOSConfig}.

Definition StaticMutex_decl : StaticClass :=
  {| s_name := "StaticMutex"; s_template := [];
     s_members := fun _ =>
       [{| md_field := staticMutex; md_type := StaticSemaphore_t;
           md_length := None |}];
     s_obj := MutexBase.t; s_args := unit;
     s_constructor := fun _ this _ => StaticMutex.constructor this |}.

Definition StaticRecursiveMutex_decl : StaticClass :=
  {| s_name := "StaticRecursiveMutex"; s_template := [];
     s_members := fun _ =>
       [{| md_field := staticRecursiveMutex; md_type := StaticSemaphore_t;
           md_length := None |}];
     s_obj := MutexBase.t; s_args := unit;
     s_constructor := fun _ this _ => StaticRecursiveMutex.constructor this
  |}.

Definition StaticBinarySemaphore_decl : StaticClass :=
  {| s_name := "StaticBinarySemaphore"; s_template := [];
     s_members := fun _ =>
       [{| md_field := staticBinarySemaphore; md_type := StaticSemaphore_t;
           md_length := None |}];
     s_obj := SemaphoreBase.t; s_args := unit;
     s_constructor := fun _ this _ => StaticBinarySemaphore.constructor this
  |}.

Definition StaticCountingSemaphore_decl : StaticClass :=
  {| s_name := "StaticCountingSemaphore"; s_template := [];
     s_members := fun _ =>
       [{| md_field := staticCountingSemaphore; md_type := StaticSemaphore_t;
           md_length := None |}];
     s_obj := SemaphoreBase.t; s_args := UBaseType_t * UBaseType_t;
     s_constructor := fun _ this '(maxCount, initialCount) =>
       StaticCountingSemaphore.constructor this maxCount initialCount |}.

Definition StaticEventGroup_decl : StaticClass :=
  {| s_name := "StaticEventGroup"; s_template := [];
     s_members := fun _ =>
       [{| md_field := staticEventGroup; md_type := StaticEventGroup_t;
           md_length := None |}];
     s_obj := EventGroupBase.t; s_args := unit;
     s_constructor := fun _ this _ => StaticEventGroup.constructor this |}.

Definition StaticTimer_decl : StaticClass :=
  {| s_name := "StaticTimer"; s_template := [];
     s_members := fun _ =>
       [{| md_field := staticTimer; md_type := StaticTimer_t;
           md_length := None |}];
     s_obj := TimerBase.t;
     s_args := TickType_t * bool * string * TickType_t;
     s_constructor := fun _ this '(period, autoReload, name, deleteBlockTime) =>
       StaticTimer.constructor this period autoReload name deleteBlockTime |}.

(** [template <class T, UBaseType_t N>], [StaticQueue_t staticQueue;],
    [uint8_t storage[N * sizeof(T)];] *)
Definition StaticQueue_decl : StaticClass :=
  {| s_name := "StaticQueue";
     s_template := [class_param "T"; value_param "UBaseType_t" "N"];
     s_members := fun a =>
       [{| md_field := staticQueue; md_type := StaticQueue_t;
           md_length := None |};
        {| md_field := storage; md_type := uint8_t;
           md_length := Some (N a * sizeof_T a) |}];
     s_obj := QueueBase.t; s_args := unit;
     s_constructor := fun a this _ =>
       StaticQueue.constructor (sizeof_T a) (N a) this |}.

(** [template <UBaseType_t N>], [StaticTask_t taskBuffer;],
    [StackType_t stack[N];] *)
Definition StaticTask_decl : StaticClass :=
  {| s_name := "StaticTask";
     s_template := [value_param "UBaseType_t" "N"];
     s_members := fun a =>
       [{| md_field := taskBuffer; md_type := StaticTask_t;
           md_length := None |};
        {| md_field := stack; md_type := StackType_t;
           md_length := Some (N a) |}];
     s_obj := TaskBase.t; s_args := UBaseType_t * string;
     s_constructor := fun a this '(priority, name) =>
       StaticTask.constructor (N a) this priority name |}.

(** [template <size_t N>], [StaticStreamBuffer_t staticStreamBuffer;],
    [uint8_t storage[N];] *)
Definition StaticStreamBuffer_decl : StaticClass :=
  {| s_name := "StaticStreamBuffer";
     s_template := [value_param "size_t" "N"];
     s_members := fun a =>
       [{| md_field := staticStreamBuffer; md_type := StaticStreamBuffer_t;
           md_length := None |};
        {| md_field := storage; md_type := uint8_t;
           md_length := Some (N a) |}];
     s_obj := StreamBufferBase.t; s_args := size_t;
     s_constructor := fun a this triggerLevel =>
       StaticStreamBuffer.constructor (N a) this triggerLevel |}.

(** [template <size_t N>], [StaticMessageBuffer_t staticMessageBuffer;],
    [uint8_t storage[N] = {0};] *)
Definition StaticMessageBuffer_decl : StaticClass :=
  {| s_name := "StaticMessageBuffer";
     s_template := [value_param "size_t" "N"];
     s_members := fun a =>
       [{| md_field := staticMessageBuffer; md_type := StaticMessageBuffer_t;
           md_length := None |};
        {| md_field := storage; md_type := uint8_t;
           md_length := Some (N a) |}];
     s_obj := MessageBufferBase.t; s_args := unit;
     s_constructor := fun a this _ =>
       StaticMessageBuffer.constructor (N a) this |}.

(** The variants declared with a [template] header, and those declared
    as plain classes. *)
Definition template_static_classes : list StaticClass :=
  [StaticTask_decl; StaticQueue_decl; StaticStreamBuffer_decl;
   StaticMessageBuffer_decl].

Definition plain_static_classes : list StaticClass :=
  [StaticTimer_decl; StaticMutex_decl; StaticRecursiveMutex_decl;
   StaticEventGroup_decl; StaticBinarySemaphore_decl;
   StaticCountingSemaphore_decl].

Definition static_classes : list StaticClass :=
  template_static_classes ++ plain_static_classes.
End StaticClasses.

(** The lengths of the array members of an instance. *)
Definition array_lengths (c : StaticClass) (a : TemplateArgs) : list Z :=
  flat_map (fun d => match md_length d with Some n => [n] | None => [] end)
    (s_members c a).

(** The buffers a kernel create call is given, in argument order. *)
Definition buffers {X : Type} (c : KCall X) : list BufPtr :=
  match c with
  | xSemaphoreCreateMutexStatic b | xSemaphoreCreateRecursiveMutexStatic b
  | xSemaphoreCreateBinaryStatic b | xSemaphoreCreateCountingStatic _ _ b
  | xEventGroupCreateStatic b => [b]
  | xTimerCreateStatic _ _ _ _ _ b => [b]
  | xQueueCreateStatic _ _ b1 b2 => [b1; b2]
  | xTaskCreateStatic _ _ _ _ _ b1 b2 => [b1; b2]
  | xStreamBufferCreateStatic _ _ b1 b2 => [b1; b2]
  | xMessageBufferCreateStatic _ b1 b2 => [b1; b2]
  | _ => []
  end.

(** The kernel create functions that take the object's storage from the
    kernel heap ([configSUPPORT_DYNAMIC_ALLOCATION]). *)
Definition heap_create {X : Type} (c : KCall X) : bool :=
  match c with
  | xSemaphoreCreateMutex | xSemaphoreCreateRecursiveMutex
  | xSemaphoreCreateBinary | xSemaphoreCreateCounting _ _
  | xEventGroupCreate | xQueueCreate _ _
  | xTaskCreate _ _ _ _ _ _ | xTimerCreate _ _ _ _ _
  | xStreamBufferCreate _ _ | xMessageBufferCreate _ => true
  | _ => false
  end.

(** [static_construction fields this p]: [p] is one kernel call, not of a
    heap create function, whose buffers are exactly the members [fields] of
    the object at [this]. *)
Definition static_construction {A : Type} (fields : list Field)
    (this : ObjAddr) (p : Prog A) : Prop :=
  match p with
  | Ret _ => False
  | Call c k =>
      heap_create c = false
      /\ buffers c <> []
      /\ (forall b, In b (buffers c) <-> In b (map (member this) fields))
      /\ (forall x, ncalls 0 (k x))
  end.

(** ** Properties of a method *)

(** Exactly one kernel call, whatever the object and the arguments. *)
Definition one_kernel_call (m : Method) : Prop :=
  forall self a, ncalls 1 (m_body m self a).

Definition no_kernel_call (m : Method) : Prop :=
  forall self a, ncalls 0 (m_body m self a).

(** The calls and the result depend on the object through its handle
    only. *)
Definition reads_only_handle (m : Method) : Prop :=
  forall s1 s2 a,
    m_handle m s1 = m_handle m s2 ->
    peq (pmap fst (m_body m s1 a)) (pmap fst (m_body m s2 a)).

(** No data member is assigned. *)
Definition leaves_object (m : Method) : Prop :=
  forall self a, Post (fun out => snd out = self) (m_body m self a).

(** [handle] is not assigned. *)
Definition keeps_handle (m : Method) : Prop :=
  forall self a,
    Post (fun out => m_handle m (snd out) = m_handle m self) (m_body m self a).

(** [std::optional::has_value] *)
Definition has_value {A : Type} (o : option A) : bool :=
  match o with Some _ => true | None => false end.

(** A task function that sleeps with [delayUntil] once for every increment
    of the list. *)
Fixpoint periodic {cfg : FreeRTOSConfig} (increments : list TickType_t)
    (self : TaskBase.t) : Prog TaskBase.t :=
  match increments with
  | [] => Ret self
  | timeIncrement :: rest =>
      '(_, self') <- TaskBase.delayUntil self timeIncrement ;;
      periodic rest self'
  end.

(** ** The claims of the specification, as they are worded *)

Section Claims.
Context {cfg : FreeRTOSConfig}.
Variable T : Type.
Variable default_T : T.

(** Every public method makes exactly one kernel call and reads no data
    member but the handle. *)
Definition every_method_forwards : Prop :=
  Forall (fun m => one_kernel_call m /\ reads_only_handle m)
    (public_methods default_T).

(** Every [bool] method that wraps a kernel function returns [true]
    exactly on [pdTRUE], or exactly on [pdPASS]. *)
Definition every_bool_is_status : Prop :=
  Forall (fun m => forall self a,
              true_iff_status pdTRUE (b_body m self a)
              \/ true_iff_status pdPASS (b_body m self a))
    (bool_methods T).

(** Every class creates once in its constructor and deletes in its
    destructor. *)
Definition every_class_is_RAII : Prop :=
  Forall (fun w => constructs w /\ deletes w) wrapper_classes.

(** The handle is assigned by the constructor only. *)
Definition handle_assigned_once : Prop :=
  Forall keeps_handle
    (forwarding_methods default_T ++ [deleteTimer_method] ++ local_methods).

(** Every statically-allocated variant is a class template. *)
Definition every_static_is_template : Prop :=
  Forall (fun c => s_template c <> []) static_classes.

(** Destroying a wrapper other than a task's whose handle is [NULL]
    passes [NULL] to the kernel delete function. *)
Definition every_non_task_deletes_NULL : Prop :=
  Forall (fun w => forall self (S : Type) (K : Kernel S) s,
              w_handle w self = NULL ->
              calls K (w_destructor w self) s = [w_delete w self])
    non_task_classes.
End Claims.

(** ** The names of the kernel functions *)

(** The C identifier of the kernel function or macro a call stands for. *)
Definition fn_name {X : Type} (c : KCall X) : string :=
  match c with
  | xSemaphoreCreateMutex => "xSemaphoreCreateMutex"
  | xSemaphoreCreateRecursiveMutex => "xSemaphoreCreateRecursiveMutex"
  | xSemaphoreCreateMutexStatic _ => "xSemaphoreCreateMutexStatic"
  | xSemaphoreCreateRecursiveMutexStatic _ => "xSemaphoreCreateRecursiveMutexStatic"
  | xSemaphoreCreateBinary => "xSemaphoreCreateBinary"
  | xSemaphoreCreateCounting _ _ => "xSemaphoreCreateCounting"
  | xSemaphoreCreateBinaryStatic _ => "xSemaphoreCreateBinaryStatic"
  | xSemaphoreCreateCountingStatic _ _ _ => "xSemaphoreCreateCountingStatic"
  | vSemaphoreDelete _ => "vSemaphoreDelete"
  | xSemaphoreTake _ _ => "xSemaphoreTake"
  | xSemaphoreTakeFromISR _ _ => "xSemaphoreTakeFromISR"
  | xSemaphoreGive _ => "xSemaphoreGive"
  | xSemaphoreGiveFromISR _ _ => "xSemaphoreGiveFromISR"
  | xSemaphoreTakeRecursive _ _ => "xSemaphoreTakeRecursive"
  | xSemaphoreGiveRecursive _ => "xSemaphoreGiveRecursive"
  | uxSemaphoreGetCount _ => "uxSemaphoreGetCount"
  | xEventGroupCreate => "xEventGroupCreate"
  | xEventGroupCreateStatic _ => "xEventGroupCreateStatic"
  | vEventGroupDelete _ => "vEventGroupDelete"
  | xEventGroupWaitBits _ _ _ _ _ => "xEventGroupWaitBits"
  | xEventGroupSetBits _ _ => "xEventGroupSetBits"
  | xEventGroupSetBitsFromISR _ _ _ => "xEventGroupSetBitsFromISR"
  | xEventGroupClearBits _ _ => "xEventGroupClearBits"
  | xEventGroupClearBitsFromISR _ _ => "xEventGroupClearBitsFromISR"
  | xEventGroupGetBits _ => "xEventGroupGetBits"
  | xEventGroupGetBitsFromISR _ => "xEventGroupGetBitsFromISR"
  | xEventGroupSync _ _ _ _ => "xEventGroupSync"
  | xQueueCreate _ _ => "xQueueCreate"
  | xQueueCreateStatic _ _ _ _ => "xQueueCreateStatic"
  | vQueueDelete _ => "vQueueDelete"
  | xQueueSendToBack _ _ _ => "xQueueSendToBack"
  | xQueueSendToBackFromISR _ _ _ => "xQueueSendToBackFromISR"
  | xQueueSendToFront _ _ _ => "xQueueSendToFront"
  | xQueueSendToFrontFromISR _ _ _ => "xQueueSendToFrontFromISR"
  | xQueueReceive _ _ _ => "xQueueReceive"
  | xQueueReceiveFromISR _ _ _ => "xQueueReceiveFromISR"
  | uxQueueMessagesWaiting _ => "uxQueueMessagesWaiting"
  | uxQueueMessagesWaitingFromISR _ => "uxQueueMessagesWaitingFromISR"
  | uxQueueSpacesAvailable _ => "uxQueueSpacesAvailable"
  | xQueueReset _ => "xQueueReset"
  | xQueueOverwrite _ _ => "xQueueOverwrite"
  | xQueueOverwriteFromISR _ _ _ => "xQueueOverwriteFromISR"
  | xQueuePeek _ _ _ => "xQueuePeek"
  | xQueuePeekFromISR _ _ => "xQueuePeekFromISR"
  | vQueueAddToRegistry _ _ => "vQueueAddToRegistry"
  | vQueueUnregisterQueue _ => "vQueueUnregisterQueue"
  | pcQueueGetName _ => "pcQueueGetName"
  | xQueueIsQueueFullFromISR _ => "xQueueIsQueueFullFromISR"
  | xQueueIsQueueEmptyFromISR _ => "xQueueIsQueueEmptyFromISR"
  | xTaskCreate _ _ _ _ _ _ => "xTaskCreate"
  | xTaskCreateStatic _ _ _ _ _ _ _ => "xTaskCreateStatic"
  | vTaskDelete _ => "vTaskDelete"
  | uxTaskPriorityGet _ => "uxTaskPriorityGet"
  | vTaskPrioritySet _ _ => "vTaskPrioritySet"
  | vTaskSuspend _ => "vTaskSuspend"
  | vTaskResume _ => "vTaskResume"
  | xTaskResumeFromISR _ => "xTaskResumeFromISR"
  | xTaskAbortDelay _ => "xTaskAbortDelay"
  | xTaskGetIdleTaskHandle => "xTaskGetIdleTaskHandle"
  | uxTaskGetStackHighWaterMark _ => "uxTaskGetStackHighWaterMark"
  | uxTaskGetStackHighWaterMark2 _ => "uxTaskGetStackHighWaterMark2"
  | eTaskGetState _ => "eTaskGetState"
  | pcTaskGetName _ => "pcTaskGetName"
  | xTaskGetHandle _ => "xTaskGetHandle"
  | xTaskNotifyGiveIndexed _ _ => "xTaskNotifyGiveIndexed"
  | vTaskNotifyGiveIndexedFromISR _ _ _ => "vTaskNotifyGiveIndexedFromISR"
  | xTaskNotifyIndexed _ _ _ _ => "xTaskNotifyIndexed"
  | xTaskNotifyAndQueryIndexed _ _ _ _ => "xTaskNotifyAndQueryIndexed"
  | xTaskNotifyAndQueryIndexedFromISR _ _ _ _ _ => "xTaskNotifyAndQueryIndexedFromISR"
  | xTaskNotifyIndexedFromISR _ _ _ _ _ => "xTaskNotifyIndexedFromISR"
  | xTaskNotifyWaitIndexed _ _ _ _ => "xTaskNotifyWaitIndexed"
  | xTaskNotifyStateClearIndexed _ _ => "xTaskNotifyStateClearIndexed"
  | ulTaskNotifyValueClearIndexed _ _ _ => "ulTaskNotifyValueClearIndexed"
  | vTaskDelay _ => "vTaskDelay"
  | xTaskDelayUntil _ _ => "xTaskDelayUntil"
  | ulTaskNotifyTakeIndexed _ _ _ => "ulTaskNotifyTakeIndexed"
  | xTaskGetSchedulerState => "xTaskGetSchedulerState"
  | uxTaskGetNumberOfTasks => "uxTaskGetNumberOfTasks"
  | xTaskGetIdleRunTimeCounter => "xTaskGetIdleRunTimeCounter"
  | xTaskGetTickCount => "xTaskGetTickCount"
  | xTaskGetTickCountFromISR => "xTaskGetTickCountFromISR"
  | taskYIELD => "taskYIELD"
  | taskENTER_CRITICAL => "taskENTER_CRITICAL"
  | taskENTER_CRITICAL_FROM_ISR => "taskENTER_CRITICAL_FROM_ISR"
  | taskEXIT_CRITICAL => "taskEXIT_CRITICAL"
  | taskEXIT_CRITICAL_FROM_ISR _ => "taskEXIT_CRITICAL_FROM_ISR"
  | taskDISABLE_INTERRUPTS => "taskDISABLE_INTERRUPTS"
  | taskENABLE_INTERRUPTS => "taskENABLE_INTERRUPTS"
  | vTaskStartScheduler => "vTaskStartScheduler"
  | vTaskEndScheduler => "vTaskEndScheduler"
  | vTaskSuspendAll => "vTaskSuspendAll"
  | xTaskResumeAll => "xTaskResumeAll"
  | vTaskStepTick _ => "vTaskStepTick"
  | xTaskCatchUpTicks _ => "xTaskCatchUpTicks"
  | xTimerCreate _ _ _ _ _ => "xTimerCreate"
  | xTimerCreateStatic _ _ _ _ _ _ => "xTimerCreateStatic"
  | xTimerIsTimerActive _ => "xTimerIsTimerActive"
  | xTimerStart _ _ => "xTimerStart"
  | xTimerStartFromISR _ _ => "xTimerStartFromISR"
  | xTimerStop _ _ => "xTimerStop"
  | xTimerStopFromISR _ _ => "xTimerStopFromISR"
  | xTimerChangePeriod _ _ _ => "xTimerChangePeriod"
  | xTimerChangePeriodFromISR _ _ _ => "xTimerChangePeriodFromISR"
  | xTimerDelete _ _ => "xTimerDelete"
  | xTimerReset _ _ => "xTimerReset"
  | xTimerResetFromISR _ _ => "xTimerResetFromISR"
  | vTimerSetReloadMode _ _ => "vTimerSetReloadMode"
  | pcTimerGetName _ => "pcTimerGetName"
  | xTimerGetPeriod _ => "xTimerGetPeriod"
  | xTimerGetExpiryTime _ => "xTimerGetExpiryTime"
  | uxTimerGetReloadMode _ => "uxTimerGetReloadMode"
  | pvTimerGetTimerID _ => "pvTimerGetTimerID"
  | xStreamBufferCreate _ _ => "xStreamBufferCreate"
  | xStreamBufferCreateStatic _ _ _ _ => "xStreamBufferCreateStatic"
  | vStreamBufferDelete _ => "vStreamBufferDelete"
  | xStreamBufferSend _ _ _ _ => "xStreamBufferSend"
  | xStreamBufferSendFromISR _ _ _ _ => "xStreamBufferSendFromISR"
  | xStreamBufferReceive _ _ _ _ => "xStreamBufferReceive"
  | xStreamBufferReceiveFromISR _ _ _ _ => "xStreamBufferReceiveFromISR"
  | xStreamBufferBytesAvailable _ => "xStreamBufferBytesAvailable"
  | xStreamBufferSpacesAvailable _ => "xStreamBufferSpacesAvailable"
  | xStreamBufferSetTriggerLevel _ _ => "xStreamBufferSetTriggerLevel"
  | xStreamBufferReset _ => "xStreamBufferReset"
  | xStreamBufferIsEmpty _ => "xStreamBufferIsEmpty"
  | xStreamBufferIsFull _ => "xStreamBufferIsFull"
  | xMessageBufferCreate _ => "xMessageBufferCreate"
  | xMessageBufferCreateStatic _ _ _ => "xMessageBufferCreateStatic"
  | vMessageBufferDelete _ => "vMessageBufferDelete"
  | xMessageBufferSend _ _ _ _ => "xMessageBufferSend"
  | xMessageBufferSendFromISR _ _ _ _ => "xMessageBufferSendFromISR"
  | xMessageBufferReceive _ _ _ _ => "xMessageBufferReceive"
  | xMessageBufferReceiveFromISR _ _ _ _ => "xMessageBufferReceiveFromISR"
  | xMessageBufferSpacesAvailable _ => "xMessageBufferSpacesAvailable"
  | xMessageBufferReset _ => "xMessageBufferReset"
  | xMessageBufferIsEmpty _ => "xMessageBufferIsEmpty"
  | xMessageBufferIsFull _ => "xMessageBufferIsFull"
  end.

Definition name_of (ac : AnyCall) : string :=
  match ac with anycall c => fn_name c end.

(** [contains needle hay]: [needle] occurs in [hay]. *)
Fixpoint contains (needle hay : string) : bool :=
  String.prefix needle hay
  || match hay with
     | EmptyString => false
     | String _ hay' => contains needle hay'
     end.

(** The naming convention of the interrupt-safe API, in the kernel
    ([...FromISR], [..._FROM_ISR]) and in the wrappers ([...FromISR]). *)
Definition named_FromISR (name : string) : bool :=
  contains "FromISR" name || contains "FROM_ISR" name.

(** The kernel functions that create or delete a kernel object. *)
Definition named_Create_or_Delete (name : string) : bool :=
  contains "Create" name || contains "Delete" name.

(** ** The two overloads of a FromISR method *)

(** The call [c] with [NULL] for [pxHigherPriorityTaskWoken]. *)
Definition null_woken {X : Type} (c : KCall X) : KCall X :=
  match c in KCall X return KCall X with
  | xSemaphoreTakeFromISR h _ => xSemaphoreTakeFromISR h None
  | xSemaphoreGiveFromISR h _ => xSemaphoreGiveFromISR h None
  | xEventGroupSetBitsFromISR h b _ => xEventGroupSetBitsFromISR h b None
  | xQueueSendToBackFromISR h i _ => xQueueSendToBackFromISR h i None
  | xQueueSendToFrontFromISR h i _ => xQueueSendToFrontFromISR h i None
  | xQueueReceiveFromISR h b _ => xQueueReceiveFromISR h b None
  | xQueueOverwriteFromISR h i _ => xQueueOverwriteFromISR h i None
  | vTaskNotifyGiveIndexedFromISR h i _ =>
      vTaskNotifyGiveIndexedFromISR h i None
  | xTaskNotifyAndQueryIndexedFromISR h i v a _ =>
      xTaskNotifyAndQueryIndexedFromISR h i v a None
  | xTaskNotifyIndexedFromISR h i v a _ =>
      xTaskNotifyIndexedFromISR h i v a None
  | xTimerStartFromISR h _ => xTimerStartFromISR h None
  | xTimerStopFromISR h _ => xTimerStopFromISR h None
  | xTimerChangePeriodFromISR h p _ => xTimerChangePeriodFromISR h p None
  | xTimerResetFromISR h _ => xTimerResetFromISR h None
  | xStreamBufferSendFromISR h d l _ => xStreamBufferSendFromISR h d l None
  | xStreamBufferReceiveFromISR h d l _ =>
      xStreamBufferReceiveFromISR h d l None
  | xMessageBufferSendFromISR h d l _ => xMessageBufferSendFromISR h d l None
  | xMessageBufferReceiveFromISR h d l _ =>
      xMessageBufferReceiveFromISR h d l None
  | c' => c'
  end.

(** The program [p] with [NULL] passed in its first call. *)
Definition with_NULL {A : Type} (p : Prog A) : Prog A :=
  match p with
  | Ret a => Ret a
  | Call c k => Call (null_woken c) k
  end.

(** A FromISR method as its two overloads: with the [bool&] parameter and
    without. *)
Record IsrPair : Type := {
  p_class : string;
  p_name : string;
  p_self : Type;
  p_arg : Type;
  p_ret : Type;
  p_flagged : p_self -> bool -> p_arg -> Prog (p_ret * bool);
  p_plain : p_self -> p_arg -> Prog p_ret
}.

Definition isr_pair {Self Arg R : Type} (cls name : string)
    (f : Self -> bool -> Arg -> Prog (R * bool)) (g : Self -> Arg -> Prog R)
  : IsrPair :=
  {| p_class := cls; p_name := name; p_self := Self; p_arg := Arg;
     p_ret := R; p_flagged := f; p_plain := g |}.

Section IsrPairs.
Context {cfg : FreeRTOSConfig}.
Variable T : Type.
Variable default_T : T.

Definition isr_pairs : list IsrPair := [
  isr_pair "MutexBase" "lockFromISR"
    (fun self flag (_ : unit) => MutexBase.lockFromISR self flag)
    (fun self _ => MutexBase.lockFromISR' self);
  isr_pair "SemaphoreBase" "takeFromISR"
    (fun self flag (_ : unit) => SemaphoreBase.takeFromISR self flag)
    (fun self _ => SemaphoreBase.takeFromISR' self);
  isr_pair "SemaphoreBase" "giveFromISR"
    (fun self flag (_ : unit) => SemaphoreBase.giveFromISR self flag)
    (fun self _ => SemaphoreBase.giveFromISR' self);
  isr_pair "EventGroupBase" "setFromISR" EventGroupBase.setFromISR
    EventGroupBase.setFromISR';
  isr_pair "QueueBase" "sendToBackFromISR" (QueueBase.sendToBackFromISR (T:=T))
    (QueueBase.sendToBackFromISR' (T:=T));
  isr_pair "QueueBase" "sendToFrontFromISR"
    (QueueBase.sendToFrontFromISR (T:=T))
    (QueueBase.sendToFrontFromISR' (T:=T));
  isr_pair "QueueBase" "receiveFromISR"
    (fun self flag (_ : unit) => QueueBase.receiveFromISR default_T self flag)
    (fun self _ => QueueBase.receiveFromISR' default_T self);
  isr_pair "QueueBase" "overwriteFromISR" (QueueBase.overwriteFromISR (T:=T))
    (QueueBase.overwriteFromISR' (T:=T));
  isr_pair "TaskBase" "notifyGiveFromISR" TaskBase.notifyGiveFromISR
    TaskBase.notifyGiveFromISR';
  isr_pair "TaskBase" "notifyAndQueryFromISR"
    (fun self flag '(action, value, index) =>
       TaskBase.notifyAndQueryFromISR self flag action value index)
    (fun self '(action, value, index) =>
       TaskBase.notifyAndQueryFromISR' self action value index);
  isr_pair "TaskBase" "notifyFromISR"
    (fun self flag '(action, value, index) =>
       TaskBase.notifyFromISR self flag action value index)
    (fun self '(action, value, index) =>
       TaskBase.notifyFromISR' self action value index);
  isr_pair "TimerBase" "startFromISR"
    (fun self flag (_ : unit) => TimerBase.startFromISR self flag)
    (fun self _ => TimerBase.startFromISR' self);
  isr_pair "TimerBase" "stopFromISR"
    (fun self flag (_ : unit) => TimerBase.stopFromISR self flag)
    (fun self _ => TimerBase.stopFromISR' self);
  isr_pair "TimerBase" "changePeriodFromISR" TimerBase.changePeriodFromISR
    TimerBase.changePeriodFromISR';
  isr_pair "TimerBase" "resetFromISR"
    (fun self flag (_ : unit) => TimerBase.resetFromISR self flag)
    (fun self _ => TimerBase.resetFromISR' self);
  isr_pair "StreamBufferBase" "sendFromISR"
    (fun self flag '(data, length) =>
       StreamBufferBase.sendFromISR self flag data length)
    (fun self '(data, length) =>
       StreamBufferBase.sendFromISR' self data length);
  isr_pair "StreamBufferBase" "receiveFromISR"
    (fun self flag '(buffer, bufferLength) =>
       StreamBufferBase.receiveFromISR self flag buffer bufferLength)
    (fun self '(buffer, bufferLength) =>
       StreamBufferBase.receiveFromISR' self buffer bufferLength);
  isr_pair "MessageBufferBase" "sendFromISR"
    (fun self flag '(data, length) =>
       MessageBufferBase.sendFromISR self flag data length)
    (fun self '(data, length) =>
       MessageBufferBase.sendFromISR' self data length);
  isr_pair "MessageBufferBase" "receiveFromISR"
    (fun self flag '(buffer, bufferLength) =>
       MessageBufferBase.receiveFromISR self flag buffer bufferLength)
    (fun self '(buffer, bufferLength) =>
       MessageBufferBase.receiveFromISR' self buffer bufferLength)
].
End IsrPairs.

(** ** Runs with their answers *)

(** A call with the answer the kernel gave. *)
Inductive Answered : Type :=
| answered (X : Type) (c : KCall X) (x : X).

Arguments answered {X} c x.

(** [Runs p t a]: [p] makes the calls of [t], gets the answers of [t] and
    ends in [a]. *)
Fixpoint Runs {A : Type} (p : Prog A) (t : list Answered) (a : A) : Prop :=
  match p with
  | Ret a' => t = [] /\ a = a'
  | Call c k => exists x t', t = answered c x :: t' /\ Runs (k x) t' a
  end.

(** How often a run made a call that [f] selects. *)
Definition count_calls (f : AnyCall -> bool) (t : list AnyCall) : nat :=
  List.length (filter f t).

(** The calls of a run with the answers the kernel gave. *)
Fixpoint trace {S A : Type} (K : Kernel S) (p : Prog A) (s : S)
  : list Answered :=
  match p with
  | Ret _ => []
  | Call c k =>
      let (x, s1) := K _ c s in
      answered c x :: trace K (k x) s1
  end.

Definition forget (a : Answered) : AnyCall :=
  match a with answered c _ => anycall c end.

(** The status a call reported, for the calls that report one. *)
Definition status_of (a : Answered) : option BaseType_t :=
  match a with
  | answered c x =>
      match status c with
      | Some f => Some (f x)
      | None => None
      end
  end.

(** A call that reported a status other than [code]. *)
Definition reported_other (code : BaseType_t) (a : Answered) : bool :=
  match status_of a with
  | Some r => negb (r =? code)
  | None => false
  end.

(** The calls of a run to the kernel function [name]. *)
Definition named (name : string) (ac : AnyCall) : bool :=
  String.eqb (name_of ac) name.

(** Every call a program can make satisfies [P]. *)
Fixpoint all_calls {A : Type} (P : AnyCall -> Prop) (p : Prog A) : Prop :=
  match p with
  | Ret _ => True
  | Call c k => P (anycall c) /\ forall x, all_calls P (k x)
  end.

(** The nesting of the sections opened by [enter] and closed by [exit],
    from depth [d] on: the depth at the end and the greatest depth, or
    [None] when a section is closed that is not open. *)
Fixpoint nesting (enter exit : string) (d : nat) (t : list AnyCall)
  : option (nat * nat) :=
  match t with
  | [] => Some (d, d)
  | ac :: t' =>
      if named enter ac then
        match nesting enter exit (S d) t' with
        | Some (e, m) => Some (e, Nat.max d m)
        | None => None
        end
      else if named exit ac then
        match d with
        | O => None
        | S d' =>
            match nesting enter exit d' t' with
            | Some (e, m) => Some (e, Nat.max d m)
            | None => None
            end
        end
      else nesting enter exit d t'
  end.

(** No call to [name] inside a section opened by [enter] and closed by
    [exit]. *)
Fixpoint outside (name enter exit : string) (d : nat) (t : list AnyCall)
  : bool :=
  match t with
  | [] => true
  | ac :: t' =>
      if named enter ac then outside name enter exit (S d) t'
      else if named exit ac then outside name enter exit (Nat.pred d) t'
      else (negb (named name ac) || (d =? 0)%nat)
           && outside name enter exit d t'
  end.

(** ** What the extra theorems say of a method *)

(** [low_bits w c v out p]: in every run [p] makes the one call [c], and
    the bitset [out] reads in its result has the value of the low [w] bits
    of the number [v] reads in the answer. *)
Definition low_bits (w : Z) {X R : Type} (c : KCall X) (v : X -> Z)
    (out : R -> Z) (p : Prog R) : Prop :=
  forall (S : Type) (K : Kernel S) (s : S),
    calls K p s = [anycall c]
    /\ out (result K p s) = v (fst (K _ c s)) mod 2 ^ w
    /\ 0 <= out (result K p s) < 2 ^ w.

(** The overload without the flag is the overload with it, [NULL] passed
    for the address of [taskWoken] and the flag left out of the result. *)
Definition overloads_agree (p : IsrPair) : Prop :=
  forall (self : p_self p) (flag : bool) (a : p_arg p),
    peq (p_plain p self a) (pmap fst (with_NULL (p_flagged p self flag a))).

(** What the flag holds on entry shows neither in the calls nor in the
    value returned. *)
Definition flag_is_output_only (p : IsrPair) : Prop :=
  forall (self : p_self p) (flag flag' : bool) (a : p_arg p),
    peq (pmap fst (p_flagged p self flag a))
        (pmap fst (p_flagged p self flag' a)).

(** A method calls interrupt-safe kernel functions if it is named
    [...FromISR], and none of them if it is not. *)
Definition calls_as_named (m : Method) : Prop :=
  forall (self : m_self m) (a : m_arg m),
    all_calls
      (fun ac => named_FromISR (name_of ac) = contains "FromISR" (m_name m))
      (m_body m self a).

(** A method neither creates nor deletes a kernel object. *)
Definition keeps_kernel_object (m : Method) : Prop :=
  forall (self : m_self m) (a : m_arg m),
    all_calls (fun ac => named_Create_or_Delete (name_of ac) = false)
      (m_body m self a).

(** ** The users of the wrappers: [examples/]

    A [for (;;)] loop is taken by its first [n] passes.  What the examples
    leave to the reader (["fake"] interfaces) is a parameter or an output
    that is collected. *)

(** The first [n] passes of [for (;;) { body }]. *)
Fixpoint passes (n : nat) (body : Prog unit) : Prog unit :=
  match n with
  | O => Ret tt
  | S n' => body ;; passes n' body
  end.

(** [TickType_t] is [uint16_t] when [configUSE_16_BIT_TICKS == 1] and
    [uint32_t] otherwise; [t++] wraps around. *)
Definition TickType_bits {cfg : FreeRTOSConfig} : Z :=
  if configUSE_16_BIT_TICKS =? 1 then 16 else 32.
Definition tick_incr {cfg : FreeRTOSConfig} (t : TickType_t) : TickType_t :=
  (t + 1) mod 2 ^ TickType_bits.

(** [examples/Kernel/resumeAll.cpp] *)
Module resumeAll_cpp.
Section MyTask.
Context {cfg : FreeRTOSConfig}.

Definition loop_body : Prog unit :=
  Kernel.suspendAll ;;
  resumed <- Kernel.resumeAll ;;
  if negb resumed then Kernel.yield else Ret tt.

Definition taskFunction (n : nat) : Prog unit := passes n loop_body.
End MyTask.
End resumeAll_cpp.

(** [examples/Kernel/enterExitCritical.cpp] *)
Module enterExitCritical_cpp.
Definition demoFunction : Prog unit :=
  Kernel.enterCritical ;;
  Kernel.exitCritical.

Definition loop_body : Prog unit :=
  Kernel.enterCritical ;;
  demoFunction ;;
  Kernel.exitCritical.

Definition taskFunction (n : nat) : Prog unit := passes n loop_body.
End enterExitCritical_cpp.

(** [examples/Mutex/lock.cpp] and the second example of
    [examples/Mutex/staticMutex.cpp]: [MyOtherTask::taskFunction] on the
    global [mutex].  [lock()] takes its default argument [portMAX_DELAY], a
    macro of the port. *)
Module lock_cpp.
Section MyOtherTask.
Context {cfg : FreeRTOSConfig}.
Variable portMAX_DELAY : TickType_t.
Variable mutex : MutexBase.t.

Definition taskFunction : Prog unit :=
  if MutexBase.isValid mutex then
    locked <- MutexBase.lock mutex portMAX_DELAY ;;
    if locked then
      MutexBase.unlock mutex ;;
      Ret tt
    else Ret tt
  else Ret tt.

Definition taskFunction_thrice : Prog unit :=
  if MutexBase.isValid mutex then
    locked <- MutexBase.lock mutex portMAX_DELAY ;;
    if locked then
      MutexBase.lock mutex 10 ;;
      MutexBase.lock mutex 10 ;;
      MutexBase.unlock mutex ;;
      MutexBase.unlock mutex ;;
      MutexBase.unlock mutex ;;
      Ret tt
    else Ret tt
  else Ret tt.
End MyOtherTask.
End lock_cpp.

(** [examples/Semaphore/giveFromISR.cpp] *)
Module giveFromISR_cpp.
Definition TICKS_TO_WAIT : Z := 10.

Section ISR.
Context {cfg : FreeRTOSConfig}.
Variable binarySemaphore : SemaphoreBase.t.

(** [static TickType_t ucLocalTickCount = 0;] lives across the calls: it is
    passed in and handed back. *)
Definition vTimerISR (ucLocalTickCount : TickType_t) : Prog TickType_t :=
  let higherPriorityTaskWoken := false in
  let ucLocalTickCount := tick_incr ucLocalTickCount in
  ucLocalTickCount <-
    (if ucLocalTickCount >=? TICKS_TO_WAIT then
       SemaphoreBase.giveFromISR binarySemaphore higherPriorityTaskWoken ;;
       Ret 0
     else Ret ucLocalTickCount) ;;
  Kernel.yield ;;
  Ret ucLocalTickCount.

(** [n] timer interrupts in a row. *)
Fixpoint interrupts (n : nat) (ucLocalTickCount : TickType_t)
  : Prog TickType_t :=
  match n with
  | O => Ret ucLocalTickCount
  | S n' =>
      ucLocalTickCount <- vTimerISR ucLocalTickCount ;;
      interrupts n' ucLocalTickCount
  end.
End ISR.
End giveFromISR_cpp.

(** [examples/Queue/receiveFromISR.cpp] *)
Module receiveFromISR_cpp.
Section ISR.
Context {cfg : FreeRTOSConfig}.
Variable queue : QueueBase.t.
(** What a [char buffer;] without initialiser holds. *)
Variable default_char : Ascii.ascii.

(** The [while] loop, with the characters given to [sendCharacter] so far;
    [None] when the loop is still running after [fuel] passes. *)
Fixpoint while_receive (fuel : nat) (taskWokenByReceive : bool)
    (sent : list Ascii.ascii) : Prog (option (bool * list Ascii.ascii)) :=
  match fuel with
  | O => Ret None
  | S fuel' =>
      '(character, taskWokenByReceive) <-
        QueueBase.receiveFromISR default_char queue taskWokenByReceive ;;
      match character with
      | Some c => while_receive fuel' taskWokenByReceive (sent ++ [c])
      | None => Ret (Some (taskWokenByReceive, sent))
      end
  end.

Definition ISR_Routine (fuel : nat) : Prog (option (list Ascii.ascii)) :=
  let taskWokenByReceive := false in
  r <- while_receive fuel taskWokenByReceive [] ;;
  match r with
  | Some (taskWokenByReceive, sent) =>
      (if taskWokenByReceive : bool then Kernel.yield else Ret tt) ;;
      Ret (Some sent)
  | None => Ret None
  end.

(** The one call the loop makes. *)
Definition receive_call : KCall (BaseType_t * Ascii.ascii * BaseType_t) :=
  xQueueReceiveFromISR (QueueBase.handle queue) default_char (Some pdFALSE).
End ISR.
End receiveFromISR_cpp.

(** [examples/Queue/sendToFrontFromISR.cpp] *)
Module sendToFrontFromISR_cpp.
Definition emergencyMessage : Ascii.ascii := "E"%char.

(** [char getByte() { return 'A'; }], the fake interface. *)
Definition getByte : Ascii.ascii := "A"%char.

Section ISR.
Context {cfg : FreeRTOSConfig}.
Variable rxQueue : QueueBase.t.

(** [bufferISR] with the byte [getByte()] gave. *)
Definition bufferISR_with (cIn : Ascii.ascii) : Prog unit :=
  let higherPriorityTaskWoken := false in
  '(_, higherPriorityTaskWoken) <-
    (if Ascii.eqb cIn emergencyMessage then
       QueueBase.sendToFrontFromISR rxQueue higherPriorityTaskWoken cIn
     else
       QueueBase.sendToBackFromISR rxQueue higherPriorityTaskWoken cIn) ;;
  if higherPriorityTaskWoken : bool then Kernel.yield else Ret tt.

Definition bufferISR : Prog unit := bufferISR_with getByte.
End ISR.
End sendToFrontFromISR_cpp.

(** [examples/Task/notifyWait.cpp] *)
Module notifyWait_cpp.
(** [prvProcessBit0Event()], [prvProcessBit1Event()] and
    [prvProcessBit2Event()], empty in the example: the calls are collected. *)
Inductive Event : Type :=
| Bit0Event | Bit1Event | Bit2Event.

Definition bit_of (e : Event) : Z :=
  match e with Bit0Event => 0 | Bit1Event => 1 | Bit2Event => 2 end.

Section MyTask.
Context {cfg : FreeRTOSConfig}.
Variable portMAX_DELAY : TickType_t.

(** One pass of the loop; [notifyWait()] takes its default arguments and
    [notifiedValue[i]] is [std::bitset::operator[]]. *)
Definition loop_body : Prog (list Event) :=
  r <- TaskBase.notifyWait portMAX_DELAY 0 0 0 ;;
  let notifiedValue := snd r in
  let processed := [] in
  let processed :=
    if Z.testbit notifiedValue 0 then processed ++ [Bit0Event]
    else processed in
  let processed :=
    if Z.testbit notifiedValue 1 then processed ++ [Bit1Event]
    else processed in
  let processed :=
    if Z.testbit notifiedValue 2 then processed ++ [Bit2Event]
    else processed in
  Ret processed.
End MyTask.
End notifyWait_cpp.

(** The example of [enterCriticalFromISR] and [exitCriticalFromISR]. *)
Module enterCriticalFromISR_cpp.
Definition demoFunction : Prog unit :=
  savedInterruptStatus <- Kernel.enterCriticalFromISR ;;
  Kernel.exitCriticalFromISR savedInterruptStatus.

Definition demoISR : Prog unit :=
  savedInterruptStatus <- Kernel.enterCriticalFromISR ;;
  demoFunction ;;
  Kernel.exitCriticalFromISR savedInterruptStatus.
End enterCriticalFromISR_cpp.

(** * Proofs *)

(** ** Tactics and general facts *)

Ltac prog_step :=
  match goal with
  | x : unit |- _ => destruct x
  | x : (_ * _)%type |- _ => destruct x
  | |- ncalls _ (Ret _) => constructor
  | |- ncalls _ (Call _ _) => constructor; intros
  | |- Post _ (Ret _) => constructor
  | |- Post _ (Call _ _) => constructor; intros
  | |- peq (Ret _) (Ret _) => constructor
  | |- peq (Call _ _) (Call _ _) => constructor; intros
  | |- Post _ (if ?b then _ else _) => destruct b
  | |- ncalls _ (if ?b then _ else _) => destruct b
  | |- peq (if ?b then _ else _) _ => destruct b
  end.

Ltac prog_solve := intros; repeat (cbn in *; prog_step); try reflexivity.

Ltac split_Forall :=
  repeat match goal with
         | |- Forall _ (_ ++ _) => apply Forall_app; split
         | |- Forall _ (_ :: _) => apply Forall_cons
         | |- Forall _ [] => apply Forall_nil
         end.

Ltac unfold_interface :=
  unfold public_methods, forwarding_methods, local_methods, isValid_methods,
    Kernel_functions, MutexBase_methods, SemaphoreBase_methods,
    EventGroupBase_methods, QueueBase_methods, TaskBase_methods,
    TimerBase_methods, StreamBufferBase_methods, MessageBufferBase_methods.

Ltac unfold_classes :=
  unfold wrapper_classes, non_task_classes, plain_classes, timer_classes,
    task_classes.

Ltac destruct_args :=
  repeat match goal with
         | x : unit |- _ => destruct x
         | x : (_ * _)%type |- _ => destruct x
         end.

Ltac unfold_port_types :=
  unfold SemaphoreHandle_t, QueueHandle_t, EventGroupHandle_t, TaskHandle_t,
    TimerHandle_t, StreamBufferHandle_t, MessageBufferHandle_t, BaseType_t,
    UBaseType_t, TickType_t, EventBits_t, uint32_t, size_t,
    configSTACK_DEPTH_TYPE in *.

Ltac run_call :=
  unfold calls, result; cbn; unfold_port_types;
  repeat match goal with
         | |- context [?k ?X ?c ?z] =>
             match type of c with KCall _ => destruct (k X c z) end
         end; cbn.

Ltac all_calls_solve :=
  intros; cbn in *; destruct_args; cbn;
  repeat match goal with
         | |- _ /\ _ => split
         | |- forall _, _ => intros; destruct_args; cbn
         | |- True => exact I
         | |- all_calls _ (if ?b then _ else _) => destruct b; cbn
         | |- all_calls _ (match ?x with _ => _ end) => destruct x; cbn
         | |- _ = _ => reflexivity
         end.

Ltac max_lia :=
  repeat match goal with
         | |- context [match ?m with O => _ | S _ => _ end] => destruct m
         end;
  lia.

Ltac answer_as r w s1 :=
  match goal with
  | |- context [?k ?X ?c ?z] =>
      match type of c with KCall _ => destruct (k X c z) as [[r w] s1] end
  end.

Ltac answer_all :=
  repeat (match goal with
          | |- context [?k ?X ?c ?z] =>
              match type of c with KCall _ => destruct (k X c z) end
          end; cbn; destruct_args; cbn).

Lemma peq_refl {A : Type} (p : Prog A) : peq p p.
Proof. induction p; constructor; auto. Qed.

Lemma Post_bind {A B : Type} (P : A -> Prop) (Q : B -> Prop)
    (p : Prog A) (f : A -> Prog B) :
  Post P p -> (forall a, P a -> Post Q (f a)) -> Post Q (bind p f).
Proof.
  intros Hp Hf. induction Hp; cbn.
  - auto.
  - constructor. auto.
Qed.

Lemma Post_weaken {A : Type} (P Q : A -> Prop) (p : Prog A) :
  Post P p -> (forall a, P a -> Q a) -> Post Q p.
Proof. intros Hp HPQ. induction Hp; constructor; auto. Qed.

(** [Post] speaks of every run. *)
Lemma Post_run {A S : Type} (Q : A -> Prop) (p : Prog A) (K : Kernel S) :
  Post Q p -> forall s, Q (result K p s).
Proof.
  unfold result. intros Hp. induction Hp; intros s; cbn.
  - assumption.
  - destruct (K X c s) as [x s1]. specialize (H0 x s1).
    destruct (run K (k x) s1) as [[a s2] t]. exact H0.
Qed.

(** [ncalls] counts the calls of every run. *)
Lemma ncalls_run {A S : Type} (n : nat) (p : Prog A) (K : Kernel S) :
  ncalls n p -> forall s, List.length (calls K p s) = n.
Proof.
  unfold calls. intros Hp. induction Hp; intros s; cbn.
  - reflexivity.
  - destruct (K X c s) as [x s1]. specialize (H0 x s1).
    destruct (run K (k x) s1) as [[a s2] t]. cbn in *. now rewrite H0.
Qed.

Lemma ncalls_Ret_inv {A : Type} (n : nat) (a : A) : ncalls (S n) (Ret a) -> False.
Proof. intros H. inversion H. Qed.

(** ** C1 *)

Lemma forwarding_methods_forward {cfg : FreeRTOSConfig} (T : Type) (dT : T) :
  Forall (fun m => one_kernel_call m /\ reads_only_handle m /\ leaves_object m)
    (forwarding_methods dT).
Proof.
  unfold_interface. split_Forall.
  all: split; [ | split ].
  all: try (unfold one_kernel_call; prog_solve).
  all: try (unfold leaves_object; prog_solve).
  all: unfold reads_only_handle; cbn; intros s1 s2 a H; destruct s1, s2;
    cbn in H; try subst; prog_solve.
Qed.

(** Every line of the translation table holds of its method. *)
Lemma translation_table_translates {cfg : FreeRTOSConfig} (T : Type)
    (dT : T) :
  Forall translates (translation_table dT).
Proof.
  unfold translation_table, Kernel_translations, MutexBase_translations,
    SemaphoreBase_translations, EventGroupBase_translations,
    QueueBase_translations, TaskBase_translations, TimerBase_translations,
    StreamBufferBase_translations, MessageBufferBase_translations.
  split_Forall.
  all: unfold translates; cbn; intros self a; destruct_args; prog_solve.
Qed.

(** C1 as amended: the translation table has a line for each of the
    forwarding methods, and each of them makes the one call of its line, to
    its kernel function with the stored handle and its arguments, returns
    the value of its line, reads no data member but the handle and assigns
    none; [TimerBase::deleteTimer] makes the one call [xTimerDelete] and
    clears the handle when that returns [pdPASS]; the [isValid] methods,
    which test [handle != NULL], [getDeleteBlockTime] and
    [setDeleteBlockTime] make no kernel call, [Task::isValid] returning the
    member [taskCreatedSuccessfully] and the other two reading and writing
    the member [deleteBlockTime]; the public move assignment operators make
    no kernel call and give the object every member of the source;
    [taskEntry] makes the one call [xTaskGetTickCount], stores the answer in
    [previousWakeTime] and runs the user's [taskFunction]; [timerEntry] runs
    the user's [timerFunction]; the protected [delay], [delayUntil] and
    [notifyTake] make one call each, [delayUntil] on the member
    [previousWakeTime]. *)
Theorem C1_methods_forward_with_exceptions {cfg : FreeRTOSConfig}
    (T : Type) (default_T : T) :
  (map tr_method (translation_table default_T) = forwarding_methods default_T
   /\ Forall translates (translation_table default_T))
  /\ Forall (fun m => one_kernel_call m /\ reads_only_handle m
                      /\ leaves_object m)
       (forwarding_methods default_T)
  /\ (one_kernel_call deleteTimer_method
      /\ reads_only_handle deleteTimer_method
      /\ forall self blockTime,
           peq (TimerBase.deleteTimer self blockTime)
             (Call (xTimerDelete (TimerBase.handle self) blockTime)
                (fun r =>
                   Ret (r =? pdPASS,
                        if r =? pdPASS then TimerBase.set_handle NULL self
                        else self))))
  /\ (Forall (fun m => no_kernel_call m /\ reads_only_handle m
                       /\ leaves_object m) isValid_methods
      /\ (forall self,
            MutexBase.isValid self = neqNULL (MutexBase.handle self))
      /\ (forall self,
            SemaphoreBase.isValid self = neqNULL (SemaphoreBase.handle self))
      /\ (forall self,
            EventGroupBase.isValid self
            = neqNULL (EventGroupBase.handle self))
      /\ (forall self,
            QueueBase.isValid self = neqNULL (QueueBase.handle self))
      /\ (forall self,
            TimerBase.isValid self = neqNULL (TimerBase.handle self))
      /\ (forall self,
            StreamBufferBase.isValid self
            = neqNULL (StreamBufferBase.handle self))
      /\ (forall self,
            MessageBufferBase.isValid self
            = neqNULL (MessageBufferBase.handle self)))
  /\ Forall no_kernel_call
       [Task_isValid_method; getDeleteBlockTime_method;
        setDeleteBlockTime_method]
  /\ (forall self, Task.isValid self = Task.taskCreatedSuccessfully self)
  /\ (forall self,
        TimerBase.getDeleteBlockTime self = TimerBase.deleteBlockTime self)
  /\ (forall self d,
        TimerBase.setDeleteBlockTime self d
        = {| TimerBase.handle := TimerBase.handle self;
             TimerBase.deleteBlockTime := d |})
  /\ (forall taskFunction self,
        TaskBase.taskEntry taskFunction self
        = Call xTaskGetTickCount
            (fun tick =>
               taskFunction (TaskBase.set_previousWakeTime tick self)))
  /\ (forall timerFunction self,
        TimerBase.timerEntry timerFunction self = timerFunction self)
  /\ Forall one_kernel_call protected_methods
  /\ (forall self timeIncrement,
        peq (TaskBase.delayUntil self timeIncrement)
          (Call (xTaskDelayUntil (TaskBase.previousWakeTime self)
                   timeIncrement)
             (fun x => Ret (fst x =? pdTRUE,
                            TaskBase.set_previousWakeTime (snd x) self))))
  /\ (map m_class move_assignment_methods = map w_name plain_classes
      /\ Forall (fun m => no_kernel_call m /\ m_arg m = m_self m)
           move_assignment_methods
      /\ forall (Obj : Type) (self other : Obj) (S : Type) (K : Kernel S)
                (s : S),
           fst (result K (move_assignment self other) s) = other).
Proof.
  split; [split; [reflexivity | apply translation_table_translates] | ].
  split; [apply forwarding_methods_forward | ].
  split.
  { repeat split.
    - unfold one_kernel_call; prog_solve.
    - unfold reads_only_handle; cbn; intros s1 s2 a H; destruct s1, s2;
        cbn in H; subst; prog_solve.
      destruct (x =? pdPASS); constructor.
    - intros self blockTime. unfold TimerBase.deleteTimer. cbn.
      constructor. intros r. destruct (r =? pdPASS); constructor. }
  split.
  { split; [ | repeat split].
    unfold isValid_methods. split_Forall.
    all: split; [ | split ].
    all: try (unfold no_kernel_call; prog_solve).
    all: try (unfold leaves_object; prog_solve).
    all: unfold reads_only_handle; cbn; intros s1 s2 a H; destruct s1, s2;
      cbn in H; subst; prog_solve. }
  split.
  { split_Forall; unfold no_kernel_call; prog_solve. }
  do 5 (split; [reflexivity | ]).
  split.
  { unfold protected_methods. split_Forall; unfold one_kernel_call;
      prog_solve. }
  split.
  { intros self timeIncrement. unfold TaskBase.delayUntil. prog_solve. }
  split; [reflexivity | ].
  split; [ | reflexivity].
  unfold move_assignment_methods. split_Forall.
  all: split; [unfold no_kernel_call; prog_solve | reflexivity].
Qed.

(** C1 as worded fails: [TimerBase::getDeleteBlockTime] on a timer whose
    [deleteBlockTime] is 5 returns 5 without any kernel call, so not every
    public method makes exactly one; and [TaskBase::taskEntry], entered at
    tick 100 with an empty [taskFunction], leaves 100 in the data member
    [previousWakeTime]. *)
Lemma C1_counterexample :
  m_body getDeleteBlockTime_method
    {| TimerBase.handle := Ptr 1; TimerBase.deleteBlockTime := 5 |} tt
  = Ret (5, {| TimerBase.handle := Ptr 1; TimerBase.deleteBlockTime := 5 |})
  /\ result
       (scripted {| a_status := 1; a_woken := 0; a_handle := Ptr 1;
                    a_value := 100 |})
       (TaskBase.taskEntry (fun self => Ret self)
          {| TaskBase.handle := Ptr 1; TaskBase.previousWakeTime := 0 |})
       0%nat
     = {| TaskBase.handle := Ptr 1; TaskBase.previousWakeTime := 100 |}
  /\ ~ every_method_forwards (cfg := FreeRTOS_port) (0 : Z).
Proof.
  split; [reflexivity | ].
  split; [reflexivity | ].
  unfold every_method_forwards, public_methods, local_methods.
  rewrite !Forall_app. intros (_ & _ & (_ & Hl) & _).
  apply Forall_inv_tail, Forall_inv in Hl. destruct Hl as [Hone _].
  specialize (Hone {| TimerBase.handle := Ptr 1;
                      TimerBase.deleteBlockTime := 5 |} tt).
  cbn in Hone. exact (ncalls_Ret_inv Hone).
Qed.

(** ** C2 *)

(** What [returns_iff] says of the runs: one call is made, and the result
    is [true] exactly when the function returned [code]. *)
Lemma returns_iff_run (code : BaseType_t) (p : Prog bool) :
  returns_iff code p -> ncalls 1 p /\ true_iff_status code p.
Proof.
  destruct p as [b | X c k]; cbn; [contradiction | ].
  destruct (status c) as [st | ] eqn:Hst; [ | contradiction].
  intros H. split.
  - constructor. intros x. rewrite H. constructor.
  - intros S K s. exists (st (fst (K X c s))). cbn. rewrite Hst.
    split; [reflexivity | ].
    unfold result. cbn. destruct (K X c s) as [x s1]. rewrite H. cbn.
    apply Z.eqb_eq.
Qed.

Lemma pdTRUE_methods_compare {cfg : FreeRTOSConfig} (T : Type) :
  Forall (fun m => forall self a, returns_iff pdTRUE (b_body m self a))
    (pdTRUE_methods T).
Proof.
  unfold pdTRUE_methods. split_Forall.
  all: cbn; intros; repeat prog_step; cbn; intros; repeat prog_step;
    reflexivity.
Qed.

Lemma pdPASS_methods_compare {cfg : FreeRTOSConfig} (T : Type) :
  Forall (fun m => forall self a, returns_iff pdPASS (b_body m self a))
    (pdPASS_methods T).
Proof.
  unfold pdPASS_methods. split_Forall.
  all: cbn; intros; repeat prog_step; cbn; intros; repeat prog_step;
    cbn; try reflexivity.
  destruct (x =? pdPASS); reflexivity.
Qed.

(** C2 as amended: a [bool] method that calls a kernel function makes that
    one call and returns [true] exactly when the function returns the
    constant its source compares with, [pdTRUE] for the one group and
    [pdPASS] for the other, and [false] for every other value;
    [TimerBase::isActive] is the exception: it returns [false] exactly when
    [xTimerIsTimerActive] returns [pdFALSE], and [true] for every other
    value. *)
Theorem C2_bool_methods_compare_status {cfg : FreeRTOSConfig} (T : Type) :
  Forall (fun m => forall self a,
              ncalls 1 (b_body m self a)
              /\ true_iff_status pdTRUE (b_body m self a))
    (pdTRUE_methods T)
  /\ Forall (fun m => forall self a,
                 ncalls 1 (b_body m self a)
                 /\ true_iff_status pdPASS (b_body m self a))
       (pdPASS_methods T)
  /\ (forall self (S : Type) (K : Kernel S) (s : S),
        calls K (TimerBase.isActive self) s
        = [anycall (xTimerIsTimerActive (TimerBase.handle self))]
        /\ (result K (TimerBase.isActive self) s = false
            <-> fst (K _ (xTimerIsTimerActive (TimerBase.handle self)) s)
                = pdFALSE)).
Proof.
  split; [ | split ].
  - eapply Forall_impl; [ | apply pdTRUE_methods_compare ].
    intros m H self a. apply returns_iff_run, H.
  - eapply Forall_impl; [ | apply pdPASS_methods_compare ].
    intros m H self a. apply returns_iff_run, H.
  - intros self S K s. run_call. split; [reflexivity | ].
    rewrite <- Z.eqb_eq. destruct (_ =? pdFALSE); cbn; split; congruence.
Qed.

(** C2 as worded fails: when [xTimerIsTimerActive] returns 2, which is
    neither [pdTRUE] nor [pdPASS], [TimerBase::isActive] returns [true]. *)
Lemma C2_counterexample :
  returned
    (scripted {| a_status := 2; a_woken := 0; a_handle := Ptr 1;
                 a_value := 0 |})
    (TimerBase.isActive (cfg := FreeRTOS_port)
       {| TimerBase.handle := Ptr 1; TimerBase.deleteBlockTime := 0 |}) 0%nat
  = Some 2
  /\ result
       (scripted {| a_status := 2; a_woken := 0; a_handle := Ptr 1;
                    a_value := 0 |})
       (TimerBase.isActive (cfg := FreeRTOS_port)
          {| TimerBase.handle := Ptr 1; TimerBase.deleteBlockTime := 0 |})
       0%nat
     = true
  /\ 2 <> pdTRUE (FreeRTOSConfig := FreeRTOS_port)
  /\ 2 <> pdPASS (FreeRTOSConfig := FreeRTOS_port)
  /\ ~ every_bool_is_status (cfg := FreeRTOS_port) Z.
Proof.
  split; [reflexivity | ].
  split; [reflexivity | ].
  split; [discriminate | ].
  split; [discriminate | ].
  unfold every_bool_is_status, bool_methods.
  rewrite !Forall_app. intros (_ & _ & Hl).
  apply Forall_inv in Hl.
  specialize (Hl {| TimerBase.handle := Ptr 1;
                    TimerBase.deleteBlockTime := 0 |} tt).
  destruct Hl as [H | H];
    destruct (H nat (scripted {| a_status := 2; a_woken := 0;
                                 a_handle := Ptr 1; a_value := 0 |}) 0%nat)
      as (r & Hr & Hiff);
    cbn in Hr; injection Hr as <-;
    assert (E : 2 = 1) by (apply Hiff; reflexivity); discriminate E.
Qed.

(** ** C3 *)

(** C3: [receive], both [receiveFromISR], [peek] and [peekFromISR] make the
    one kernel call and return the item the kernel left in the buffer when
    the call returned [pdTRUE], and [std::nullopt] for every other return
    value, whatever is in the buffer then. *)
Theorem C3_queue_receive_optional {cfg : FreeRTOSConfig} (T : Type)
    (default_T : T) (self : QueueBase.t) (ticksToWait : TickType_t)
    (flag : bool) (S : Type) (K : Kernel S) (s : S) :
  let h := QueueBase.handle self in
  (let c := xQueueReceive h default_T ticksToWait in
   let o := result K (QueueBase.receive default_T self ticksToWait) s in
   let '(r, item) := fst (K _ c s) in
   calls K (QueueBase.receive default_T self ticksToWait) s = [anycall c]
   /\ o = (if r =? pdTRUE then Some item else None)
   /\ (has_value o = true <-> r = pdTRUE))
  /\ (let c := xQueueReceiveFromISR h default_T (Some pdFALSE) in
      let o := fst (result K (QueueBase.receiveFromISR default_T self flag) s) in
      let '(r, item, _) := fst (K _ c s) in
      calls K (QueueBase.receiveFromISR default_T self flag) s = [anycall c]
      /\ o = (if r =? pdTRUE then Some item else None)
      /\ (has_value o = true <-> r = pdTRUE))
  /\ (let c := xQueueReceiveFromISR h default_T None in
      let o := result K (QueueBase.receiveFromISR' default_T self) s in
      let '(r, item, _) := fst (K _ c s) in
      calls K (QueueBase.receiveFromISR' default_T self) s = [anycall c]
      /\ o = (if r =? pdTRUE then Some item else None)
      /\ (has_value o = true <-> r = pdTRUE))
  /\ (let c := xQueuePeek h default_T ticksToWait in
      let o := result K (QueueBase.peek default_T self ticksToWait) s in
      let '(r, item) := fst (K _ c s) in
      calls K (QueueBase.peek default_T self ticksToWait) s = [anycall c]
      /\ o = (if r =? pdTRUE then Some item else None)
      /\ (has_value o = true <-> r = pdTRUE))
  /\ (let c := xQueuePeekFromISR h default_T in
      let o := result K (QueueBase.peekFromISR default_T self) s in
      let '(r, item) := fst (K _ c s) in
      calls K (QueueBase.peekFromISR default_T self) s = [anycall c]
      /\ o = (if r =? pdTRUE then Some item else None)
      /\ (has_value o = true <-> r = pdTRUE)).
Proof.
  unfold result, calls; cbn.
  repeat split.
  all: match goal with
       | |- context [fst (?k ?X ?c ?z)] => destruct (k X c z) as [x s1]
       end; repeat prog_step; cbn.
  all: split; [reflexivity | split; [reflexivity | ]].
  all: rewrite <- Z.eqb_eq; destruct (_ =? pdTRUE); cbn; split; congruence.
Qed.

(** A queue of numbers at a kernel that returns [pdTRUE] and leaves the
    buffer as it is, and at one that returns [errQUEUE_EMPTY]. *)
Example receive_at_two_kernels :
  result (scripted all_fine)
    (QueueBase.receive (cfg := FreeRTOS_port) 7 {| QueueBase.handle := Ptr 1 |}
       0)
    0%nat
  = Some 7
  /\ result (scripted {| a_status := 0; a_woken := 0; a_handle := Ptr 1;
                         a_value := 0 |})
       (QueueBase.receive (cfg := FreeRTOS_port) 7
          {| QueueBase.handle := Ptr 1 |} 0)
       0%nat
     = None.
Proof. split; reflexivity. Qed.

(** ** Constructors and destructors (C4, C5, C9) *)

Lemma all_classes_construct {cfg : FreeRTOSConfig} :
  Forall constructs wrapper_classes.
Proof.
  unfold_classes. split_Forall.
  all: intros args S K s; cbn in *; destruct_args;
    unfold StaticStreamBuffer.constructor, StaticMessageBuffer.constructor,
      StaticStreamBuffer.sizeof_storage, StaticMessageBuffer.sizeof_storage;
    run_call; destruct_args; split; reflexivity.
Qed.

Lemma plain_classes_delete {cfg : FreeRTOSConfig} :
  Forall deletes plain_classes.
Proof.
  unfold_classes. split_Forall.
  all: intros self S K s; cbn in *; run_call; reflexivity.
Qed.

Lemma timer_classes_delete {cfg : FreeRTOSConfig} :
  Forall (deletes_if neqNULL) timer_classes.
Proof.
  unfold_classes. split_Forall.
  all: intros [h d] S K s; cbn in *; unfold TimerBase.destructor,
    TimerBase.isValid; cbn; destruct h; cbn; [reflexivity | ].
  all: run_call; destruct (_ =? pdPASS); reflexivity.
Qed.

Lemma task_classes_delete {cfg : FreeRTOSConfig} :
  Forall (deletes_if (fun h => (INCLUDE_vTaskDelete =? 1) && neqNULL h))
    task_classes.
Proof.
  unfold_classes. split_Forall.
  all: intros self S K s; cbn in *; unfold Task.destructor,
    StaticTask.destructor, TaskBase.destructor.
  all: destruct (INCLUDE_vTaskDelete =? 1); cbn; [ | reflexivity].
  all: destruct (neqNULL _); [run_call | ]; reflexivity.
Qed.

(** C4 as amended: the constructor a class defines makes the one kernel
    create call of its object type and stores the handle of the answer; the
    defaulted move constructor makes no kernel call, and gives the new
    object the handle of its source, which keeps it; the destructor makes
    the one matching kernel delete call on the stored handle, for the timers
    ([xTimerDelete] with the stored block time) only when the handle is not
    [NULL], and for the tasks only when [INCLUDE_vTaskDelete] is 1 and the
    handle is not [NULL]; otherwise these destructors make no call. *)
Theorem C4_create_in_constructor_delete_in_destructor {cfg : FreeRTOSConfig} :
  Forall constructs wrapper_classes
  /\ Forall (fun w =>
               forall (other : w_obj w) (S : Type) (K : Kernel S) (s : S),
                 calls K (move_constructor other) s = []
                 /\ w_handle w (fst (result K (move_constructor other) s))
                    = w_handle w other
                 /\ snd (result K (move_constructor other) s) = other)
       wrapper_classes
  /\ Forall deletes plain_classes
  /\ Forall (deletes_if neqNULL) timer_classes
  /\ Forall (deletes_if (fun h => (INCLUDE_vTaskDelete =? 1) && neqNULL h))
       task_classes.
Proof.
  split; [apply all_classes_construct | ].
  split.
  { apply Forall_forall. intros w _ other S K s. repeat split. }
  split; [apply plain_classes_delete | ].
  split; [apply timer_classes_delete | apply task_classes_delete].
Qed.

(** C4 as worded fails: a [Task] whose creation failed is destroyed
    without any kernel call, although the claimed [vTaskDelete] call on the
    stored handle is a call; and a [Mutex] that is move-constructed from
    another is an instance made without a create call, whose destructor
    deletes the handle that the destructor of its source deletes too. *)
Lemma C4_counterexample :
  calls (scripted out_of_memory)
    (Task.destructor (cfg := FreeRTOS_port)
       (result (scripted out_of_memory)
          (Task.constructor (cfg := FreeRTOS_port) 1%positive 0 128 "t")
          0%nat))
    1%nat
  = []
  /\ calls (scripted all_fine)
       (a <- Mutex.constructor ;;
        '(b, a) <- move_constructor a ;;
        Mutex.destructor b ;;
        Mutex.destructor a)
       0%nat
     = [anycall xSemaphoreCreateMutex; anycall (vSemaphoreDelete (Ptr 1));
        anycall (vSemaphoreDelete (Ptr 1))]
  /\ ~ every_class_is_RAII (cfg := FreeRTOS_port).
Proof.
  split; [reflexivity | ].
  split; [reflexivity | ].
  unfold every_class_is_RAII, wrapper_classes, task_classes.
  rewrite !Forall_app. intros (_ & _ & Hl).
  apply Forall_inv in Hl. destruct Hl as [_ Hd].
  specialize (Hd Task.init nat (scripted out_of_memory) 0%nat).
  discriminate Hd.
Qed.

(** The forwarding methods and the local ones do not assign the handle. *)
Lemma forwarding_and_local_keep_handle {cfg : FreeRTOSConfig} (T : Type)
    (default_T : T) :
  Forall keeps_handle (forwarding_methods default_T ++ local_methods).
Proof.
  unfold_interface. split_Forall.
  all: unfold keeps_handle; prog_solve.
Qed.

(** C5 as amended: every handle is [NULL] before the constructor body
    runs, which assigns it the handle the kernel create function yields;
    right after construction [isValid()] of a handle-based wrapper is
    the test that the kernel create function returned a handle other than
    [NULL], and [isValid()] of a [Task] is the stored result of
    [xTaskCreate(...) == pdPASS], which agrees with the test of the handle
    whenever the kernel leaves a handle other than [NULL] exactly when it
    returns [pdPASS]; besides the constructor, the handle is assigned by
    the defaulted move constructor and move assignment, which give the
    object the handle of their source and leave the source its own, and by
    [TimerBase::deleteTimer], which sets it to [NULL] when it returns
    [true], that is when [xTimerDelete] returned [pdPASS]; the forwarding
    methods, the [isValid] methods,
    [getDeleteBlockTime] and [setDeleteBlockTime] do not assign it, and
    [taskEntry] and [timerEntry] keep it when the user's [taskFunction]
    and [timerFunction] do. *)
Theorem C5_isValid_reports_creation {cfg : FreeRTOSConfig} (T : Type)
    (default_T : T) :
  (MutexBase.handle MutexBase.init = NULL
   /\ SemaphoreBase.handle SemaphoreBase.init = NULL
   /\ EventGroupBase.handle EventGroupBase.init = NULL
   /\ QueueBase.handle QueueBase.init = NULL
   /\ (forall d, TimerBase.handle (TimerBase.init d) = NULL)
   /\ StreamBufferBase.handle StreamBufferBase.init = NULL
   /\ MessageBufferBase.handle MessageBufferBase.init = NULL
   /\ TaskBase.handle (Task.base Task.init) = NULL
   /\ Task.isValid Task.init = false)
  /\ Forall (fun w =>
               forall (args : w_args w) (S : Type) (K : Kernel S) (s : S),
                 match w_isValid w with
                 | Some isValid =>
                     isValid (result K (w_constructor w args) s)
                     = neqNULL (w_created w (fst (K _ (w_create w args) s)))
                 | None => True
                 end)
       non_task_classes
  /\ (forall this priority stackDepth name (S : Type) (K : Kernel S) (s : S),
        let '(r, h) :=
          fst (K _ (xTaskCreate fn_callTaskFunction name stackDepth this
                      priority (Some NULL)) s) in
        let task :=
          result K (Task.constructor this priority stackDepth name) s in
        Task.isValid task = (r =? pdPASS)
        /\ TaskBase.handle (Task.base task) = h
        /\ (neqNULL h = (r =? pdPASS) ->
            Task.isValid task = neqNULL (TaskBase.handle (Task.base task))))
  /\ Forall keeps_handle (forwarding_methods default_T ++ local_methods)
  /\ (forall self blockTime,
        Post (fun out => TimerBase.handle (snd out)
                         = if fst out : bool then NULL
                           else TimerBase.handle self)
          (TimerBase.deleteTimer self blockTime))
  /\ (forall taskFunction self,
        (forall task,
           Post (fun task' => TaskBase.handle task' = TaskBase.handle task)
             (taskFunction task)) ->
        Post (fun self' => TaskBase.handle self' = TaskBase.handle self)
          (TaskBase.taskEntry taskFunction self))
  /\ Forall (fun w =>
               forall self other : w_obj w,
                 Post (fun out => w_handle w (fst out) = w_handle w other
                                  /\ snd out = other)
                   (move_constructor other)
                 /\ Post (fun out => w_handle w (fst out) = w_handle w other
                                     /\ snd out = other)
                      (move_assignment self other))
       wrapper_classes
  /\ (forall timerFunction self,
        (forall timer,
           Post (fun timer' => TimerBase.handle timer'
                               = TimerBase.handle timer)
             (timerFunction timer)) ->
        Post (fun self' => TimerBase.handle self' = TimerBase.handle self)
          (TimerBase.timerEntry timerFunction self))
  /\ Forall (fun w =>
               forall (args : w_args w) (S : Type) (K : Kernel S) (s : S),
                 w_handle w (result K (w_constructor w args) s)
                 = w_created w (fst (K _ (w_create w args) s)))
       wrapper_classes
  /\ (forall self blockTime (S : Type) (K : Kernel S) (s : S),
        let r := fst (K _ (xTimerDelete (TimerBase.handle self) blockTime) s) in
        TimerBase.handle
          (snd (result K (TimerBase.deleteTimer self blockTime) s))
        = if r =? pdPASS then NULL else TimerBase.handle self).
Proof.
  split; [repeat split | ].
  split.
  { unfold_classes. split_Forall.
    all: intros args S K s; cbn in *; destruct_args;
      unfold StaticStreamBuffer.constructor, StaticMessageBuffer.constructor,
        StaticStreamBuffer.sizeof_storage, StaticMessageBuffer.sizeof_storage;
      run_call; reflexivity. }
  split.
  { intros. run_call. destruct_args. cbn. repeat split. congruence. }
  split; [apply forwarding_and_local_keep_handle | ].
  split.
  { intros self blockTime. unfold TimerBase.deleteTimer. prog_solve. }
  split.
  { intros taskFunction self H. cbn. constructor. intros tick.
    eapply Post_weaken; [apply H | ]. cbn. auto. }
  split.
  { apply Forall_forall. intros w _ self other.
    split; constructor; split; reflexivity. }
  split; [intros timerFunction self H; apply H | ].
  split.
  { eapply Forall_impl; [ | apply all_classes_construct].
    intros w H args S K s. apply H. }
  intros self blockTime S K s. run_call. destruct (_ =? pdPASS); reflexivity.
Qed.

(** At a kernel that creates the task and leaves its handle, the stored
    result and the test of the handle agree. *)
Lemma C5_task_criteria_agree :
  Task.isValid
    (result (scripted all_fine)
       (Task.constructor (cfg := FreeRTOS_port) 1%positive 0 128 "t") 0%nat)
  = neqNULL
      (TaskBase.handle
         (Task.base
            (result (scripted all_fine)
               (Task.constructor (cfg := FreeRTOS_port) 1%positive 0 128 "t")
               0%nat))).
Proof.
  pose proof (C5_isValid_reports_creation (cfg := FreeRTOS_port) (0 : Z))
    as (_ & _ & H & _).
  specialize (H 1%positive 0 128 "t"%string nat (scripted all_fine) 0%nat).
  cbn in H. apply H. reflexivity.
Defined.

(** C5 as worded fails: a [Timer] is created with the handle [Ptr 1], so
    [isValid()] is [true]; after a successful [deleteTimer] the handle is
    [NULL] and [isValid()] is [false], although the creation call of the
    constructor produced a usable object: the handle was assigned by a
    method. *)
Lemma C5_counterexample :
  TimerBase.isValid
    (result (scripted all_fine)
       (Timer.constructor (cfg := FreeRTOS_port) 1%positive 10 false "t" 0)
       0%nat)
  = true
  /\ TimerBase.isValid
       (snd (result (scripted all_fine)
               (TimerBase.deleteTimer (cfg := FreeRTOS_port)
                  (result (scripted all_fine)
                     (Timer.constructor (cfg := FreeRTOS_port) 1%positive 10
                        false "t" 0)
                     0%nat)
                  0)
               1%nat))
     = false
  /\ ~ handle_assigned_once (cfg := FreeRTOS_port) (0 : Z).
Proof.
  split; [reflexivity | ].
  split; [reflexivity | ].
  unfold handle_assigned_once. rewrite !Forall_app. intros (_ & Hd & _).
  apply Forall_inv in Hd.
  specialize (Hd {| TimerBase.handle := Ptr 1;
                    TimerBase.deleteBlockTime := 0 |} 0).
  apply (Post_run (scripted all_fine)) with (s := 0%nat) in Hd.
  discriminate Hd.
Qed.

(** C9 as amended: the destructors of [MutexBase], [SemaphoreBase] and
    [EventGroupBase], and those of the queues and of the stream and message
    buffers, make the kernel delete call on the stored handle whatever it
    is, so that a wrapper of these classes whose creation failed passes
    [NULL] to the kernel delete function; the destructor of [TaskBase] calls
    [vTaskDelete] only when [INCLUDE_vTaskDelete] is 1 and the handle is not
    [NULL], and the destructor of [TimerBase] calls [xTimerDelete] only when
    the handle is not [NULL]. *)
Theorem C9_unguarded_and_guarded_destructors {cfg : FreeRTOSConfig} :
  Forall deletes plain_classes
  /\ (forall (S : Type) (K : Kernel S) (s : S),
        calls K (MutexBase.destructor MutexBase.init) s
        = [anycall (vSemaphoreDelete NULL)]
        /\ calls K (SemaphoreBase.destructor SemaphoreBase.init) s
           = [anycall (vSemaphoreDelete NULL)]
        /\ calls K (EventGroupBase.destructor EventGroupBase.init) s
           = [anycall (vEventGroupDelete NULL)])
  /\ (forall self (S : Type) (K : Kernel S) (s : S),
        calls K (TaskBase.destructor self) s
        = if (INCLUDE_vTaskDelete =? 1) && neqNULL (TaskBase.handle self)
          then [anycall (vTaskDelete (TaskBase.handle self))] else [])
  /\ (forall self (S : Type) (K : Kernel S) (s : S),
        calls K (TimerBase.destructor self) s
        = if neqNULL (TimerBase.handle self)
          then [anycall (xTimerDelete (TimerBase.handle self)
                           (TimerBase.deleteBlockTime self))]
          else []).
Proof.
  split; [apply plain_classes_delete | ].
  split; [intros; repeat split; run_call; reflexivity | ].
  split.
  - pose proof task_classes_delete as H. unfold task_classes in H.
    apply Forall_inv_tail, Forall_inv in H. exact H.
  - pose proof timer_classes_delete as H. unfold timer_classes in H.
    apply Forall_inv in H. exact H.
Qed.

(** C9 as worded fails: a [Timer] is a wrapper other than a task's; when
    its creation failed, its destructor makes no kernel call, so nothing is
    passed to the kernel delete function. *)
Lemma C9_counterexample :
  TimerBase.handle
    (result (scripted out_of_memory)
       (Timer.constructor (cfg := FreeRTOS_port) 1%positive 10 false "t" 0)
       0%nat)
  = NULL
  /\ calls (scripted out_of_memory)
       (Timer.destructor (cfg := FreeRTOS_port)
          (result (scripted out_of_memory)
             (Timer.constructor (cfg := FreeRTOS_port) 1%positive 10 false
                "t" 0)
             0%nat))
       1%nat
     = []
  /\ ~ every_non_task_deletes_NULL (cfg := FreeRTOS_port).
Proof.
  split; [reflexivity | ].
  split; [reflexivity | ].
  unfold every_non_task_deletes_NULL, non_task_classes, timer_classes.
  rewrite !Forall_app. intros (_ & Hl).
  apply Forall_inv in Hl.
  specialize (Hl (TimerBase.init 0) nat (scripted out_of_memory) 0%nat
                eq_refl).
  discriminate Hl.
Qed.

(** ** Static allocation (C6, C7) *)

(** C6 as amended: [StaticTask], [StaticQueue], [StaticStreamBuffer] and
    [StaticMessageBuffer] are class templates, and their template arguments
    give the length of their storage array ([N] stack words, [N * sizeof(T)]
    bytes, [N] bytes, [N] bytes) and the size their constructor passes to the
    kernel; [StaticTimer], [StaticMutex], [StaticRecursiveMutex],
    [StaticEventGroup], [StaticBinarySemaphore] and
    [StaticCountingSemaphore] have no template header and no storage array:
    their storage is one kernel control block, the same for every
    instance. *)
Theorem C6_template_and_plain_static_classes {cfg : FreeRTOSConfig} :
  Forall (fun c => s_template c <> []) template_static_classes
  /\ (forall a, array_lengths StaticTask_decl a = [N a])
  /\ (forall a, array_lengths StaticQueue_decl a = [N a * sizeof_T a])
  /\ (forall a, array_lengths StaticStreamBuffer_decl a = [N a])
  /\ (forall a, array_lengths StaticMessageBuffer_decl a = [N a])
  /\ (forall a this priority name,
        StaticTask.constructor (N a) this priority name
        = Call (xTaskCreateStatic fn_callTaskFunction name (N a) this priority
                  (member this stack) (member this taskBuffer))
            (fun h => Ret (TaskBase.set_handle h TaskBase.init)))
  /\ (forall a this,
        StaticQueue.constructor (sizeof_T a) (N a) this
        = Call (xQueueCreateStatic (N a) (sizeof_T a) (member this storage)
                  (member this staticQueue))
            (fun h => Ret (QueueBase.set_handle h QueueBase.init)))
  /\ (forall a this triggerLevel,
        StaticStreamBuffer.constructor (N a) this triggerLevel
        = Call (xStreamBufferCreateStatic (N a) triggerLevel
                  (member this storage) (member this staticStreamBuffer))
            (fun h =>
               Ret (StreamBufferBase.set_handle h StreamBufferBase.init)))
  /\ (forall a this,
        StaticMessageBuffer.constructor (N a) this
        = Call (xMessageBufferCreateStatic (N a) (member this storage)
                  (member this staticMessageBuffer))
            (fun h =>
               Ret (MessageBufferBase.set_handle h MessageBufferBase.init)))
  /\ Forall (fun c => s_template c = []
                      /\ forall a b,
                           array_lengths c a = []
                           /\ s_members c a = s_members c b)
       plain_static_classes.
Proof.
  split.
  { unfold template_static_classes. split_Forall; discriminate. }
  do 8 (split; [reflexivity | ]).
  unfold plain_static_classes. split_Forall.
  all: split; [reflexivity | intros a b; split; reflexivity].
Qed.

(** C6 as worded fails: [StaticMutex] is declared without a template
    header, so not every statically-allocated variant is a class
    template. *)
Lemma C6_counterexample :
  s_template StaticMutex_decl = []
  /\ ~ every_static_is_template (cfg := FreeRTOS_port).
Proof.
  split; [reflexivity | ].
  unfold every_static_is_template, static_classes, plain_static_classes.
  rewrite Forall_app. intros (_ & Hl).
  apply Forall_inv_tail, Forall_inv in Hl. apply Hl. reflexivity.
Qed.

(** C7: the constructor of every statically-allocated variant makes one
    kernel call, of a create function that takes no storage from the heap,
    and the buffers it hands to the kernel are exactly the storage members
    of the object under construction: a [StaticQueue_t] and a [uint8_t]
    array for [StaticQueue], a [StaticSemaphore_t] for [StaticMutex], and so
    on. *)
Theorem C7_static_storage_is_in_the_object {cfg : FreeRTOSConfig} :
  Forall (fun c =>
            forall (a : TemplateArgs) (this : ObjAddr) (args : s_args c),
              static_construction (map md_field (s_members c a)) this
                (s_constructor c a this args))
    static_classes
  /\ (forall a,
        s_members StaticQueue_decl a
        = [{| md_field := staticQueue; md_type := StaticQueue_t;
              md_length := None |};
           {| md_field := storage; md_type := uint8_t;
              md_length := Some (N a * sizeof_T a) |}])
  /\ (forall a,
        s_members StaticMutex_decl a
        = [{| md_field := staticMutex; md_type := StaticSemaphore_t;
              md_length := None |}]).
Proof.
  split; [ | split; reflexivity ].
  unfold static_classes, template_static_classes, plain_static_classes.
  split_Forall.
  all: intros a this args; cbn in *; destruct_args; cbn.
  all: split; [reflexivity | ].
  all: split; [discriminate | ].
  all: split; [intros ?; cbn; tauto | intros ?; cbn; apply ncalls_Ret].
Qed.

(** A [StaticQueue<uint32_t, 4>] at address 7. *)
Example StaticQueue_of_4_words :
  calls (scripted all_fine)
    (StaticQueue.constructor 4 4 7%positive) 0%nat
  = [anycall (xQueueCreateStatic 4 4 (member 7%positive storage)
                (member 7%positive staticQueue))]
  /\ array_lengths StaticQueue_decl {| sizeof_T := 4; N := 4 |} = [16].
Proof. split; reflexivity. Qed.

(** ** The woken flag (C8) *)

Lemma sets_flag_monotone {cfg : FreeRTOSConfig} (R : Type) (flag : bool)
    (p : Prog (R * bool)) :
  sets_flag flag p -> Post (fun out => implb flag (snd out) = true) p.
Proof.
  destruct p as [a | X c k]; cbn; [contradiction | ].
  destruct (woken c) as [w | ]; [ | contradiction].
  intros H. constructor. intros x. destruct (H x) as [r ->].
  constructor. cbn. destruct (w x =? pdTRUE), flag; reflexivity.
Qed.

Lemma sets_flag_run {cfg : FreeRTOSConfig} (R : Type) (flag : bool)
    (p : Prog (R * bool)) :
  sets_flag flag p -> ncalls 1 p /\ flag_follows_kernel flag p.
Proof.
  destruct p as [a | X c k]; cbn; [contradiction | ].
  destruct (woken c) as [w | ] eqn:Hw; [ | contradiction].
  intros H. split.
  - constructor. intros x. destruct (H x) as [r ->]. constructor.
  - intros S K s. exists (w (fst (K X c s))). cbn. rewrite Hw.
    split; [reflexivity | ].
    unfold result. cbn. destruct (K X c s) as [x s1].
    destruct (H x) as [r ->]. reflexivity.
Qed.

Lemma isr_methods_set_flag {cfg : FreeRTOSConfig} (T : Type) (default_T : T) :
  Forall (fun m => forall self flag a, sets_flag flag (i_body m self flag a))
    (isr_methods default_T).
Proof.
  unfold isr_methods. split_Forall.
  all: cbn; intros self flag a; destruct_args; cbn; intros x;
    destruct_args; eexists; reflexivity.
Qed.

Lemma isr_methods_start_at_pdFALSE {cfg : FreeRTOSConfig} (T : Type)
    (default_T : T) :
  Forall (fun m => forall self flag a,
              starts_at_pdFALSE (i_body m self flag a))
    (isr_methods default_T).
Proof.
  unfold isr_methods. split_Forall.
  all: cbn; intros self flag a; destruct_args; reflexivity.
Qed.

Lemma implb_trans (a b c : bool) :
  implb a b = true -> implb b c = true -> implb a c = true.
Proof. destruct a, b, c; auto. Qed.

(** C8: every FromISR method with a [bool&] parameter makes one kernel
    call, giving it the address of its [taskWoken], which holds [pdFALSE]
    then, and leaves the referenced [bool] [true] when the kernel left
    [pdTRUE] in [taskWoken] and as it was on entry otherwise, so as it was
    when the kernel did not write to [taskWoken]; hence over any sequence
    of such calls on one variable the variable never goes from [true] to
    [false]. *)
Theorem C8_woken_flag_is_sticky {cfg : FreeRTOSConfig} (T : Type)
    (default_T : T) :
  Forall (fun m => forall self flag a,
              ncalls 1 (i_body m self flag a)
              /\ starts_at_pdFALSE (i_body m self flag a)
              /\ flag_follows_kernel flag (i_body m self flag a)
              /\ (pdFALSE <> pdTRUE ->
                  forall (S : Type) (K : Kernel S) (s : S),
                    left_in_taskWoken K (i_body m self flag a) s
                    = Some pdFALSE ->
                    snd (result K (i_body m self flag a) s) = flag))
    (isr_methods default_T)
  /\ forall (cs : list IsrCall) (flag : bool),
       Forall (fun c => In (ic_method c) (isr_methods default_T)) cs ->
       Post (fun flag' => implb flag flag' = true) (isr_sequence cs flag).
Proof.
  pose proof (isr_methods_set_flag default_T) as Hall.
  pose proof (isr_methods_start_at_pdFALSE default_T) as Hstart.
  split.
  { rewrite Forall_forall in *. intros m Hm self flag a.
    pose proof (Hall m Hm self flag a) as Hset.
    apply sets_flag_run in Hset. destruct Hset as [Hone Hflag].
    split; [exact Hone | ].
    split; [exact (Hstart m Hm self flag a) | ].
    split; [exact Hflag | ].
    intros Hne S K s Hleft. destruct (Hflag S K s) as (w & Hw & ->).
    rewrite Hleft in Hw. injection Hw as <-.
    apply Z.eqb_neq in Hne. now rewrite Hne. }
  intros cs. induction cs as [ | c cs IH]; intros flag Hcs; cbn.
  - constructor. destruct flag; reflexivity.
  - inversion Hcs as [ | c' cs' Hin Hcs' ]; subst.
    rewrite Forall_forall in Hall.
    apply Post_bind with (P := fun flag' => implb flag flag' = true).
    + unfold isr_call, pmap.
      apply Post_bind with (P := fun out => implb flag (snd out) = true).
      * apply sets_flag_monotone. apply (Hall _ Hin).
      * intros out Hout. constructor. exact Hout.
    + intros flag' Hflag'. eapply Post_weaken; [apply (IH flag' Hcs') | ].
      cbn. intros flag'' H. exact (implb_trans _ _ _ Hflag' H).
Qed.

(** An interrupt handler that takes a mutex and gives a semaphore on one
    flag that is already [true]: the flag stays [true]. *)
Lemma C8_handler_keeps_flag :
  Post (fun flag' => implb true flag' = true)
    (isr_sequence
       [ {| ic_method :=
              isr_method "MutexBase" "lockFromISR"
                (fun self flag (_ : unit) =>
                   MutexBase.lockFromISR (cfg := FreeRTOS_port) self flag);
            ic_self := {| MutexBase.handle := Ptr 1 |};
            ic_arg := tt |};
         {| ic_method :=
              isr_method "SemaphoreBase" "giveFromISR"
                (fun self flag (_ : unit) =>
                   SemaphoreBase.giveFromISR (cfg := FreeRTOS_port) self flag);
            ic_self := {| SemaphoreBase.handle := Ptr 2 |};
            ic_arg := tt |} ]
       true).
Proof.
  apply (proj2 (C8_woken_flag_is_sticky (cfg := FreeRTOS_port) (0 : Z))).
  apply Forall_cons; [left; reflexivity | ].
  apply Forall_cons; [right; right; left; reflexivity | ].
  apply Forall_nil.
Defined.

(** The same handler on a flag that is [false]: it ends [true] when the
    kernel reports a woken task, and [false] when it reports none. *)
Example handler_sets_flag :
  result (scripted {| a_status := 1; a_woken := 1; a_handle := Ptr 1;
                      a_value := 0 |})
    (isr_sequence
       [ {| ic_method :=
              isr_method "MutexBase" "lockFromISR"
                (fun self flag (_ : unit) =>
                   MutexBase.lockFromISR (cfg := FreeRTOS_port) self flag);
            ic_self := {| MutexBase.handle := Ptr 1 |};
            ic_arg := tt |} ]
       false)
    0%nat
  = true
  /\ result (scripted all_fine)
       (isr_sequence
          [ {| ic_method :=
                 isr_method "MutexBase" "lockFromISR"
                   (fun self flag (_ : unit) =>
                      MutexBase.lockFromISR (cfg := FreeRTOS_port) self flag);
               ic_self := {| MutexBase.handle := Ptr 1 |};
               ic_arg := tt |} ]
          false)
       0%nat
     = false.
Proof. split; reflexivity. Qed.

(** ** The wake time of a task (C10) *)

(** C10: [taskEntry] first asks the kernel for the tick count, stores it
    in [previousWakeTime] and then runs [taskFunction]; so the first
    [delayUntil] of the task passes that tick count to [xTaskDelayUntil];
    every [delayUntil] passes the address of [previousWakeTime] and leaves in
    the member what the kernel left there, so the next one starts from the
    wake time of the one before. *)
Theorem C10_wake_time_starts_at_entry_tick {cfg : FreeRTOSConfig} :
  (forall taskFunction self (S : Type) (K : Kernel S) (s : S),
     run K (TaskBase.taskEntry taskFunction self) s
     = let (tick, s1) := K _ xTaskGetTickCount s in
       let '(r, s2, t) :=
         run K (taskFunction (TaskBase.set_previousWakeTime tick self)) s1 in
       (r, s2, anycall xTaskGetTickCount :: t))
  /\ (forall self timeIncrement rest,
        peq (TaskBase.taskEntry (periodic (timeIncrement :: rest)) self)
          (Call xTaskGetTickCount
             (fun tick =>
                Call (xTaskDelayUntil tick timeIncrement)
                  (fun x =>
                     periodic rest
                       {| TaskBase.handle := TaskBase.handle self;
                          TaskBase.previousWakeTime := snd x |}))))
  /\ (forall self timeIncrement (S : Type) (K : Kernel S) (s : S),
        let c := xTaskDelayUntil (TaskBase.previousWakeTime self)
                   timeIncrement in
        let self' := snd (result K (TaskBase.delayUntil self timeIncrement) s) in
        calls K (TaskBase.delayUntil self timeIncrement) s = [anycall c]
        /\ TaskBase.previousWakeTime self' = snd (fst (K _ c s))
        /\ TaskBase.handle self' = TaskBase.handle self)
  /\ (forall self i j rest,
        peq (periodic (i :: j :: rest) self)
          (Call (xTaskDelayUntil (TaskBase.previousWakeTime self) i)
             (fun x =>
                Call (xTaskDelayUntil (snd x) j)
                  (fun y =>
                     periodic rest
                       {| TaskBase.handle := TaskBase.handle self;
                          TaskBase.previousWakeTime := snd y |})))).
Proof.
  split; [ | split; [ | split ] ].
  - intros. cbn. destruct (K TickType_t xTaskGetTickCount s) as [tick s1].
    cbn. reflexivity.
  - intros. cbn. constructor. intros tick. cbn. constructor. intros [r w].
    cbn. apply peq_refl.
  - intros self timeIncrement S K s c self'. subst c self'.
    run_call. destruct_args. cbn. repeat split.
  - intros. cbn. constructor. intros [r w]. cbn. constructor. intros [r' w'].
    cbn. apply peq_refl.
Qed.

(** A task that enters at tick 100 and sleeps twice for 10 ticks: the
    kernel is asked to sleep until 110 and then until 120. *)
Example periodic_task_at_tick_100 :
  run (scripted {| a_status := 1; a_woken := 0; a_handle := Ptr 1;
                   a_value := 100 |})
    (TaskBase.taskEntry
       (periodic (cfg := FreeRTOS_port) [10; 10])
       {| TaskBase.handle := Ptr 1; TaskBase.previousWakeTime := 0 |})
    0%nat
  = ({| TaskBase.handle := Ptr 1; TaskBase.previousWakeTime := 120 |}, 3%nat,
     [anycall xTaskGetTickCount; anycall (xTaskDelayUntil 100 10);
      anycall (xTaskDelayUntil 110 10)]).
Proof. reflexivity. Qed.

(** * More of the code: the wrappers and their users *)

(** ** Runs of composed programs *)

Lemma run_bind {S A B : Type} (K : Kernel S) (p : Prog A) (f : A -> Prog B)
    (s : S) :
  run K (bind p f) s
  = let '(a, s1, t1) := run K p s in
    let '(b, s2, t2) := run K (f a) s1 in
    (b, s2, t1 ++ t2).
Proof.
  revert s. induction p as [a | X c k IH]; intros s; cbn.
  - destruct (run K (f a) s) as [[b s2] t2]. reflexivity.
  - destruct (K X c s) as [x s1]. rewrite IH.
    destruct (run K (k x) s1) as [[a s2] t1].
    destruct (run K (f a) s2) as [[b s3] t2]. reflexivity.
Qed.

Lemma calls_trace {S A : Type} (K : Kernel S) (p : Prog A) (s : S) :
  calls K p s = map forget (trace K p s).
Proof.
  unfold calls. revert s. induction p as [a | X c k IH]; intros s; cbn.
  - reflexivity.
  - destruct (K X c s) as [x s1]. specialize (IH x s1).
    destruct (run K (k x) s1) as [[a s2] t]. cbn in *. now rewrite IH.
Qed.

Lemma trace_bind {S A B : Type} (K : Kernel S) (p : Prog A) (f : A -> Prog B)
    (s : S) :
  trace K (bind p f) s
  = trace K p s
    ++ trace K (f (result K p s)) (snd (fst (run K p s))).
Proof.
  unfold result. revert s. induction p as [a | X c k IH]; intros s; cbn.
  - reflexivity.
  - destruct (K X c s) as [x s1]. rewrite IH.
    destruct (run K (k x) s1) as [[a s2] t1]. reflexivity.
Qed.

(** Every run is a run of the relation [Runs]. *)
Lemma Runs_trace {S A : Type} (K : Kernel S) (p : Prog A) (s : S) :
  Runs p (trace K p s) (result K p s).
Proof.
  unfold result. revert s. induction p as [a | X c k IH]; intros s; cbn.
  - split; reflexivity.
  - destruct (K X c s) as [x s1] eqn:E. exists x, (trace K (k x) s1).
    split; [reflexivity | ]. specialize (IH x s1).
    destruct (run K (k x) s1) as [[a s2] t1]. exact IH.
Qed.

Lemma Runs_bind {A B : Type} (p : Prog A) (f : A -> Prog B)
    (t1 t2 : list Answered) (a : A) (b : B) :
  Runs p t1 a -> Runs (f a) t2 b -> Runs (bind p f) (t1 ++ t2) b.
Proof.
  revert t1. induction p as [a' | X c k IH]; intros t1; cbn.
  - intros [-> ->]. auto.
  - intros (x & t' & -> & H) H2. exists x, (t' ++ t2). split; [reflexivity | ].
    now apply IH.
Qed.

(** [all_calls] speaks of every run. *)
Lemma all_calls_run {S A : Type} (P : AnyCall -> Prop) (p : Prog A)
    (K : Kernel S) (s : S) :
  all_calls P p -> Forall P (calls K p s).
Proof.
  unfold calls. revert s. induction p as [a | X c k IH]; intros s; cbn.
  - constructor.
  - intros [Hc Hk]. destruct (K X c s) as [x s1]. specialize (IH x s1 (Hk x)).
    destruct (run K (k x) s1) as [[a s2] t]. cbn in *. constructor; auto.
Qed.

(** ** Bitsets built from what the kernel returns *)

Lemma EventBits_width_pos {cfg : FreeRTOSConfig} :
  0 <= EventGroupBase.EventBits_width.
Proof.
  unfold EventGroupBase.EventBits_width.
  destruct (configUSE_16_BIT_TICKS =? 1); lia.
Qed.

Lemma low_bits_one_call {X R : Type} (w : Z) (c : KCall X) (v : X -> Z)
    (out : R -> Z) (k : X -> R) :
  0 <= w ->
  (forall x, out (k x) = Z.land (v x) (Z.ones w)) ->
  low_bits w c v out (Call c (fun x => Ret (k x))).
Proof.
  intros Hw Hk S K s. unfold calls, result; cbn.
  destruct (K X c s) as [x s1]; cbn.
  rewrite Hk, Z.land_ones by assumption.
  split; [reflexivity | split; [reflexivity | ]].
  apply Z.mod_pos_bound. apply Z.pow_pos_nonneg; lia.
Qed.

(** X1: the [EventBits] that [wait], [set], [clear], [get], [getFromISR]
    and [sync] return are the low 8 or 24 bits (the tick width less the
    kernel's 8 control bits) of what the one kernel call returned: a number
    from 0 to below [2 ^ width], and the kernel's own number when that has no
    higher bit set. *)
Theorem EventBits_are_the_low_bits_of_the_answer {cfg : FreeRTOSConfig}
    (self : EventGroupBase.t) (bits bitsToWaitFor : Z)
    (clearOnExit waitForAllBits : bool) (ticksToWait : TickType_t) :
  let w := EventGroupBase.EventBits_width in
  let h := EventGroupBase.handle self in
  let id := fun v : Z => v in
  w = TickType_bits - 8
  /\ low_bits w
       (xEventGroupWaitBits h bitsToWaitFor
          (if clearOnExit then pdTRUE else pdFALSE)
          (if waitForAllBits then pdTRUE else pdFALSE) ticksToWait) id id
       (EventGroupBase.wait self bitsToWaitFor clearOnExit waitForAllBits
          ticksToWait)
  /\ low_bits w (xEventGroupSetBits h bits) id id
       (EventGroupBase.set self bits)
  /\ low_bits w (xEventGroupClearBits h bits) id id
       (EventGroupBase.clear self bits)
  /\ low_bits w (xEventGroupGetBits h) id id (EventGroupBase.get self)
  /\ low_bits w (xEventGroupGetBitsFromISR h) id id
       (EventGroupBase.getFromISR self)
  /\ low_bits w (xEventGroupSync h bits bitsToWaitFor ticksToWait) id id
       (EventGroupBase.sync self bits bitsToWaitFor ticksToWait)
  /\ (forall v, 0 <= v < 2 ^ w -> EventGroupBase.EventBits v = v).
Proof.
  intros w h id. split.
  { unfold w, EventGroupBase.EventBits_width, TickType_bits.
    destruct (configUSE_16_BIT_TICKS =? 1); reflexivity. }
  repeat apply conj.
  1-6: apply low_bits_one_call; [apply EventBits_width_pos | reflexivity].
  intros v Hv. unfold EventGroupBase.EventBits.
  rewrite Z.land_ones by apply EventBits_width_pos.
  now apply Z.mod_small.
Qed.

(** X2: the [NotificationBits] that [notifyAndQuery], both
    [notifyAndQueryFromISR], [notifyWait], [notifyValueClear] and
    [notifyTake] return are the low 32 bits of the notification value the
    one kernel call gave: all of a [uint32_t]. *)
Theorem NotificationBits_are_the_low_32_bits_of_the_answer
    {cfg : FreeRTOSConfig} (self : TaskBase.t) (flag : bool)
    (action : TaskBase.NotifyAction) (value onEntry onExit : Z)
    (index : UBaseType_t) (ticksToWait : TickType_t)
    (clearCountOnExit : bool) :
  let h := TaskBase.handle self in
  let a := TaskBase.to_eNotifyAction action in
  let id := fun v : Z => v in
  low_bits 32 (xTaskNotifyAndQueryIndexed h index value a) snd snd
    (TaskBase.notifyAndQuery self action value index)
  /\ low_bits 32
       (xTaskNotifyAndQueryIndexedFromISR h index value a (Some pdFALSE))
       (fun x => snd (fst x)) (fun r => snd (fst r))
       (TaskBase.notifyAndQueryFromISR self flag action value index)
  /\ low_bits 32 (xTaskNotifyAndQueryIndexedFromISR h index value a None)
       (fun x => snd (fst x)) snd
       (TaskBase.notifyAndQueryFromISR' self action value index)
  /\ low_bits 32 (xTaskNotifyWaitIndexed index onEntry onExit ticksToWait)
       snd snd (TaskBase.notifyWait ticksToWait onEntry onExit index)
  /\ low_bits 32 (ulTaskNotifyValueClearIndexed h index value) id id
       (TaskBase.notifyValueClear self value index)
  /\ low_bits 32
       (ulTaskNotifyTakeIndexed index (Z.b2z clearCountOnExit) ticksToWait)
       id id (TaskBase.notifyTake ticksToWait clearCountOnExit index)
  /\ (forall v, 0 <= v < 2 ^ 32 -> TaskBase.NotificationBits v = v).
Proof.
  intros h a id.
  assert (Hsmall : forall v, 0 <= v < 2 ^ 32 -> TaskBase.NotificationBits v = v).
  { intros v Hv. unfold TaskBase.NotificationBits.
    rewrite Z.land_ones by lia. now apply Z.mod_small. }
  repeat apply conj; try exact Hsmall.
  all: subst h a id; intros S K s;
    unfold calls, result; cbn; unfold TaskBase.to_ulong; unfold_port_types.
  all: match goal with
       | |- context [?k ?X ?c ?z] =>
           match type of c with KCall _ => destruct (k X c z) as [x s1] end
       end; cbn; destruct_args; cbn.
  all: unfold TaskBase.NotificationBits; rewrite Z.land_ones by lia.
  all: split; [reflexivity | split; [reflexivity | ]].
  all: apply Z.mod_pos_bound; lia.
Qed.

(** ** The life of a timer *)

(** X3: [deleteTimer] asks the kernel to delete the timer whatever the
    handle is, reports whether the command was accepted and clears the
    handle then; the destructor that runs afterwards makes no kernel call
    when the command was accepted, so a timer is not deleted twice, and
    repeats the deletion with [deleteBlockTime] when it was not and the
    timer was valid. *)
Theorem deleted_timer_is_not_deleted_again {cfg : FreeRTOSConfig}
    (self : TimerBase.t) (blockTime : TickType_t)
    (S : Type) (K : Kernel S) (s : S) :
  let h := TimerBase.handle self in
  let c := xTimerDelete h blockTime in
  let r := fst (K _ c s) in
  let '(deleted, self') := result K (TimerBase.deleteTimer self blockTime) s in
  calls K (TimerBase.deleteTimer self blockTime) s = [anycall c]
  /\ deleted = (r =? pdPASS)
  /\ self' = (if deleted then TimerBase.set_handle NULL self else self)
  /\ TimerBase.isValid self'
     = (if deleted then false else TimerBase.isValid self)
  /\ calls K
       ('(_, self') <- TimerBase.deleteTimer self blockTime ;;
        TimerBase.destructor self') s
     = anycall c
       :: (if deleted || negb (TimerBase.isValid self) then []
           else [anycall (xTimerDelete h (TimerBase.deleteBlockTime self))]).
Proof.
  intros h c r. subst h c r. unfold calls, result.
  rewrite run_bind. cbn. unfold_port_types.
  destruct (K Z (xTimerDelete (TimerBase.handle self) blockTime) s)
    as [r s1].
  cbn. destruct (r =? pdPASS) eqn:E; cbn.
  - repeat split; reflexivity.
  - unfold TimerBase.destructor, TimerBase.isValid.
    destruct (TimerBase.handle self) eqn:Eh; cbn.
    + repeat split; reflexivity.
    + rewrite Eh. unfold_port_types.
      destruct (K Z (xTimerDelete (Ptr addr)
                       (TimerBase.getDeleteBlockTime self)) s1) as [r2 s2].
      cbn. destruct (r2 =? pdPASS); cbn; repeat split; reflexivity.
Qed.

Lemma last_cons_default {A : Type} (x : A) (l : list A) (a b : A) :
  last (x :: l) a = last (x :: l) b.
Proof.
  revert x. induction l as [| y l IH]; intros x.
  - reflexivity.
  - change (last (y :: l) a = last (y :: l) b). apply IH.
Qed.

Lemma setDeleteBlockTime_fold (ds : list TickType_t) (self : TimerBase.t) :
  let self' := fold_left TimerBase.setDeleteBlockTime ds self in
  TimerBase.handle self' = TimerBase.handle self
  /\ TimerBase.getDeleteBlockTime self'
     = last ds (TimerBase.deleteBlockTime self).
Proof.
  revert self. induction ds as [| d ds IH]; intros self; cbn.
  - split; reflexivity.
  - destruct (IH (TimerBase.setDeleteBlockTime self d)) as [Hh Hd].
    cbn in Hh, Hd. split; [exact Hh | ].
    rewrite Hd. destruct ds as [| d' ds]; [reflexivity | ].
    change (last (d :: d' :: ds) (TimerBase.deleteBlockTime self))
      with (last (d' :: ds) (TimerBase.deleteBlockTime self)).
    apply last_cons_default.
Qed.

(** X4: the destructor of a timer waits for the delete command as long as
    the last [setDeleteBlockTime] said, or as the constructor was told when
    there was none; [setDeleteBlockTime] leaves the handle alone,
    [getDeleteBlockTime] reads the time back, and a timer whose creation
    failed is destroyed without a kernel call. *)
Theorem destructor_waits_the_last_delete_block_time {cfg : FreeRTOSConfig}
    (this : ObjAddr) (period : TickType_t) (autoReload : bool)
    (name : string) (deleteBlockTime : TickType_t) (ds : list TickType_t) :
  let as_last_set := fun self =>
    let self' := fold_left TimerBase.setDeleteBlockTime ds self in
    let d := last ds deleteBlockTime in
    TimerBase.handle self' = TimerBase.handle self
    /\ TimerBase.getDeleteBlockTime self' = d
    /\ peq (TimerBase.destructor self')
         (if TimerBase.isValid self then
            call (xTimerDelete (TimerBase.handle self) d) ;; Ret tt
          else Ret tt) in
  Post as_last_set
    (Timer.constructor this period autoReload name deleteBlockTime)
  /\ Post as_last_set
       (StaticTimer.constructor this period autoReload name deleteBlockTime).
Proof.
  intros as_last_set.
  assert (H : forall h,
             as_last_set
               (TimerBase.set_handle h (TimerBase.init deleteBlockTime))).
  { intros h. unfold as_last_set.
    set (self := TimerBase.set_handle h (TimerBase.init deleteBlockTime)).
    destruct (setDeleteBlockTime_fold ds self) as [Hh Hd]. cbn in Hh, Hd.
    cbn. split; [exact Hh | split; [exact Hd | ]].
    unfold TimerBase.destructor, TimerBase.isValid, TimerBase.deleteTimer.
    rewrite Hh, Hd. cbn. destruct h as [| addr]; cbn.
    - constructor.
    - constructor. intros r. destruct (r =? pdPASS); constructor. }
  split; constructor; intros h; constructor; apply H.
Qed.

(** ** The two overloads of the FromISR methods *)

(** X5: each of the 19 FromISR methods that exist with and without the
    [bool& higherPriorityTaskWoken] parameter makes the same kernel call
    with the same arguments in both overloads, but for [NULL] in the place
    of the address of [taskWoken], and returns the same value; and what the
    flag holds on entry changes neither the call nor the value returned. *)
Theorem FromISR_overloads_agree {cfg : FreeRTOSConfig} (T : Type)
    (default_T : T) :
  List.length (isr_pairs default_T) = 19%nat
  /\ Forall (fun p => overloads_agree p /\ flag_is_output_only p)
       (isr_pairs default_T).
Proof.
  split; [reflexivity | ].
  unfold isr_pairs. split_Forall.
  all: split; [intros self flag a | intros self flag flag' a]; cbn in *;
    destruct_args; cbn; constructor; intros x; destruct_args; cbn;
    constructor.
Qed.

(** ** What the methods call *)

(** X6: a method whose name has [FromISR] in it calls only kernel
    functions named [...FromISR] or [..._FROM_ISR], and a method whose name
    has not calls none of them: the interrupt-safe part of the kernel API is
    reached through the methods named so, 48 of the 131, and through them
    only. *)
Theorem methods_call_FromISR_functions_as_named {cfg : FreeRTOSConfig}
    (T : Type) (default_T : T) :
  let methods :=
    forwarding_methods default_T ++ [deleteTimer_method]
    ++ protected_methods in
  List.length methods = 131%nat
  /\ List.length (filter (fun m => contains "FromISR" (m_name m)) methods)
     = 48%nat
  /\ Forall calls_as_named methods.
Proof.
  intros methods. subst methods.
  split; [reflexivity | split; [reflexivity | ]].
  unfold protected_methods. unfold_interface. split_Forall.
  all: unfold calls_as_named; all_calls_solve.
Qed.

(** X7: no public or protected method creates or deletes a kernel object,
    but for [TimerBase::deleteTimer], whose one call is [xTimerDelete]: the
    kernel object lives from the constructor to the destructor. *)
Theorem methods_keep_the_kernel_object {cfg : FreeRTOSConfig}
    (T : Type) (default_T : T) :
  Forall keeps_kernel_object (forwarding_methods default_T ++ protected_methods)
  /\ (forall self blockTime,
        all_calls (fun ac => name_of ac = "xTimerDelete"%string)
          (m_body deleteTimer_method self blockTime)).
Proof.
  split.
  - unfold protected_methods. unfold_interface. split_Forall.
    all: unfold keeps_kernel_object; all_calls_solve.
  - all_calls_solve.
Qed.

(** ** The examples: tasks *)

Lemma calls_bind {S A B : Type} (K : Kernel S) (p : Prog A) (f : A -> Prog B)
    (s : S) :
  calls K (bind p f) s
  = calls K p s ++ calls K (f (result K p s)) (snd (fst (run K p s))).
Proof.
  unfold calls, result. rewrite run_bind.
  destruct (run K p s) as [[a s1] t1]. cbn.
  destruct (run K (f a) s1) as [[b s2] t2]. reflexivity.
Qed.

Lemma count_calls_app (f : AnyCall -> bool) (t1 t2 : list AnyCall) :
  count_calls f (t1 ++ t2) = (count_calls f t1 + count_calls f t2)%nat.
Proof. unfold count_calls. now rewrite filter_app, length_app. Qed.

Lemma nesting_app (enter exit : string) (t1 t2 : list AnyCall) :
  forall d d1 m1 d2 m2,
    nesting enter exit d t1 = Some (d1, m1) ->
    nesting enter exit d1 t2 = Some (d2, m2) ->
    nesting enter exit d (t1 ++ t2) = Some (d2, Nat.max m1 m2).
Proof.
  induction t1 as [| ac t1 IH]; intros d d1 m1 d2 m2; cbn [nesting app].
  - intros [= <- <-] H2. rewrite H2. f_equal. f_equal.
    assert (d <= m2)%nat; [ | max_lia].
    clear - H2. revert d d2 m2 H2.
    induction t2 as [| ac t2 IH]; intros d d2 m2; cbn [nesting app].
    + intros [= <- <-]. max_lia.
    + destruct (named enter ac).
      * destruct (nesting enter exit (S d) t2) as [[e m] | ] eqn:E;
          [ | discriminate].
        intros [= <- <-]. max_lia.
      * destruct (named exit ac).
        -- destruct d as [| d']; [discriminate | ].
           destruct (nesting enter exit d' t2) as [[e m] | ] eqn:E;
             [ | discriminate].
           intros [= <- <-]. max_lia.
        -- apply IH.
  - destruct (named enter ac).
    + destruct (nesting enter exit (S d) t1) as [[e m] | ] eqn:E;
        [ | discriminate].
      intros [= <- <-] H2. rewrite (IH _ _ _ _ _ E H2). f_equal. f_equal. max_lia.
    + destruct (named exit ac).
      * destruct d as [| d']; [discriminate | ].
        destruct (nesting enter exit d' t1) as [[e m] | ] eqn:E;
          [ | discriminate].
        intros [= <- <-] H2. rewrite (IH _ _ _ _ _ E H2).
        f_equal. f_equal. max_lia.
      * apply IH.
Qed.

Lemma outside_app (name enter exit : string) (t1 t2 : list AnyCall) :
  forall d d1 m1,
    nesting enter exit d t1 = Some (d1, m1) ->
    outside name enter exit d (t1 ++ t2)
    = outside name enter exit d t1 && outside name enter exit d1 t2.
Proof.
  induction t1 as [| ac t1 IH]; intros d d1 m1; cbn.
  - now intros [= <- <-].
  - destruct (named enter ac).
    + destruct (nesting enter exit (S d) t1) as [[e m] | ] eqn:E;
        [ | discriminate].
      intros [= <- <-]. now apply IH with (m1 := m).
    + destruct (named exit ac).
      * destruct d as [| d']; [discriminate | ].
        destruct (nesting enter exit d' t1) as [[e m] | ] eqn:E;
          [ | discriminate].
        intros [= <- <-]. now apply IH with (m1 := m).
      * intros H. rewrite (IH _ _ _ H). now rewrite andb_assoc.
Qed.

(** X8: in the task of [examples/Kernel/enterExitCritical.cpp] the critical
    sections are balanced: in any number of passes of the loop no section
    is closed that is not open, the nesting is never deeper than 2, which
    it reaches in [demoFunction], and it is back at 0 after every pass. *)
Theorem critical_sections_are_balanced (n : nat) (S : Type) (K : Kernel S)
    (s : S) :
  let t := calls K (enterExitCritical_cpp.taskFunction n) s in
  nesting "taskENTER_CRITICAL" "taskEXIT_CRITICAL" 0 t
  = Some (0%nat, match n with O => 0%nat | _ => 2%nat end)
  /\ count_calls (named "taskENTER_CRITICAL") t = (2 * n)%nat
  /\ count_calls (named "taskEXIT_CRITICAL") t = (2 * n)%nat
  /\ List.length t = (4 * n)%nat.
Proof.
  revert s. induction n as [| n IH]; intros s.
  - cbn. repeat split; reflexivity.
  - unfold enterExitCritical_cpp.taskFunction in *.
    change (passes (Datatypes.S n) enterExitCritical_cpp.loop_body)
      with (enterExitCritical_cpp.loop_body ;;
            passes n enterExitCritical_cpp.loop_body).
    cbv zeta. rewrite calls_bind.
    set (s' := snd (fst (run K enterExitCritical_cpp.loop_body s))).
    assert (Hbody : calls K enterExitCritical_cpp.loop_body s
                    = [anycall taskENTER_CRITICAL; anycall taskENTER_CRITICAL;
                       anycall taskEXIT_CRITICAL; anycall taskEXIT_CRITICAL]).
    { run_call. reflexivity. }
    rewrite Hbody. destruct (IH s') as (Hn & He & Hx & Hl). cbv zeta in *.
    repeat split.
    + erewrite nesting_app; [ | reflexivity | exact Hn].
      f_equal. f_equal. destruct n; reflexivity.
    + rewrite count_calls_app, He. cbn. lia.
    + rewrite count_calls_app, Hx. cbn. lia.
    + rewrite length_app, Hl. cbn. lia.
Qed.

Lemma resumeAll_pass {cfg : FreeRTOSConfig} (S : Type) (K : Kernel S) (s : S) :
  exists r,
    trace K resumeAll_cpp.loop_body s
    = answered vTaskSuspendAll tt :: answered xTaskResumeAll r
      :: (if r =? pdTRUE then [] else [answered taskYIELD tt]).
Proof.
  cbn. destruct (K unit vTaskSuspendAll s) as [[] s1].
  unfold_port_types. destruct (K Z xTaskResumeAll s1) as [r s2].
  exists r. cbn. destruct (r =? pdTRUE); cbn; [reflexivity | ].
  destruct (K unit taskYIELD s2) as [[] s3]. reflexivity.
Qed.

(** X9: the task of [examples/Kernel/resumeAll.cpp] suspends and resumes
    the scheduler once in every pass of its loop, never suspends it twice,
    and yields exactly after the [xTaskResumeAll] calls that returned
    something other than [pdTRUE], so never while the scheduler is
    suspended. *)
Theorem scheduler_is_resumed_before_the_yield {cfg : FreeRTOSConfig}
    (n : nat) (S : Type) (K : Kernel S) (s : S) :
  let tr := trace K (resumeAll_cpp.taskFunction n) s in
  let t := map forget tr in
  nesting "vTaskSuspendAll" "xTaskResumeAll" 0 t
  = Some (0%nat, match n with O => 0%nat | _ => 1%nat end)
  /\ outside "taskYIELD" "vTaskSuspendAll" "xTaskResumeAll" 0 t = true
  /\ count_calls (named "vTaskSuspendAll") t = n
  /\ count_calls (named "xTaskResumeAll") t = n
  /\ count_calls (named "taskYIELD") t
     = List.length (filter (reported_other pdTRUE) tr).
Proof.
  revert s. induction n as [| n IH]; intros s.
  - cbn. repeat split; reflexivity.
  - unfold resumeAll_cpp.taskFunction in *.
    change (passes (Datatypes.S n) resumeAll_cpp.loop_body)
      with (resumeAll_cpp.loop_body ;; passes n resumeAll_cpp.loop_body).
    cbv zeta. rewrite trace_bind.
    set (s' := snd (fst (run K resumeAll_cpp.loop_body s))).
    destruct (resumeAll_pass K s) as [r Hbody]. rewrite Hbody.
    destruct (IH s') as (Hn & Ho & Hs & Hr & Hy). cbv zeta in *.
    rewrite map_app, filter_app, length_app, <- Hy.
    assert (Hpass :
      nesting "vTaskSuspendAll" "xTaskResumeAll" 0
        (map forget
           (answered vTaskSuspendAll tt :: answered xTaskResumeAll r
            :: (if r =? pdTRUE then [] else [answered taskYIELD tt])))
      = Some (0%nat, 1%nat)).
    { destruct (r =? pdTRUE); reflexivity. }
    repeat split.
    + erewrite nesting_app; [ | exact Hpass | exact Hn].
      f_equal. f_equal. destruct n; reflexivity.
    + erewrite outside_app; [ | exact Hpass]. rewrite Ho.
      destruct (r =? pdTRUE); reflexivity.
    + rewrite count_calls_app, Hs. destruct (r =? pdTRUE); reflexivity.
    + rewrite count_calls_app, Hr. destruct (r =? pdTRUE); reflexivity.
    + rewrite count_calls_app. f_equal.
      unfold reported_other; cbn. destruct (r =? pdTRUE); reflexivity.
Qed.

(** X10: [MyOtherTask::taskFunction] of the mutex examples makes no kernel
    call with an invalid mutex; with a valid one it takes the mutex with
    [portMAX_DELAY] and, exactly when that [xSemaphoreTake] returned
    [pdTRUE], gives it back: once in the first example, and in the second
    three times after two more takes with 10 ticks, whose results are not
    looked at, so that the three gives follow whatever these two takes
    returned. *)
Theorem mutex_is_given_back_iff_taken {cfg : FreeRTOSConfig}
    (portMAX_DELAY : TickType_t) (mutex : MutexBase.t)
    (S : Type) (K : Kernel S) (s : S) :
  let h := MutexBase.handle mutex in
  let take := xSemaphoreTake h portMAX_DELAY in
  let taken := fst (K _ take s) =? pdTRUE in
  calls K (lock_cpp.taskFunction portMAX_DELAY mutex) s
  = (if MutexBase.isValid mutex then
       anycall take :: (if taken then [anycall (xSemaphoreGive h)] else [])
     else [])
  /\ calls K (lock_cpp.taskFunction_thrice portMAX_DELAY mutex) s
     = (if MutexBase.isValid mutex then
          anycall take
          :: (if taken then
                [anycall (xSemaphoreTake h 10); anycall (xSemaphoreTake h 10);
                 anycall (xSemaphoreGive h); anycall (xSemaphoreGive h);
                 anycall (xSemaphoreGive h)]
              else [])
        else []).
Proof.
  intros h take taken. subst h take taken.
  unfold lock_cpp.taskFunction, lock_cpp.taskFunction_thrice, calls.
  destruct (MutexBase.isValid mutex); [ | split; reflexivity].
  cbn. unfold_port_types.
  destruct (K Z (xSemaphoreTake (MutexBase.handle mutex) portMAX_DELAY) s)
    as [r s1].
  cbn. destruct (r =? pdTRUE); cbn; [ | split; reflexivity].
  split.
  - destruct (K Z (xSemaphoreGive (MutexBase.handle mutex)) s1) as [r1 s2].
    reflexivity.
  - repeat match goal with
           | |- context [?k ?X ?c ?z] =>
               match type of c with KCall _ => destruct (k X c z) end
           end; cbn.
    reflexivity.
Qed.

(** At a kernel that grants the first take and lets the next two time out,
    the second example still gives the mutex three times. *)
Example unchecked_takes_are_given_back :
  map status_of
    (trace first_call_only
       (lock_cpp.taskFunction_thrice (cfg := FreeRTOS_port) 65535
          {| MutexBase.handle := Ptr 1 |})
       0%nat)
  = [Some 1; Some 0; Some 0; Some 0; Some 0; Some 0]
  /\ calls first_call_only
       (lock_cpp.taskFunction_thrice (cfg := FreeRTOS_port) 65535
          {| MutexBase.handle := Ptr 1 |})
       0%nat
     = [anycall (xSemaphoreTake (Ptr 1) 65535);
        anycall (xSemaphoreTake (Ptr 1) 10);
        anycall (xSemaphoreTake (Ptr 1) 10);
        anycall (xSemaphoreGive (Ptr 1)); anycall (xSemaphoreGive (Ptr 1));
        anycall (xSemaphoreGive (Ptr 1))].
Proof. split; reflexivity. Qed.

Lemma bufferISR_with_trace {cfg : FreeRTOSConfig} (rxQueue : QueueBase.t)
    (cIn : ascii) (S : Type) (K : Kernel S) (s : S) :
  let h := QueueBase.handle rxQueue in
  exists r w,
    trace K (sendToFrontFromISR_cpp.bufferISR_with rxQueue cIn) s
    = (if Ascii.eqb cIn "E" then
         answered (xQueueSendToFrontFromISR h cIn (Some pdFALSE)) (r, w)
       else
         answered (xQueueSendToBackFromISR h cIn (Some pdFALSE)) (r, w))
      :: (if w =? pdTRUE then [answered taskYIELD tt] else []).
Proof.
  unfold sendToFrontFromISR_cpp.bufferISR_with,
    sendToFrontFromISR_cpp.emergencyMessage.
  destruct (Ascii.eqb cIn "E"); cbn; unfold_port_types.
  - answer_as r w s1.
    exists r, w. cbn. unfold setIfWoken.
    destruct (w =? pdTRUE); cbn; [ | reflexivity].
    destruct (K unit taskYIELD s1) as [[] s2]. reflexivity.
  - answer_as r w s1.
    exists r, w. cbn. unfold setIfWoken.
    destruct (w =? pdTRUE); cbn; [ | reflexivity].
    destruct (K unit taskYIELD s1) as [[] s2]. reflexivity.
Qed.

(** X11: [bufferISR] of [examples/Queue/sendToFrontFromISR.cpp] queues the
    byte it got exactly once, at the front when it is the emergency message
    ['E'] and at the back otherwise, and yields if and only if the kernel
    left [pdTRUE] in [taskWoken]; with the example's [getByte], which gives
    ['A'], nothing is ever queued at the front. *)
Theorem bufferISR_queues_once_and_yields_iff_woken {cfg : FreeRTOSConfig}
    (rxQueue : QueueBase.t) (cIn : ascii) (S : Type) (K : Kernel S) (s : S) :
  let h := QueueBase.handle rxQueue in
  (exists r w,
     trace K (sendToFrontFromISR_cpp.bufferISR_with rxQueue cIn) s
     = (if Ascii.eqb cIn "E" then
          answered (xQueueSendToFrontFromISR h cIn (Some pdFALSE)) (r, w)
        else
          answered (xQueueSendToBackFromISR h cIn (Some pdFALSE)) (r, w))
       :: (if w =? pdTRUE then [answered taskYIELD tt] else []))
  /\ count_calls (named "xQueueSendToFrontFromISR")
       (calls K (sendToFrontFromISR_cpp.bufferISR rxQueue) s) = 0%nat
  /\ count_calls (named "xQueueSendToBackFromISR")
       (calls K (sendToFrontFromISR_cpp.bufferISR rxQueue) s) = 1%nat.
Proof.
  intros h. split; [apply bufferISR_with_trace | ].
  rewrite calls_trace. unfold sendToFrontFromISR_cpp.bufferISR.
  destruct (bufferISR_with_trace rxQueue sendToFrontFromISR_cpp.getByte K s)
    as (r & w & ->).
  cbn. destruct (w =? pdTRUE); split; reflexivity.
Qed.

(** ** The examples: interrupt service routines *)

Lemma tick_incr_small {cfg : FreeRTOSConfig} (t : TickType_t) :
  0 <= t < 10 -> tick_incr t = t + 1.
Proof.
  intros Ht. unfold tick_incr, TickType_bits.
  destruct (configUSE_16_BIT_TICKS =? 1); apply Z.mod_small; lia.
Qed.

Lemma vTimerISR_run {cfg : FreeRTOSConfig} (binarySemaphore : SemaphoreBase.t)
    (count : TickType_t) (S : Type) (K : Kernel S) (s : S) :
  0 <= count < 10 ->
  let '(count', _, t) :=
    run K (giveFromISR_cpp.vTimerISR binarySemaphore count) s in
  count' = (count + 1) mod 10
  /\ Z.of_nat (count_calls (named "xSemaphoreGiveFromISR") t)
     = (count + 1) / 10
  /\ count_calls (named "taskYIELD") t = 1%nat.
Proof.
  intros Hc. unfold giveFromISR_cpp.vTimerISR.
  rewrite (tick_incr_small Hc). unfold giveFromISR_cpp.TICKS_TO_WAIT.
  destruct (count + 1 >=? 10) eqn:E; cbn; unfold_port_types.
  - assert (count = 9) as -> by lia.
    answer_all.
    repeat split; reflexivity.
  - answer_all.
    rewrite Z.mod_small, Z.div_small by lia. repeat split; reflexivity.
Qed.

Lemma interrupts_run {cfg : FreeRTOSConfig} (binarySemaphore : SemaphoreBase.t)
    (n : nat) :
  forall (count : TickType_t) (S : Type) (K : Kernel S) (s : S),
    0 <= count < 10 ->
    let '(count', _, t) :=
      run K (giveFromISR_cpp.interrupts binarySemaphore n count) s in
    count' = (count + Z.of_nat n) mod 10
    /\ Z.of_nat (count_calls (named "xSemaphoreGiveFromISR") t)
       = (count + Z.of_nat n) / 10
    /\ count_calls (named "taskYIELD") t = n.
Proof.
  induction n as [| n IH]; intros count S K s Hc.
  - cbn. rewrite Z.add_0_r, Z.mod_small, Z.div_small by lia.
    repeat split; reflexivity.
  - cbn [giveFromISR_cpp.interrupts]. rewrite run_bind.
    pose proof (vTimerISR_run binarySemaphore K s Hc) as H1.
    destruct (run K (giveFromISR_cpp.vTimerISR binarySemaphore count) s)
      as [[c1 s1] t1].
    destruct H1 as (Hc1 & Hg1 & Hy1).
    assert (Hc1' : 0 <= c1 < 10).
    { rewrite Hc1. apply Z.mod_pos_bound. lia. }
    specialize (IH c1 S K s1 Hc1').
    destruct (run K (giveFromISR_cpp.interrupts binarySemaphore n c1) s1)
      as [[c2 s2] t2].
    destruct IH as (Hc2 & Hg2 & Hy2).
    rewrite !count_calls_app, Hy1, Hy2, Nat2Z.inj_add, Hg1, Hg2, Hc2, Hc1.
    rewrite Nat2Z.inj_succ.
    assert (Hdm := Z.div_mod (count + 1) 10 ltac:(lia)).
    replace (count + Z.succ (Z.of_nat n))
      with ((count + 1) mod 10 + Z.of_nat n + (count + 1) / 10 * 10) by lia.
    rewrite Z.mod_add, Z.div_add by lia.
    repeat split; lia.
Qed.

(** X12: [vTimerISR] of [examples/Semaphore/giveFromISR.cpp], whose tick
    count is a [static] local that starts at 0, gives the semaphore at every
    tenth interrupt and at no other: after [n] interrupts the count is [n mod
    10], which never reaches 10, the semaphore has been given [n / 10] times,
    and the routine has yielded [n] times, at every interrupt and not only
    when a task was woken. *)
Theorem semaphore_is_given_every_tenth_interrupt {cfg : FreeRTOSConfig}
    (binarySemaphore : SemaphoreBase.t) (n : nat)
    (S : Type) (K : Kernel S) (s : S) :
  let '(count, _, t) :=
    run K (giveFromISR_cpp.interrupts binarySemaphore n 0) s in
  count = Z.of_nat n mod 10
  /\ 0 <= count < giveFromISR_cpp.TICKS_TO_WAIT
  /\ Z.of_nat (count_calls (named "xSemaphoreGiveFromISR") t)
     = Z.of_nat n / 10
  /\ count_calls (named "taskYIELD") t = n.
Proof.
  pose proof (@interrupts_run cfg binarySemaphore n 0 S K s ltac:(lia)) as H.
  destruct (run K (giveFromISR_cpp.interrupts binarySemaphore n 0) s)
    as [[count s1] t].
  destruct H as (Hc & Hg & Hy). rewrite Z.add_0_l in Hc, Hg.
  repeat split; try assumption.
  - rewrite Hc. apply Z.mod_pos_bound. lia.
  - rewrite Hc. unfold giveFromISR_cpp.TICKS_TO_WAIT.
    apply Z.mod_pos_bound. lia.
Qed.

Lemma while_receive_Runs {cfg : FreeRTOSConfig} (queue : QueueBase.t)
    (default_char : ascii) (answers : list (ascii * BaseType_t)) :
  forall (fuel : nat) (flag : bool) (sent : list ascii)
         (r : BaseType_t) (item : ascii) (w : BaseType_t),
    (List.length answers < fuel)%nat ->
    r <> pdTRUE ->
    let c := receiveFromISR_cpp.receive_call queue default_char in
    Runs (receiveFromISR_cpp.while_receive queue default_char fuel flag sent)
      (map (fun a => answered c (pdTRUE, fst a, snd a)) answers
       ++ [answered c (r, item, w)])
      (Some (flag || existsb (fun x => x =? pdTRUE) (map snd answers ++ [w]),
             sent ++ map fst answers)).
Proof.
  induction answers as [| [ch wk] answers IH];
    intros fuel flag sent r item w Hfuel Hr c.
  - destruct fuel as [| fuel]; [cbn in Hfuel; lia | ].
    cbn. exists (r, item, w), []. split; [reflexivity | ].
    apply Z.eqb_neq in Hr. rewrite Hr. cbn. split; [reflexivity | ].
    unfold setIfWoken. rewrite app_nil_r, orb_false_r.
    destruct (w =? pdTRUE), flag; reflexivity.
  - destruct fuel as [| fuel]; [cbn in Hfuel; lia | ].
    cbn in Hfuel.
    cbn. eexists (pdTRUE, ch, wk), _. split; [reflexivity | ].
    rewrite Z.eqb_refl. cbn.
    specialize (IH fuel (setIfWoken wk flag) (sent ++ [ch]) r item w
                  ltac:(lia) Hr).
    cbv zeta in IH. rewrite <- app_assoc in IH. cbn in IH.
    replace (flag || ((wk =? pdTRUE)
                      || existsb (fun x => x =? pdTRUE)
                           (map snd answers ++ [w])))
      with (setIfWoken wk flag
            || existsb (fun x => x =? pdTRUE) (map snd answers ++ [w])).
    + exact IH.
    + unfold setIfWoken. destruct (wk =? pdTRUE), flag; reflexivity.
Qed.

(** X13: when the kernel hands over the characters of [answers] with
    [pdTRUE] and then returns something else, [ISR_Routine] of
    [examples/Queue/receiveFromISR.cpp] makes one receive call more than
    there are characters, gives [sendCharacter] exactly these characters in
    the order received, and then yields once if one of the calls, the last
    one included, left [pdTRUE] in [taskWoken], and not at all otherwise;
    the loop ends within [fuel] passes when that is more than the number of
    characters. *)
Theorem ISR_Routine_sends_what_it_received {cfg : FreeRTOSConfig}
    (queue : QueueBase.t) (default_char : ascii)
    (answers : list (ascii * BaseType_t)) (fuel : nat)
    (r : BaseType_t) (item : ascii) (w : BaseType_t) :
  (List.length answers < fuel)%nat ->
  r <> pdTRUE ->
  let c := receiveFromISR_cpp.receive_call queue default_char in
  Runs (receiveFromISR_cpp.ISR_Routine queue default_char fuel)
    (map (fun a => answered c (pdTRUE, fst a, snd a)) answers
     ++ [answered c (r, item, w)]
     ++ (if existsb (fun x => x =? pdTRUE) (map snd answers ++ [w])
         then [answered taskYIELD tt] else []))
    (Some (map fst answers)).
Proof.
  intros Hfuel Hr c. unfold receiveFromISR_cpp.ISR_Routine.
  rewrite app_assoc.
  eapply Runs_bind.
  - apply (while_receive_Runs queue default_char answers false []
             item w Hfuel Hr).
  - cbn. destruct (existsb _ _); cbn.
    + exists tt, []. split; [reflexivity | ]. split; reflexivity.
    + split; reflexivity.
Qed.

(** The routine at a kernel that hands over ['a'] and ['b'], wakes a task
    with the second, and then reports the queue empty. *)
Lemma ISR_Routine_two_characters :
  let c := receiveFromISR_cpp.receive_call (cfg := FreeRTOS_port)
             {| QueueBase.handle := Ptr 1 |} " "%char in
  Runs (receiveFromISR_cpp.ISR_Routine (cfg := FreeRTOS_port)
          {| QueueBase.handle := Ptr 1 |} " "%char 3)
    [answered c (1, "a"%char, 0); answered c (1, "b"%char, 1);
     answered c (0, " "%char, 0); answered taskYIELD tt]
    (Some ["a"%char; "b"%char]).
Proof.
  exact (@ISR_Routine_sends_what_it_received FreeRTOS_port
           {| QueueBase.handle := Ptr 1 |} " "%char
           [("a"%char, 0); ("b"%char, 1)] 3 0 " "%char 0
           ltac:(cbn; lia) ltac:(cbn; lia)).
Defined.

(** X14: in a pass of the loop of [examples/Task/notifyWait.cpp] the task
    waits once, with nothing cleared and without a timeout of its own, and
    then processes exactly the events whose bit, 0, 1 or 2, is set in the
    notification value the kernel gave, in this order, whatever
    [xTaskNotifyWaitIndexed] returned: taking the value as
    [NotificationBits] loses none of the bits. *)
Theorem notified_events_are_the_set_bits {cfg : FreeRTOSConfig}
    (portMAX_DELAY : TickType_t) (S : Type) (K : Kernel S) (s : S) :
  let c := xTaskNotifyWaitIndexed 0 0 0 portMAX_DELAY in
  let value := snd (fst (K _ c s)) in
  calls K (notifyWait_cpp.loop_body portMAX_DELAY) s = [anycall c]
  /\ result K (notifyWait_cpp.loop_body portMAX_DELAY) s
     = filter (fun e => Z.testbit value (notifyWait_cpp.bit_of e))
         [notifyWait_cpp.Bit0Event; notifyWait_cpp.Bit1Event;
          notifyWait_cpp.Bit2Event]
  /\ (forall i, 0 <= i < 32 ->
        Z.testbit (TaskBase.NotificationBits value) i = Z.testbit value i).
Proof.
  intros c value. subst c value.
  assert (Hbit : forall v i, 0 <= i < 32 ->
            Z.testbit (TaskBase.NotificationBits v) i = Z.testbit v i).
  { intros v i Hi. unfold TaskBase.NotificationBits.
    rewrite Z.land_spec, Z.ones_spec_low by lia. apply andb_true_r. }
  unfold calls, result, notifyWait_cpp.loop_body.
  cbn -[Z.testbit TaskBase.NotificationBits].
  unfold TaskBase.to_ulong. unfold_port_types.
  destruct (K (Z * Z)%type (xTaskNotifyWaitIndexed 0 0 0 portMAX_DELAY) s)
    as [[r v] s1].
  cbn -[Z.testbit TaskBase.NotificationBits]. rewrite !Hbit by lia.
  split; [reflexivity | split; [ | intros i Hi; apply Hbit; exact Hi]].
  destruct (Z.testbit v 0), (Z.testbit v 1), (Z.testbit v 2); reflexivity.
Qed.

(** X15: [demoISR] of the example of [enterCriticalFromISR] restores the
    interrupt status in the reverse order of saving it: the nested
    [demoFunction] hands back the status its own [enterCriticalFromISR]
    returned, and [demoISR] then hands back the one it saved first, whatever
    the kernel returned. *)
Theorem interrupt_status_is_restored_in_reverse_order (S : Type)
    (K : Kernel S) (s : S) :
  exists outer inner : uint32_t,
    trace K enterCriticalFromISR_cpp.demoISR s
    = [answered taskENTER_CRITICAL_FROM_ISR outer;
       answered taskENTER_CRITICAL_FROM_ISR inner;
       answered (taskEXIT_CRITICAL_FROM_ISR inner) tt;
       answered (taskEXIT_CRITICAL_FROM_ISR outer) tt].
Proof.
  cbn. unfold_port_types.
  destruct (K Z taskENTER_CRITICAL_FROM_ISR s) as [outer s1].
  destruct (K Z taskENTER_CRITICAL_FROM_ISR s1) as [inner s2].
  destruct (K unit (taskEXIT_CRITICAL_FROM_ISR inner) s2) as [[] s3].
  destruct (K unit (taskEXIT_CRITICAL_FROM_ISR outer) s3) as [[] s4].
  exists outer, inner. reflexivity.
Qed.
